(** * container_service_extension/utils.py: a shallow embedding

    The helpers of [utils.py] sit on top of external collaborators (the
    vCD client, the org and catalog object model, the HTTP library, the
    file system).  Every collaborator call is modelled as an oracle that
    reads and updates an abstract world and either returns a value or
    raises; the helpers themselves are written in a small state and
    exception monad that records every collaborator call in a trace. *)

From Stdlib Require Import ZArith Lia Strings.Byte.
From stdpp Require Import gmap strings list fin_maps.

Set Warnings "-register-all".
Open Scope string_scope.
Open Scope list_scope.

(** ** Python values and exceptions *)

(** Values that end up in the connection cache and in [VSphere]. *)
Inductive pyval :=
| PNone
| PStr (s : string)
| PInt (z : Z).

(** Decoded JSON documents, as [json.loads] returns them. *)
Inductive json :=
| JNull
| JBool (b : bool)
| JNum (z : Z)
| JStr (s : string)
| JArr (l : list json)
| JObj (m : gmap string json).

(** The exceptions the module raises itself or lets through. *)
Inductive exn :=
| EntityNotFoundException (what : string)
| KeyError (key : string)
| AttributeError (what : string)
| TypeError (what : string)
| ValueError (what : string)
| UnicodeDecodeError
| JSONDecodeError
| XMLSyntaxError
| VcdResponseError (status_code : Z) (message : json)
| OSError (name : string)
| ExternalError (name : string).

Definition result (A : Type) : Type := (exn + A)%type.



(** ** Module constants *)

Definition SYSTEM_ORG_NAME : string := "System".
Definition ERROR_REASON : string := "reason".
Definition ERROR_MESSAGE : string := "message".
Definition ERROR_UNKNOWN : string := "unknown error".
Definition BUF_SIZE : Z := 65536.
Definition SIZE_1MB : Z := 1024 * 1024.
Definition CACHE_MAXSIZE : nat := 1024.

(** [requests.codes.ok], [.created], [.accepted]. *)
Definition codes_ok : Z := 200.
Definition codes_created : Z := 201.
Definition codes_accepted : Z := 202.

(** ** HTTP response decoding *)

Module Http.

(** [requests.models.Response]: only the two attributes the module reads.
    [content] is a byte string, or [None]. *)
Record Response := {
  status_code : Z;
  content : option (list Byte.byte)
}.

(** The decoders of the standard library and of lxml, used as given. *)
Record Codec := {
  (** [bytes.decode("utf-8")]; [None] stands for [UnicodeDecodeError]. *)
  decode_utf8 : list Byte.byte -> option string;
  (** [json.loads]; [None] stands for [JSONDecodeError]. *)
  json_loads : string -> option json;
  (** [objectify.fromstring]: the attributes of the root element;
      [None] stands for [XMLSyntaxError]. *)
  objectify_fromstring : list Byte.byte -> option (gmap string string)
}.

(** [needle in s] on Python strings. *)
Fixpoint str_contains (needle s : string) : bool :=
  String.prefix needle s ||
  match s with
  | EmptyString => false
  | String _ rest => str_contains needle rest
  end.

Definition json_is_str (key : string) (j : json) : bool :=
  match j with JStr s => bool_decide (s = key) | _ => false end.

(** [key in j]: membership on dicts, lists and strings; the other JSON
    values are not iterable. *)
Definition py_in (key : string) (j : json) : result bool :=
  match j with
  | JObj m => inr (bool_decide (is_Some (m !! key)))
  | JArr l => inr (existsb (json_is_str key) l)
  | JStr s => inr (str_contains key s)
  | _ => inl (TypeError "argument is not iterable")
  end.

(** [j[key]] with a string key. *)
Definition py_getitem (j : json) (key : string) : result json :=
  match j with
  | JObj m =>
      match m !! key with
      | Some v => inr v
      | None => inl (KeyError key)
      end
  | JArr _ => inl (TypeError "list indices must be integers")
  | JStr _ => inl (TypeError "string indices must be integers")
  | _ => inl (TypeError "object is not subscriptable")
  end.

Section WithCodec.
Variable codec : Codec.

Definition deserialize_response_content (response : Response) : result json :=
  match content response with
  | None => inl (AttributeError "decode")
  | Some bytes =>
      match decode_utf8 codec bytes with
      | None => inl UnicodeDecodeError
      | Some decoded =>
          if (0 <? String.length decoded)%nat then
            match json_loads codec decoded with
            | Some j => inr j
            | None => inl JSONDecodeError
            end
          else inr (JObj ∅)
      end
  end.

(** [obj.get(ERROR_MESSAGE)] gives the attribute or [None]. *)
Definition xml_get (attrs : gmap string string) (key : string) : json :=
  match attrs !! key with
  | Some s => JStr s
  | None => JNull
  end.

(** [response_to_exception] always raises; the model returns the
    exception it raises. *)
Definition response_to_exception (response : Response) : exn :=
  if (status_code response =? 504)%Z then
    match content response with
    | Some (b :: bs) =>
        match objectify_fromstring codec (b :: bs) with
        | Some obj =>
            VcdResponseError (status_code response) (xml_get obj ERROR_MESSAGE)
        | None => XMLSyntaxError
        end
    | _ => VcdResponseError (status_code response) (JStr "An error has occurred.")
    end
  else
    match deserialize_response_content response with
    | inl e => e
    | inr content =>
        match py_in ERROR_MESSAGE content with
        | inl e => e
        | inr true =>
            match py_getitem content ERROR_MESSAGE with
            | inl e => e
            | inr msg =>
                match py_in ERROR_REASON msg with
                | inl e => e
                | inr true =>
                    match py_getitem msg ERROR_REASON with
                    | inl e => e
                    | inr reason => VcdResponseError (status_code response) reason
                    end
                | inr false => VcdResponseError (status_code response) msg
                end
            end
        | inr false =>
            VcdResponseError (status_code response) (JStr ERROR_UNKNOWN)
        end
    end.

Definition process_response (response : Response) : result json :=
  if bool_decide (status_code response ∈ [codes_ok; codes_created; codes_accepted])
  then deserialize_response_content response
  else inl (response_to_exception response).


End WithCodec.

(** A codec for examples: ASCII text, and the two JSON documents [{}]
    and [[]]; every other text is rejected, as [json.loads] rejects
    markup. *)
Definition ascii_only (bytes : list Byte.byte) : bool :=
  forallb (fun b => (Byte.to_nat b <? 128)%nat) bytes.

Definition sample_codec : Codec := {|
  decode_utf8 bytes :=
    if ascii_only bytes then Some (String.string_of_list_byte bytes) else None;
  json_loads s :=
    if bool_decide (s = "{}") then Some (JObj ∅)
    else if bool_decide (s = "[]") then Some (JArr [])
    else None;
  objectify_fromstring _ := None
|}.

Definition respond (code : Z) (body : string) : Response :=
  {| status_code := code; content := Some (String.list_byte_of_string body) |}.

End Http.


(** ** Collaborator calls and the monad of the helpers *)

(** The vCD objects the helpers pass around. *)
Record BasicLoginCredentials := {
  cred_user : string;
  cred_org : string;
  cred_password : string
}.

(** [pyvcloud.vcd.client.Client]: the constructor arguments and, once
    [set_credentials] has logged in, the session. *)
Record Client := {
  uri : string;
  api_version : string;
  verify_ssl_certs : bool;
  session : option nat
}.

Record VApp := { vapp_client : Client; href : string }.
Record VmResource := { id : string; vm_href : string }.
Record Vcenter := { Url_text : string }.
Record Org := { org_href : string }.
Record CatalogItem := { Entity_href : string }.
Definition Task := string.
Record Resource := { Tasks : list Task }.

(** The call [VSphere(a, b, c, d)] that ends [get_vsphere], by its four
    positional arguments in their order.  The class is the one of
    vsphere_guest_run and no part of the module; its constructor reads
    [VSphere(host, user, password, verify=True, port=443)], so the
    fourth argument is taken as [verify] and is not the port of the
    connection. *)
Record VSphere := {
  vs_arg1 : pyval;
  vs_arg2 : pyval;
  vs_arg3 : pyval;
  vs_arg4 : pyval
}.

(** One constructor per collaborator call that leaves the process, and
    one for the entry into the module's own poll primitive. *)
Inductive event :=
| EvWaitForCatalogItem (catalog_name item_name : string)
| EvSetCredentials (uri : string) (creds : BasicLoginCredentials)
| EvVAppGetVm (vapp : VApp) (vm_name : string)
| EvVmGetVc (vm : VmResource)
| EvGetVcenter (vcenter_name : string)
| EvGetOrg (org_name : option string)
| EvGetCatalogItem (catalog_name item_name : string)
| EvDeleteCatalogItem (catalog_name item_name : string)
| EvUploadOvf (catalog_name filepath : string)
| EvReload (org : Org)
| EvGetResource (href : string)
| EvWaitForSuccess (task : Task)
| EvRequestsGet (url : string).

(** A computation reads and updates a state, returns or raises, and
    yields the calls it made.  The state survives an exception. *)
Definition M (S A : Type) : Type := S -> result A * S * list event.

Definition ret {S A} (a : A) : M S A := fun s => (inr a, s, []).

Definition raise {S A} (e : exn) : M S A := fun s => (inl e, s, []).

Definition bind {S A B} (m : M S A) (k : A -> M S B) : M S B :=
  fun s =>
    match m s with
    | (inl e, s1, t1) => (inl e, s1, t1)
    | (inr a, s1, t1) =>
        match k a s1 with
        | (r, s2, t2) => (r, s2, t1 ++ t2)
        end
    end.

(** [try: m except EntityNotFoundException: h]. *)
Definition try_except_EntityNotFound {S A} (m : M S A) (h : M S A) : M S A :=
  fun s =>
    match m s with
    | (inl (EntityNotFoundException _), s1, t1) =>
        match h s1 with
        | (r, s2, t2) => (r, s2, t1 ++ t2)
        end
    | other => other
    end.

(** A collaborator call: the oracle runs on the state and the call is
    recorded, whether it returns or raises. *)
Definition call {S A} (ev : event) (oracle : S -> result A * S) : M S A :=
  fun s => match oracle s with (r, s1) => (r, s1, [ev]) end.

Definition lift {S A} (r : result A) : M S A := fun s => (r, s, []).

(** Records an event without calling anything. *)
Definition mark {S} (ev : event) : M S unit := fun s => (inr tt, s, [ev]).

#[global] Instance M_ret {S} : MRet (M S) := fun A => ret.
#[global] Instance M_bind {S} : MBind (M S) := fun A B k m => bind m k.

Definition events_of {S A} (out : result A * S * list event) : list event :=
  snd out.
Definition state_of {S A} (out : result A * S * list event) : S :=
  snd (fst out).
Definition result_of {S A} (out : result A * S * list event) : result A :=
  fst (fst out).

(** ** The bounded cache *)

Module Lru.

(** Modelled from the spec: [cachetools.LRUCache] is imported, its code
    is not part of the module.  The spec describes a fixed-capacity
    least-recently-used map: a lookup or a store makes the key the most
    recently used one, and a store of a new key into a full cache first
    evicts the least recently used key.  [entries] lists the keys from
    the least to the most recently used; every value counts for one. *)
Record LRUCache (V : Type) := {
  maxsize : nat;
  entries : list (string * V)
}.
Arguments maxsize {V} _.
Arguments entries {V} _.

Section Ops.
Context {V : Type}.

Definition empty (n : nat) : LRUCache V := {| maxsize := n; entries := [] |}.

Definition keys (c : LRUCache V) : list string := (entries c).*1.

Definition currsize (c : LRUCache V) : nat := length (entries c).

Fixpoint assoc (k : string) (l : list (string * V)) : option V :=
  match l with
  | [] => None
  | (k', v) :: rest => if bool_decide (k' = k) then Some v else assoc k rest
  end.

Definition remove (k : string) (l : list (string * V)) : list (string * V) :=
  filter (fun kv => kv.1 ≠ k) l.

(** [key in cache]: no effect on the order. *)
Definition contains (k : string) (c : LRUCache V) : bool :=
  bool_decide (is_Some (assoc k (entries c))).

(** [cache[key]]: the value, and the key becomes the most recent. *)
Definition getitem (k : string) (c : LRUCache V) : result V * LRUCache V :=
  match assoc k (entries c) with
  | Some v =>
      (inr v, {| maxsize := maxsize c;
                 entries := remove k (entries c) ++ [(k, v)] |})
  | None => (inl (KeyError k), c)
  end.

(** [popitem] until one more value fits. *)
Fixpoint evict (n : nat) (l : list (string * V)) : list (string * V) :=
  match l with
  | [] => []
  | _ :: rest => if (n <? length l + 1)%nat then evict n rest else l
  end.

(** [cache[key] = value]. *)
Definition setitem (k : string) (v : V) (c : LRUCache V)
  : result unit * LRUCache V :=
  if (maxsize c <? 1)%nat then (inl (ValueError "value too large"), c)
  else
    let kept :=
      if contains k c then remove k (entries c)
      else evict (maxsize c) (entries c) in
    (inr tt, {| maxsize := maxsize c; entries := kept ++ [(k, v)] |}).

(** The least recently used key, if any. *)
Definition lru_key (c : LRUCache V) : option string :=
  match entries c with
  | [] => None
  | (k, _) :: _ => Some k
  end.

(** What holds of the cache at rest: no key twice, size within bounds. *)
Definition wf (c : LRUCache V) : Prop :=
  NoDup (keys c) ∧ (currsize c <= maxsize c)%nat.

End Ops.
End Lru.


(** ** The vCD platform, as the helpers see it *)

(** Every method of the client and of the object model that talks to the
    platform, as an oracle over an abstract world [W].  An oracle may
    raise anything; the helpers only tell [EntityNotFoundException]
    apart. *)
Record Vcd (W : Type) := {
  set_credentials : Client -> BasicLoginCredentials -> W -> result Client * W;
  vapp_get_vm : VApp -> string -> W -> result VmResource * W;
  vm_get_vc : Client -> VmResource -> W -> result string * W;
  platform_get_vcenter : Client -> string -> W -> result Vcenter * W;
  (** [urlparse(text)] with its [hostname] and [port] properties. *)
  urlparse : string -> result (pyval * pyval);
  client_get_org : Client -> W -> result Org * W;
  client_get_org_by_name : Client -> string -> W -> result Org * W;
  org_get_catalog_item : Org -> string -> string -> W -> result CatalogItem * W;
  org_delete_catalog_item : Org -> string -> string -> W -> result unit * W;
  org_upload_ovf : Org -> string -> string -> W -> result unit * W;
  org_reload : Org -> W -> result unit * W;
  client_get_resource : Client -> string -> W -> result Resource * W;
  wait_for_success : Client -> Task -> W -> result unit * W;
  (** [pathlib.Path(filepath).name]. *)
  path_name : string -> string
}.
Arguments set_credentials {W} _.
Arguments vapp_get_vm {W} _.
Arguments vm_get_vc {W} _.
Arguments platform_get_vcenter {W} _.
Arguments urlparse {W} _.
Arguments client_get_org {W} _.
Arguments client_get_org_by_name {W} _.
Arguments org_get_catalog_item {W} _.
Arguments org_delete_catalog_item {W} _.
Arguments org_upload_ovf {W} _.
Arguments org_reload {W} _.
Arguments client_get_resource {W} _.
Arguments wait_for_success {W} _.
Arguments path_name {W} _.

(** ** Catalog upload *)

Module Catalog.
Section WithVcd.
Context {W : Type} (vcd : Vcd W).

Definition get_org (client : Client) (org_name : option string) : M W Org :=
  match org_name with
  | None => call (EvGetOrg None) (client_get_org vcd client)
  | Some name =>
      call (EvGetOrg (Some name)) (client_get_org_by_name vcd client name)
  end.

Definition catalog_item_exists (org : Org) (catalog_name catalog_item_name : string)
  : M W bool :=
  try_except_EntityNotFound
    (call (EvGetCatalogItem catalog_name catalog_item_name)
       (org_get_catalog_item vcd org catalog_name catalog_item_name);;
     mret true)
    (mret false).

(** [resource.Tasks.Task[0]]: lxml raises [AttributeError] when the
    resource has no task. *)
Definition first_task (resource : Resource) : result Task :=
  match Tasks resource with
  | task :: _ => inr task
  | [] => inl (AttributeError "no such child: Tasks")
  end.

(** [if org is None: org = get_org(client, org_name=org_name)]. *)
Definition org_or_get_org (client : Client) (org : option Org)
    (org_name : option string) : M W Org :=
  match org with
  | None => get_org client org_name
  | Some o => mret o
  end.

Definition wait_for_catalog_item_to_resolve
    (client : Client) (catalog_name catalog_item_name : string)
    (org : option Org) (org_name : option string) : M W unit :=
  mark (EvWaitForCatalogItem catalog_name catalog_item_name);;
  org ← org_or_get_org client org org_name;
  item ← call (EvGetCatalogItem catalog_name catalog_item_name)
           (org_get_catalog_item vcd org catalog_name catalog_item_name);
  resource ← call (EvGetResource (Entity_href item))
               (client_get_resource vcd client (Entity_href item));
  task ← lift (first_task resource);
  call (EvWaitForSuccess task) (wait_for_success vcd client task).

(** The console and logger messages are left out; they call nothing. *)
Definition upload_ova_to_catalog
    (client : Client) (catalog_name filepath : string) (update : bool)
    (org : option Org) (org_name : option string) : M W unit :=
  org ← org_or_get_org client org org_name;
  let catalog_item_name := path_name vcd filepath in
  skip ←
    (if update then
       try_except_EntityNotFound
         (call (EvDeleteCatalogItem catalog_name catalog_item_name)
            (org_delete_catalog_item vcd org catalog_name catalog_item_name);;
          call (EvReload org) (org_reload vcd org);;
          wait_for_catalog_item_to_resolve client catalog_name
            catalog_item_name (Some org) None;;
          mret false)
         (mret false)
     else
       try_except_EntityNotFound
         (call (EvGetCatalogItem catalog_name catalog_item_name)
            (org_get_catalog_item vcd org catalog_name catalog_item_name);;
          mret true)
         (mret false));
  if (skip : bool) then mret tt
  else
    call (EvUploadOvf catalog_name filepath)
      (org_upload_ovf vcd org catalog_name filepath);;
    call (EvReload org) (org_reload vcd org);;
    wait_for_catalog_item_to_resolve client catalog_name catalog_item_name
      (Some org) None.

End WithVcd.

(** The steps of the upload workflow: a delete, an upload, an entry into
    the poll primitive. *)
Definition is_workflow_step (e : event) : bool :=
  match e with
  | EvDeleteCatalogItem _ _ | EvUploadOvf _ _ | EvWaitForCatalogItem _ _ => true
  | _ => false
  end.

Definition workflow_steps (trace : list event) : list event :=
  filter is_workflow_step trace.

(** The calls of the upload workflow that act on the platform: a
    delete, an upload, a wait on a task. *)
Definition is_workflow_call (e : event) : bool :=
  match e with
  | EvDeleteCatalogItem _ _ | EvUploadOvf _ _ | EvWaitForSuccess _ => true
  | _ => false
  end.

Definition workflow_calls (trace : list event) : list event :=
  filter is_workflow_call trace.

Definition is_upload (e : event) : bool :=
  match e with EvUploadOvf _ _ => true | _ => false end.

Definition is_task_wait (e : event) : bool :=
  match e with EvWaitForSuccess _ => true | _ => false end.

Definition uploads (trace : list event) : nat :=
  length (filter is_upload trace).

Definition task_waits (trace : list event) : list event :=
  filter is_task_wait trace.

End Catalog.

(** ** The connection resolver *)

Record VcdConfig := {
  vcd_host : string;
  vcd_api_version : string;
  vcd_verify : bool;
  vcd_username : string;
  vcd_password : string
}.

(** One entry of [config['vcs']]. *)
Record VcEntry := {
  vc_name : string;
  vc_username : pyval;
  vc_password : pyval
}.

Record Config := { vcd_section : VcdConfig; vcs : list VcEntry }.

Module Vsphere.
Import Lru.

(** The module-level [cache] next to the platform's world. *)
Record State (W : Type) := {
  cache : LRUCache (gmap string pyval);
  world : W
}.
Arguments cache {W} _.
Arguments world {W} _.

(** [cache = LRUCache(maxsize=1024)]. *)
Definition initial_cache : LRUCache (gmap string pyval) := empty CACHE_MAXSIZE.

Section WithVcd.
Context {W : Type} (vcd : Vcd W).

Definition on_world {A} (oracle : W -> result A * W)
  : State W -> result A * State W :=
  fun s => match oracle (world s) with
           | (r, w) => (r, {| cache := cache s; world := w |})
           end.

Definition on_cache {A}
    (op : LRUCache (gmap string pyval) -> result A * LRUCache (gmap string pyval))
  : M (State W) A :=
  fun s => match op (cache s) with
           | (r, c) => (r, {| cache := c; world := world s |}, [])
           end.

(** [d[key]] on a dictionary. *)
Definition dict_getitem (d : gmap string pyval) (key : string) : result pyval :=
  match d !! key with
  | Some v => inr v
  | None => inl (KeyError key)
  end.

(** [cache[vm_id][key]]. *)
Definition cache_field (vm_id key : string) : M (State W) pyval :=
  item ← on_cache (getitem vm_id);
  lift (dict_getitem item key).

(** The loop over [config['vcs']]: the first entry of that name fills in
    the credentials, and the loop stops. *)
Fixpoint for_vc_in_vcs (vcs : list VcEntry) (vcenter_name : string)
    (cache_item : gmap string pyval) : gmap string pyval :=
  match vcs with
  | [] => cache_item
  | vc :: rest =>
      if bool_decide (vc_name vc = vcenter_name) then
        <["password" := vc_password vc]>
          (<["username" := vc_username vc]> cache_item)
      else for_vc_in_vcs rest vcenter_name cache_item
  end.

Definition get_vsphere (config : Config) (vapp : VApp) (vm_name : string)
    (logger : bool) : M (State W) VSphere :=
  vm ← call (EvVAppGetVm vapp vm_name) (on_world (vapp_get_vm vcd vapp vm_name));
  let vm_id := id vm in
  in_cache ← on_cache (fun c => (inr (contains vm_id c), c));
  (if negb in_cache then
     let client := {| uri := vcd_host (vcd_section config);
                      api_version := vcd_api_version (vcd_section config);
                      verify_ssl_certs := vcd_verify (vcd_section config);
                      session := None |} in
     let credentials := {| cred_user := vcd_username (vcd_section config);
                           cred_org := SYSTEM_ORG_NAME;
                           cred_password := vcd_password (vcd_section config) |} in
     client ← call (EvSetCredentials (uri client) credentials)
                (on_world (set_credentials vcd client credentials));
     let vapp := {| vapp_client := client; href := href vapp |} in
     vm_resource ← call (EvVAppGetVm vapp vm_name)
                     (on_world (vapp_get_vm vcd vapp vm_name));
     vcenter_name ← call (EvVmGetVc vm_resource)
                      (on_world (vm_get_vc vcd client vm_resource));
     vcenter ← call (EvGetVcenter vcenter_name)
                 (on_world (platform_get_vcenter vcd client vcenter_name));
     vcenter_url ← lift (urlparse vcd (Url_text vcenter));
     let cache_item : gmap string pyval :=
       {[ "hostname" := vcenter_url.1; "port" := vcenter_url.2 ]} in
     let cache_item := for_vc_in_vcs (vcs config) vcenter_name cache_item in
     on_cache (setitem vm_id cache_item)
   else mret tt);;
  (if logger then cache_field vm_id "hostname";; mret tt else mret tt);;
  hostname ← cache_field vm_id "hostname";
  username ← cache_field vm_id "username";
  password ← cache_field vm_id "password";
  port ← cache_field vm_id "port";
  mret {| vs_arg1 := hostname; vs_arg2 := username;
          vs_arg3 := password; vs_arg4 := port |}.

(** Lines 599 to 603 of [get_vsphere]: the debug message and the return
    expression. *)
Definition return_endpoint (vm_id : string) (logger : bool)
  : M (State W) VSphere :=
  (if logger then cache_field vm_id "hostname";; mret tt else mret tt);;
  hostname ← cache_field vm_id "hostname";
  username ← cache_field vm_id "username";
  password ← cache_field vm_id "password";
  port ← cache_field vm_id "port";
  mret {| vs_arg1 := hostname; vs_arg2 := username;
          vs_arg3 := password; vs_arg4 := port |}.

(** The steps of the miss branch that come before the cache is written:
    login, fresh handle on the vApp, the VM, its vCenter name, the
    vCenter record, and the parsed URL. *)
Definition resolution_chain (config : Config) (vapp : VApp) (vm_name : string)
  : M (State W) (string * (pyval * pyval)) :=
  let client := {| uri := vcd_host (vcd_section config);
                   api_version := vcd_api_version (vcd_section config);
                   verify_ssl_certs := vcd_verify (vcd_section config);
                   session := None |} in
  let credentials := {| cred_user := vcd_username (vcd_section config);
                        cred_org := SYSTEM_ORG_NAME;
                        cred_password := vcd_password (vcd_section config) |} in
  client ← call (EvSetCredentials (uri client) credentials)
             (on_world (set_credentials vcd client credentials));
  let vapp := {| vapp_client := client; href := href vapp |} in
  vm_resource ← call (EvVAppGetVm vapp vm_name)
                  (on_world (vapp_get_vm vcd vapp vm_name));
  vcenter_name ← call (EvVmGetVc vm_resource)
                   (on_world (vm_get_vc vcd client vm_resource));
  vcenter ← call (EvGetVcenter vcenter_name)
              (on_world (platform_get_vcenter vcd client vcenter_name));
  vcenter_url ← lift (urlparse vcd (Url_text vcenter));
  mret (vcenter_name, vcenter_url).

(** The client and the credentials of the miss branch. *)
Definition system_client (config : Config) : Client :=
  {| uri := vcd_host (vcd_section config);
     api_version := vcd_api_version (vcd_section config);
     verify_ssl_certs := vcd_verify (vcd_section config);
     session := None |}.

Definition system_credentials (config : Config) : BasicLoginCredentials :=
  {| cred_user := vcd_username (vcd_section config);
     cred_org := SYSTEM_ORG_NAME;
     cred_password := vcd_password (vcd_section config) |}.

(** One of the five steps of the chain raises [e], the earlier ones
    having returned: the login, the fresh look at the VM, the name of
    its vCenter, the vCenter record, the parsing of its URL. *)
Inductive step_fails (config : Config) (vapp : VApp) (vm_name : string)
    (w : W) (e : exn) : Prop :=
| login_fails w' :
    set_credentials vcd (system_client config) (system_credentials config) w
    = (inl e, w') ->
    step_fails config vapp vm_name w e
| vm_lookup_fails client w2 w' :
    set_credentials vcd (system_client config) (system_credentials config) w
    = (inr client, w2) ->
    vapp_get_vm vcd {| vapp_client := client; href := href vapp |} vm_name w2
    = (inl e, w') ->
    step_fails config vapp vm_name w e
| vcenter_name_fails client w2 vm_resource w3 w' :
    set_credentials vcd (system_client config) (system_credentials config) w
    = (inr client, w2) ->
    vapp_get_vm vcd {| vapp_client := client; href := href vapp |} vm_name w2
    = (inr vm_resource, w3) ->
    vm_get_vc vcd client vm_resource w3 = (inl e, w') ->
    step_fails config vapp vm_name w e
| vcenter_query_fails client w2 vm_resource w3 vcenter_name w4 w' :
    set_credentials vcd (system_client config) (system_credentials config) w
    = (inr client, w2) ->
    vapp_get_vm vcd {| vapp_client := client; href := href vapp |} vm_name w2
    = (inr vm_resource, w3) ->
    vm_get_vc vcd client vm_resource w3 = (inr vcenter_name, w4) ->
    platform_get_vcenter vcd client vcenter_name w4 = (inl e, w') ->
    step_fails config vapp vm_name w e
| url_parse_fails client w2 vm_resource w3 vcenter_name w4 vcenter w5 :
    set_credentials vcd (system_client config) (system_credentials config) w
    = (inr client, w2) ->
    vapp_get_vm vcd {| vapp_client := client; href := href vapp |} vm_name w2
    = (inr vm_resource, w3) ->
    vm_get_vc vcd client vm_resource w3 = (inr vcenter_name, w4) ->
    platform_get_vcenter vcd client vcenter_name w4 = (inr vcenter, w5) ->
    urlparse vcd (Url_text vcenter) = inl e ->
    step_fails config vapp vm_name w e.

(** The record the miss branch composes. *)
Definition compose_cache_item (config : Config) (vcenter_name : string)
    (vcenter_url : pyval * pyval) : gmap string pyval :=
  for_vc_in_vcs (vcs config) vcenter_name
    {[ "hostname" := vcenter_url.1; "port" := vcenter_url.2 ]}.

(** The return expression, read off one cached record. *)
Definition endpoint_of_entry (item : gmap string pyval) : result VSphere :=
  match dict_getitem item "hostname" with
  | inl e => inl e
  | inr hostname =>
    match dict_getitem item "username" with
    | inl e => inl e
    | inr username =>
      match dict_getitem item "password" with
      | inl e => inl e
      | inr password =>
        match dict_getitem item "port" with
        | inl e => inl e
        | inr port =>
            inr {| vs_arg1 := hostname; vs_arg2 := username;
                   vs_arg3 := password; vs_arg4 := port |}
        end
      end
    end
  end.

(** The states the process can be in: the cache starts empty, every
    call of [get_vsphere] moves on, and the platform may change in
    between. *)
Inductive reachable : State W -> Prop :=
| reach_start w : reachable {| cache := initial_cache; world := w |}
| reach_call s config vapp vm_name logger :
    reachable s ->
    reachable (state_of (get_vsphere config vapp vm_name logger s))
| reach_world s w :
    reachable s -> reachable {| cache := cache s; world := w |}.

End WithVcd.

Definition is_login (e : event) : bool :=
  match e with EvSetCredentials _ _ => true | _ => false end.

Definition logins (trace : list event) : nat := length (filter is_login trace).

End Vsphere.

(** ** File hashing and download *)

Module Download.

Inductive fsnode :=
| File (data : list Byte.byte)
| Dir.

(** [hashlib.sha256()], used as given. *)
Record Hasher := {
  hstate : Type;
  sha256_new : hstate;
  sha256_update : hstate -> list Byte.byte -> hstate;
  hexdigest : hstate -> string
}.

(** The file system is a map from paths to nodes; the network is an
    abstract world [N]. *)
Record Host (N : Type) := {
  fs : gmap string fsnode;
  net : N
}.
Arguments fs {N} _.
Arguments net {N} _.

(** What the operating system and [requests] do for [download_file]. *)
Record Os (N : Type) := {
  (** [path.parent.mkdir(parents=True, exist_ok=True)]. *)
  parent_mkdir : string -> gmap string fsnode -> result (gmap string fsnode);
  (** [requests.get(url, stream=True)] and then [iter_content]: the
      chunks that arrive, and the exception that ends the stream early,
      if one does. *)
  requests_get : string -> N -> result (list (list Byte.byte) * option exn) * N
}.
Arguments parent_mkdir {N} _.
Arguments requests_get {N} _.

Section WithOs.
Context (hasher : Hasher) {N : Type} (os : Os N).

(** The loop of [get_sha256]: read up to [BUF_SIZE] bytes, stop on an
    empty read, feed the hash otherwise.  Every turn but the last
    consumes a byte, so [length data] turns are enough and the count
    never cuts the loop short. *)
Fixpoint read_loop (turns : nat) (data : list Byte.byte) (sha256 : hstate hasher)
  : hstate hasher :=
  match turns with
  | O => sha256
  | S turns' =>
      match take (Z.to_nat BUF_SIZE) data with
      | [] => sha256
      | chunk =>
          read_loop turns' (drop (Z.to_nat BUF_SIZE) data)
            (sha256_update hasher sha256 chunk)
      end
  end.

Definition file_digest (data : list Byte.byte) : string :=
  hexdigest hasher (read_loop (length data) data (sha256_new hasher)).

Definition get_sha256 (files : gmap string fsnode) (filepath : string)
  : result string :=
  match files !! filepath with
  | Some (File data) => inr (file_digest data)
  | Some Dir => inl (OSError "IsADirectoryError")
  | None => inl (OSError "FileNotFoundError")
  end.

(** [path.is_file()]. *)
Definition is_file (files : gmap string fsnode) (filepath : string) : bool :=
  match files !! filepath with
  | Some (File _) => true
  | _ => false
  end.

Definition get_fs : M (Host N) (gmap string fsnode) :=
  fun s => (inr (fs s), s, []).

Definition put_fs (files : gmap string fsnode) : M (Host N) unit :=
  fun s => (inr tt, {| fs := files; net := net s |}, []).

Definition on_net {A} (oracle : N -> result A * N)
  : Host N -> result A * Host N :=
  fun s => match oracle (net s) with
           | (r, n) => (r, {| fs := fs s; net := n |})
           end.

(** [f.write(chunk)] on the file opened at [filepath]. *)
Definition write_chunk (filepath : string) (chunk : list Byte.byte)
  : M (Host N) unit :=
  files ← get_fs;
  match files !! filepath with
  | Some (File data) => put_fs (<[filepath := File (data ++ chunk)]> files)
  | _ => put_fs (<[filepath := File chunk]> files)
  end.

Fixpoint write_chunks (filepath : string) (chunks : list (list Byte.byte))
  : M (Host N) unit :=
  match chunks with
  | [] => mret tt
  | chunk :: rest => write_chunk filepath chunk;; write_chunks filepath rest
  end.

(** [sha256 is None or get_sha256(filepath) == sha256], evaluated only
    when the file is there. *)
Definition digest_matches (files : gmap string fsnode) (filepath : string)
    (sha256 : option string) : result bool :=
  match sha256 with
  | None => inr true
  | Some expected =>
      match get_sha256 files filepath with
      | inl e => inl e
      | inr digest => inr (bool_decide (digest = expected))
      end
  end.

(** The console and logger messages are left out. *)
Definition download_file (url filepath : string) (sha256 : option string)
  : M (Host N) unit :=
  files ← get_fs;
  skip ← (if is_file files filepath
          then lift (digest_matches files filepath sha256)
          else mret false);
  if (skip : bool) then mret tt
  else
    files ← lift (parent_mkdir os filepath files);
    put_fs files;;
    response ← call (EvRequestsGet url) (on_net (requests_get os url));
    (* path.open(mode='wb') *)
    match files !! filepath with
    | Some Dir => raise (OSError "IsADirectoryError")
    | _ =>
        put_fs (<[filepath := File []]> files);;
        write_chunks filepath response.1;;
        match response.2 with
        | Some e => raise e
        | None => mret tt
        end
    end.

End WithOs.
End Download.

(** ** A small platform for examples *)

Module Samples.

Record World := {
  sessions : nat;
  login_ok : bool;
  vcenter_of_vm : string;
  vcenters : list (string * string);
  items : list string;
  deleting : list string;
  lazy_delete : bool;
  upload_ok : bool
}.

Definition set_sessions (n : nat) (w : World) : World :=
  {| sessions := n; login_ok := login_ok w; vcenter_of_vm := vcenter_of_vm w;
     vcenters := vcenters w; items := items w; deleting := deleting w;
     lazy_delete := lazy_delete w; upload_ok := upload_ok w |}.

Definition set_items (its del : list string) (w : World) : World :=
  {| sessions := sessions w; login_ok := login_ok w;
     vcenter_of_vm := vcenter_of_vm w; vcenters := vcenters w;
     items := its; deleting := del;
     lazy_delete := lazy_delete w; upload_ok := upload_ok w |}.

Definition mem (x : string) (l : list string) : bool := bool_decide (x ∈ l).

Definition without (x : string) (l : list string) : list string :=
  filter (fun y => y ≠ x) l.

(** The text after the last slash. *)
Fixpoint basename (s : string) : string :=
  match s with
  | EmptyString => EmptyString
  | String c rest =>
      if Http.str_contains "/" rest then basename rest
      else if Ascii.eqb c (Ascii.ascii_of_nat 47) then rest
      else String c rest
  end.

Definition not_found (what : string) : exn :=
  EntityNotFoundException (what +:+ " not found.").

Definition vcd : Vcd World := {|
  set_credentials client creds w :=
    if login_ok w then
      (inr {| uri := uri client; api_version := api_version client;
              verify_ssl_certs := verify_ssl_certs client;
              session := Some (sessions w) |},
       set_sessions (S (sessions w)) w)
    else (inl (ExternalError "Unauthorized"), w);
  vapp_get_vm vapp vm_name w :=
    (inr {| id := "urn:vcloud:vm:" +:+ vm_name;
            vm_href := href vapp +:+ "/" +:+ vm_name |}, w);
  vm_get_vc client vm w := (inr (vcenter_of_vm w), w);
  platform_get_vcenter client vcenter_name w :=
    match Lru.assoc vcenter_name (vcenters w) with
    | Some url => (inr {| Url_text := url |}, w)
    | None => (inl (not_found "vCenter"), w)
    end;
  urlparse text :=
    if bool_decide (text = "") then inl (ValueError "Port could not be cast")
    else inr (PStr text, PInt 443);
  client_get_org client w := (inr {| org_href := "org/current" |}, w);
  client_get_org_by_name client org_name w :=
    (inr {| org_href := "org/" +:+ org_name |}, w);
  org_get_catalog_item org catalog_name item_name w :=
    if mem item_name (items w)
    then (inr {| Entity_href := "entity/" +:+ item_name |}, w)
    else (inl (not_found "Catalog item"), w);
  org_delete_catalog_item org catalog_name item_name w :=
    if mem item_name (items w) then
      if lazy_delete w
      then (inr tt, set_items (items w) (item_name :: deleting w) w)
      else (inr tt, set_items (without item_name (items w)) (deleting w) w)
    else (inl (not_found "Catalog item"), w);
  org_upload_ovf org catalog_name filepath w :=
    if upload_ok w
    then (inr tt, set_items (basename filepath :: items w) (deleting w) w)
    else (inl (ExternalError "UploadException"), w);
  org_reload org w := (inr tt, w);
  client_get_resource client href w := (inr {| Tasks := ["task/" +:+ href] |}, w);
  wait_for_success client task w :=
    (inr tt,
     set_items (filter (fun x => x ∉ deleting w) (items w)) [] w);
  path_name := basename
|}.

Definition world0 : World := {|
  sessions := 0; login_ok := true; vcenter_of_vm := "vc2";
  vcenters := [("vc1", "vc1.example.com"); ("vc2", "vc2.example.com");
               ("vc3", "vc3.example.com")];
  items := []; deleting := []; lazy_delete := true; upload_ok := true
|}.

Definition config0 : Config := {|
  vcd_section := {| vcd_host := "vcd.example.com"; vcd_api_version := "29.0";
                    vcd_verify := true; vcd_username := "administrator";
                    vcd_password := "secret" |};
  vcs := [ {| vc_name := "vc1"; vc_username := PStr "u1"; vc_password := PStr "p1" |};
           {| vc_name := "vc2"; vc_username := PStr "u2"; vc_password := PStr "p2" |} ]
|}.

Definition caller_client : Client :=
  {| uri := "vcd.example.com"; api_version := "29.0";
     verify_ssl_certs := true; session := Some 7 |}.

Definition vapp0 : VApp := {| vapp_client := caller_client; href := "vapp/1" |}.

Definition state0 : Vsphere.State World :=
  {| Vsphere.cache := Vsphere.initial_cache; Vsphere.world := world0 |}.

(** The same platform with the VM on a vCenter the configuration does
    not list. *)
Definition world_vc3 : World := {|
  sessions := 0; login_ok := true; vcenter_of_vm := "vc3";
  vcenters := vcenters world0;
  items := []; deleting := []; lazy_delete := true; upload_ok := true
|}.

Definition state_vc3 : Vsphere.State World :=
  {| Vsphere.cache := Vsphere.initial_cache; Vsphere.world := world_vc3 |}.

(** The same platform with the VM on a vCenter the platform does not
    know either. *)
Definition world_lost : World := {|
  sessions := 0; login_ok := true; vcenter_of_vm := "vc9";
  vcenters := vcenters world0;
  items := []; deleting := []; lazy_delete := true; upload_ok := true
|}.

Definition state_lost : Vsphere.State World :=
  {| Vsphere.cache := Vsphere.initial_cache; Vsphere.world := world_lost |}.

(** The same platform refusing the system credentials. *)
Definition world_locked : World := {|
  sessions := 0; login_ok := false; vcenter_of_vm := "vc2";
  vcenters := vcenters world0;
  items := []; deleting := []; lazy_delete := true; upload_ok := true
|}.

Definition state_locked : Vsphere.State World :=
  {| Vsphere.cache := Vsphere.initial_cache; Vsphere.world := world_locked |}.

Definition node1 : VmResource :=
  {| id := "urn:vcloud:vm:node-1"; vm_href := "vapp/1/node-1" |}.

(** The catalog with the image in it. *)
Definition world_with_image : World := set_items ["image.ova"] [] world0.

(** The same on a platform that unlists a deleted item at once. *)
Definition world_eager : World := {|
  sessions := 0; login_ok := true; vcenter_of_vm := "vc2";
  vcenters := vcenters world0;
  items := ["image.ova"]; deleting := []; lazy_delete := false;
  upload_ok := true
|}.

Definition current_org : Org := {| org_href := "org/current" |}.
Definition image_item : CatalogItem := {| Entity_href := "entity/image.ova" |}.
Definition image_task : Task := "task/entity/image.ova".
Definition image_resource : Resource := {| Tasks := [image_task] |}.

(** A stand-in for the hash: the bytes themselves. *)
Definition plain_hasher : Download.Hasher := {|
  Download.hstate := list Byte.byte;
  Download.sha256_new := [];
  Download.sha256_update h chunk := h ++ chunk;
  Download.hexdigest h := String.string_of_list_byte h
|}.

(** A network that serves two chunks for any URL. *)
Definition os : Download.Os nat := {|
  Download.parent_mkdir filepath files := inr files;
  Download.requests_get url n :=
    (inr ([String.list_byte_of_string "new ";
           String.list_byte_of_string "image"], None), S n)
|}.

Definition disk : Download.Host nat := {|
  Download.fs := {[ "/tmp/image.ova" :=
                     Download.File (String.list_byte_of_string "old image") ]};
  Download.net := 0
|}.

(** 1024 distinct two-letter names. *)
Definition key_of (n : nat) : string :=
  String (Ascii.ascii_of_nat (48 + n / 32))
    (String (Ascii.ascii_of_nat (48 + n mod 32)) EmptyString).

(** A cache filled to capacity with the records of 1024 VMs, the one of
    [vm_key 0] stored first and not used since. *)
Definition vm_key (n : nat) : string := "urn:vcloud:vm:" +:+ key_of n.

Definition item2 : gmap string pyval :=
  {[ "hostname" := PStr "vc2.example.com"; "port" := PInt 443;
     "username" := PStr "u2"; "password" := PStr "p2" ]}.

Definition full_vm_cache : Lru.LRUCache (gmap string pyval) :=
  {| Lru.maxsize := CACHE_MAXSIZE;
     Lru.entries := (fun n => (vm_key n, item2)) <$> seq 0 CACHE_MAXSIZE |}.

Definition state_full : Vsphere.State World :=
  {| Vsphere.cache := full_vm_cache; Vsphere.world := world0 |}.

End Samples.

(** ** Error bodies *)

Definition ERROR_DESCRIPTION : string := "description".
Definition ERROR_STACKTRACE : string := "stacktrace".

Module ErrorJson.

(** A Python object as [error_to_json] sees it: its truth value (an
    exception object is true unless its class defines [__bool__] or
    [__len__] otherwise), its [str] and the lines of
    [traceback.format_exception]. *)
Record PyError := {
  error_truth : bool;
  error_str : string;
  error_traceback : list string
}.

(** [s.split(sep)] for a one-character separator: never empty. *)
Fixpoint split (sep : Ascii.ascii) (s : string) : list string :=
  match s with
  | EmptyString => [EmptyString]
  | String c rest =>
      if Ascii.eqb c sep then EmptyString :: split sep rest
      else
        match split sep rest with
        | piece :: pieces => String c piece :: pieces
        | [] => [String c EmptyString]
        end
  end.

Definition comma : Ascii.ascii := Ascii.ascii_of_nat 44.

(** [error] is [None] or an object; [if error:] tests its truth value,
    and [None] is false. *)
Definition truth (error : option PyError) : bool :=
  match error with
  | Some err => error_truth err
  | None => false
  end.

Definition error_to_json (error : option PyError) : result json :=
  match error with
  | Some err =>
      if error_truth err then
        let error_string := error_str err in
        let reasons := split comma error_string in
        match reasons !! 0%nat with
        | Some reason =>
            inr (JObj {[ ERROR_MESSAGE :=
                   JObj {[ ERROR_REASON := JStr reason;
                           ERROR_DESCRIPTION := JStr error_string;
                           ERROR_STACKTRACE :=
                             JArr (JStr <$> error_traceback err) ]} ]})
        | None => inl (ExternalError "IndexError")
        end
      else inr (JObj ∅)
  | None => inr (JObj ∅)
  end.

End ErrorJson.

(** ** Configuration and permission checks *)

Module Checks.

(** The values a loaded configuration holds. *)
Inductive cfgval :=
| CNone
| CBool (b : bool)
| CInt (z : Z)
| CFloat (repr : string)
| CStr (s : string)
| CList (l : list cfgval)
| CDict (d : gmap string cfgval).

Inductive pytype := TNoneType | TBool | TInt | TFloat | TStr | TList | TDict.

#[global] Instance pytype_eq_dec : EqDecision pytype.
Proof. solve_decision. Defined.

(** [type(v)]. *)
Definition type_of (v : cfgval) : pytype :=
  match v with
  | CNone => TNoneType
  | CBool _ => TBool
  | CInt _ => TInt
  | CFloat _ => TFloat
  | CStr _ => TStr
  | CList _ => TList
  | CDict _ => TDict
  end.

(** [isinstance(v, t)]: [bool] is a subclass of [int]. *)
Definition isinstance (v : cfgval) (t : pytype) : bool :=
  bool_decide (type_of v = t) ||
  (bool_decide (type_of v = TBool) && bool_decide (t = TInt)).

(** The table [_type_to_string]. *)
Definition _type_to_string (t : pytype) : option string :=
  match t with
  | TStr => Some "string"
  | TInt => Some "number"
  | TBool => Some "true/false"
  | TDict => Some "mapping"
  | TList => Some "sequence"
  | TNoneType | TFloat => None
  end.

Definition type_name (t : pytype) : string :=
  match t with
  | TNoneType => "NoneType" | TBool => "bool" | TInt => "int"
  | TFloat => "float" | TStr => "str" | TList => "list" | TDict => "dict"
  end.

(** The loop over [ref_keys]: a key the dictionary lacks is skipped; a
    value of the wrong type sets [bad_value], after a message that looks
    the type up in [_type_to_string] and so raises [KeyError] for a type
    the table lacks. *)
Fixpoint check_values (ref_items : list (string * cfgval))
    (dikt : gmap string cfgval) (bad_value : bool) : result bool :=
  match ref_items with
  | [] => inr bad_value
  | (k, ref_value) :: rest =>
      match dikt !! k with
      | None => check_values rest dikt bad_value
      | Some value =>
          let value_type := type_of ref_value in
          if negb (isinstance value value_type) then
            match _type_to_string value_type with
            | Some _ => check_values rest dikt true
            | None => inl (KeyError (type_name value_type))
            end
          else check_values rest dikt bad_value
      end
  end.

(** The console messages are left out; the set [ref_keys] is walked in
    the order of the map's keys. *)
Definition check_keys_and_value_types (dikt ref_dict : gmap string cfgval)
    (location : string) : result unit :=
  let ref_keys := dom ref_dict in
  let keys := dom dikt in
  let missing_keys : gset string := ref_keys ∖ keys in
  let invalid_keys : gset string := keys ∖ ref_keys in
  match check_values (map_to_list ref_dict) dikt false with
  | inl e => inl e
  | inr bad_value =>
      if negb (bool_decide (missing_keys = ∅)) || negb (bool_decide (invalid_keys = ∅))
      then inl (KeyError ("Missing and/or invalid key in " +:+ location))
      else if bad_value
      then inl (ValueError ("Incorrect type for property value(s) in " +:+ location))
      else inr tt
  end.

(** The permission bits of [stat]. *)
Definition S_IXUSR : Z := 64.
Definition S_IRGRP : Z := 32.
Definition S_IWGRP : Z := 16.
Definition S_IXGRP : Z := 8.
Definition S_IROTH : Z := 4.
Definition S_IWOTH : Z := 2.
Definition S_IXOTH : Z := 1.

(** The seven bits the check looks at, as one mask: [0o177]. *)
Definition checked_bits : Z := 127.

(** Truth of an integer. *)
Definition truthy (z : Z) : bool := negb (z =? 0)%Z.

Definition owner_msg (filename : string) : string :=
  "Remove execute permission of the Owner for the file " +:+ filename.
Definition others_msg (filename : string) : string :=
  "Remove read, write and execute permissions of Others for the file "
  +:+ filename.
Definition group_msg (filename : string) : string :=
  "Remove read, write and execute permissions of Group for the file "
  +:+ filename.

(** The list [err_msgs] for a file mode. *)
Definition err_msgs (filename : string) (file_mode : Z) : list string :=
  let msgs := [] in
  let msgs :=
    if truthy (Z.land file_mode S_IXUSR)
    then msgs ++ [owner_msg filename] else msgs in
  let msgs :=
    if truthy (Z.land file_mode S_IROTH) || truthy (Z.land file_mode S_IWOTH)
       || truthy (Z.land file_mode S_IXOTH)
    then msgs ++ [others_msg filename] else msgs in
  let msgs :=
    if truthy (Z.land file_mode S_IRGRP) || truthy (Z.land file_mode S_IWGRP)
       || truthy (Z.land file_mode S_IXGRP)
    then msgs ++ [group_msg filename] else msgs in
  msgs.

(** What [check_file_permissions] ends in: a return, the [IOError] with
    its messages, or what [os.stat] raised. *)
Inductive permission_outcome :=
| PermissionsOk
| PermissionsIOError (msgs : list string)
| StatRaised (e : exn).

Definition check_file_permissions (os_stat : string -> result Z)
    (filename : string) : permission_outcome :=
  match os_stat filename with
  | inl e => StatRaised e
  | inr file_mode =>
      match err_msgs filename file_mode with
      | [] => PermissionsOk
      | msgs => PermissionsIOError msgs
      end
  end.

(** The value under [k] has the type of the reference value, or there
    is none. *)
Definition well_typed (dikt : gmap string cfgval) (k : string) (ref_value : cfgval)
  : bool :=
  match dikt !! k with
  | Some value => isinstance value (type_of ref_value)
  | None => true
  end.

End Checks.

(** ** Script lookup *)

Definition CSE_SCRIPTS_DIR : string := "container_service_extension_scripts".

Module DataFile.
Section WithFiles.
(** [Path.is_file] and [Path.read_text], on the text a path is built
    from. *)
Context (is_file : string -> bool) (read_text : string -> result string).
(** [str(pathlib.Path())] and [sys.path]. *)
Context (cwd : string) (sys_path : list string).

Definition possible_paths (base_path filename : string) : list string :=
  [ base_path +:+ "/" +:+ CSE_SCRIPTS_DIR +:+ "/" +:+ filename;
    base_path +:+ "/" +:+ filename;
    base_path +:+ "/scripts/" +:+ filename ].

(** The inner loop: the first path that is a file. *)
Fixpoint first_file (paths : list string) : option string :=
  match paths with
  | [] => None
  | p :: rest => if is_file p then Some p else first_file rest
  end.

(** The outer loop: stop at the first base path that has the file. *)
Fixpoint search (base_paths : list string) (filename : string) : option string :=
  match base_paths with
  | [] => None
  | base_path :: rest =>
      match first_file (possible_paths base_path filename) with
      | Some path => Some path
      | None => search rest filename
      end
  end.

Definition get_data_file (filename : string) : result string :=
  let base_paths := cwd :: sys_path in
  match search base_paths filename with
  | None => inl (OSError "FileNotFoundError")
  | Some path => read_text path
  end.

(** Every path the two loops can look at, in the order they do. *)
Definition candidates (filename : string) : list string :=
  concat ((fun base_path => possible_paths base_path filename)
          <$> (cwd :: sys_path)).

End WithFiles.
End DataFile.

(** ** Catalog creation *)

Module CatalogAdmin.

Record CatalogResource := { catalog_href : string }.

(** The calls of [create_and_share_catalog]. *)
Inductive admin_event :=
| EvGetCatalog (catalog_name : string)
| EvCreateCatalog (catalog_name catalog_desc : string)
| EvShareCatalog (catalog_name : string)
| EvOrgReload.

(** The same monad as [M], over these calls. *)
Definition T (S A : Type) : Type := S -> result A * S * list admin_event.

Definition t_bind {S A B} (m : T S A) (k : A -> T S B) : T S B :=
  fun s =>
    match m s with
    | (inl e, s1, t1) => (inl e, s1, t1)
    | (inr a, s1, t1) =>
        match k a s1 with
        | (r, s2, t2) => (r, s2, t1 ++ t2)
        end
    end.

Definition t_ret {S A} (a : A) : T S A := fun s => (inr a, s, []).

Definition t_call {S A} (ev : admin_event) (oracle : S -> result A * S)
  : T S A :=
  fun s => match oracle s with (r, s1) => (r, s1, [ev]) end.

Definition t_events {S A} (out : result A * S * list admin_event)
  : list admin_event := snd out.
Definition t_state {S A} (out : result A * S * list admin_event) : S :=
  snd (fst out).
Definition t_result {S A} (out : result A * S * list admin_event) : result A :=
  fst (fst out).

#[global] Instance T_ret {S} : MRet (T S) := fun A => t_ret.
#[global] Instance T_bind {S} : MBind (T S) := fun A B k m => t_bind m k.

(** The methods of [Org] the function uses. *)
Record OrgAdmin (W : Type) := {
  get_catalog : string -> W -> result CatalogResource * W;
  create_catalog : string -> string -> W -> result unit * W;
  share_catalog : string -> W -> result unit * W;
  reload : W -> result unit * W
}.
Arguments get_catalog {W} _.
Arguments create_catalog {W} _.
Arguments share_catalog {W} _.
Arguments reload {W} _.

Section WithOrg.
Context {W : Type} (org : OrgAdmin W).

Definition catalog_exists (catalog_name : string) : T W bool :=
  fun w =>
    match t_call (EvGetCatalog catalog_name) (get_catalog org catalog_name) w with
    | (inr _, w1, t1) => (inr true, w1, t1)
    | (inl (EntityNotFoundException _), w1, t1) => (inr false, w1, t1)
    | (inl e, w1, t1) => (inl e, w1, t1)
    end.

(** The console and logger messages are left out. *)
Definition create_and_share_catalog (catalog_name catalog_desc : string)
  : T W CatalogResource :=
  found ← catalog_exists catalog_name;
  (if (found : bool) then mret tt
   else
     t_call (EvCreateCatalog catalog_name catalog_desc)
       (create_catalog org catalog_name catalog_desc);;
     t_call EvOrgReload (reload org));;
  t_call (EvShareCatalog catalog_name) (share_catalog org catalog_name);;
  t_call EvOrgReload (reload org);;
  t_call (EvGetCatalog catalog_name) (get_catalog org catalog_name).

End WithOrg.

Definition is_create (e : admin_event) : bool :=
  match e with EvCreateCatalog _ _ => true | _ => false end.

Definition is_share (e : admin_event) : bool :=
  match e with EvShareCatalog _ => true | _ => false end.

End CatalogAdmin.

(** ** When [download_file] downloads *)

Module DownloadGuard.
Import Download.

(** The guard of [download_file] does not hold: there is no regular
    file at [filepath], or a digest is asked for that the file does not
    have. *)
Definition must_download (hasher : Hasher) (files : gmap string fsnode)
    (filepath : string) (sha256 : option string) : Prop :=
  is_file files filepath = false ∨
  ∃ data expected,
    files !! filepath = Some (File data) ∧ sha256 = Some expected ∧
    file_digest hasher data ≠ expected.

End DownloadGuard.

(** ** More examples *)

Module MoreSamples.

(** A codec that decodes ASCII and reads every text as one fixed
    document. *)
Definition fixed_codec (document : json) : Http.Codec := {|
  Http.decode_utf8 bytes :=
    if Http.ascii_only bytes then Some (String.string_of_list_byte bytes)
    else None;
  Http.json_loads _ := Some document;
  Http.objectify_fromstring _ := None
|}.

Definition disk_full : ErrorJson.PyError := {|
  ErrorJson.error_truth := true;
  ErrorJson.error_str := "disk full, retry later";
  ErrorJson.error_traceback := ["Traceback (most recent call last):"]
|}.


(** A reference configuration and three candidates. *)
Definition ref_config : gmap string Checks.cfgval :=
  {[ "host" := Checks.CStr "vcd.example.com"; "port" := Checks.CInt 443;
     "verify" := Checks.CBool true ]}.

Definition good_config : gmap string Checks.cfgval :=
  {[ "host" := Checks.CStr "10.0.0.1"; "port" := Checks.CBool false;
     "verify" := Checks.CBool false ]}.

Definition short_config : gmap string Checks.cfgval :=
  {[ "host" := Checks.CInt 1; "port" := Checks.CInt 443 ]}.

Definition bad_config : gmap string Checks.cfgval :=
  {[ "host" := Checks.CStr "10.0.0.1"; "port" := Checks.CStr "443";
     "verify" := Checks.CBool false ]}.

(** [os.stat] on a machine with two files. *)
Definition stat_modes : gmap string Z :=
  {[ "config.yaml" := 33152%Z; "open.yaml" := 33188%Z ]}.

Definition os_stat (filename : string) : result Z :=
  match stat_modes !! filename with
  | Some mode => inr mode
  | None => inl (OSError "FileNotFoundError")
  end.

(** Two installed copies of a script. *)
Definition script_files : gmap string string :=
  {[ "/usr/lib/python3/scripts/init.sh" := "system copy";
     "/venv/lib/container_service_extension_scripts/init.sh" := "venv copy" ]}.

Definition script_is_file (path : string) : bool :=
  bool_decide (is_Some (script_files !! path)).

Definition script_read_text (path : string) : result string :=
  match script_files !! path with
  | Some text => inr text
  | None => inl (OSError "FileNotFoundError")
  end.

Definition python_path : list string := ["/venv/lib"; "/usr/lib/python3"].

(** An org whose world is the list of its catalogs. *)
Definition org_admin : CatalogAdmin.OrgAdmin (list string) := {|
  CatalogAdmin.get_catalog catalog_name catalogs :=
    if bool_decide (catalog_name ∈ catalogs)
    then (inr {| CatalogAdmin.catalog_href := "catalog/" +:+ catalog_name |},
          catalogs)
    else (inl (EntityNotFoundException "Catalog not found."), catalogs);
  CatalogAdmin.create_catalog catalog_name catalog_desc catalogs :=
    if bool_decide (catalog_name ∈ catalogs)
    then (inl (ExternalError "BadRequestException"), catalogs)
    else (inr tt, catalog_name :: catalogs);
  CatalogAdmin.share_catalog catalog_name catalogs :=
    if bool_decide (catalog_name ∈ catalogs) then (inr tt, catalogs)
    else (inl (EntityNotFoundException "Catalog not found."), catalogs);
  CatalogAdmin.reload catalogs := (inr tt, catalogs)
|}.

(** The platform of [Samples] refusing uploads. *)
Definition world_rejecting : Samples.World := {|
  Samples.sessions := 0; Samples.login_ok := true;
  Samples.vcenter_of_vm := "vc2";
  Samples.vcenters := Samples.vcenters Samples.world0;
  Samples.items := []; Samples.deleting := []; Samples.lazy_delete := true;
  Samples.upload_ok := false
|}.

(** The platform of [Samples] with deletes that cannot reach the server
    and resources that list no task. *)
Definition vcd_offline : Vcd Samples.World := {|
  set_credentials := set_credentials Samples.vcd;
  vapp_get_vm := vapp_get_vm Samples.vcd;
  vm_get_vc := vm_get_vc Samples.vcd;
  platform_get_vcenter := platform_get_vcenter Samples.vcd;
  urlparse := urlparse Samples.vcd;
  client_get_org := client_get_org Samples.vcd;
  client_get_org_by_name := client_get_org_by_name Samples.vcd;
  org_get_catalog_item := org_get_catalog_item Samples.vcd;
  org_delete_catalog_item org catalog_name item_name w :=
    (inl (ExternalError "ConnectionError"), w);
  org_upload_ovf := org_upload_ovf Samples.vcd;
  org_reload := org_reload Samples.vcd;
  client_get_resource client href w := (inr {| Tasks := [] |}, w);
  wait_for_success := wait_for_success Samples.vcd;
  path_name := path_name Samples.vcd
|}.

(** A network whose stream breaks after the first chunk, and one that
    cannot be reached. *)
Definition os_broken : Download.Os nat := {|
  Download.parent_mkdir filepath files := inr files;
  Download.requests_get url n :=
    (inr ([String.list_byte_of_string "new "],
          Some (ExternalError "ChunkedEncodingError")), S n)
|}.

Definition os_unreachable : Download.Os nat := {|
  Download.parent_mkdir filepath files := inr files;
  Download.requests_get url n := (inl (ExternalError "ConnectionError"), n)
|}.

Definition empty_disk : Download.Host nat :=
  {| Download.fs := ∅; Download.net := 0 |}.

(** A configuration that lists the vCenter of the VM twice. *)
Definition config_twice : Config := {|
  vcd_section := vcd_section Samples.config0;
  vcs := [ {| vc_name := "vc1"; vc_username := PStr "u1"; vc_password := PStr "p1" |};
           {| vc_name := "vc2"; vc_username := PStr "u2"; vc_password := PStr "p2" |};
           {| vc_name := "vc2"; vc_username := PStr "u9"; vc_password := PStr "p9" |} ]
|}.

(** The same platform with its vCenters listening on port 8443. *)
Definition vcd_8443 : Vcd Samples.World := {|
  set_credentials := set_credentials Samples.vcd;
  vapp_get_vm := vapp_get_vm Samples.vcd;
  vm_get_vc := vm_get_vc Samples.vcd;
  platform_get_vcenter := platform_get_vcenter Samples.vcd;
  urlparse text :=
    if bool_decide (text = "") then inl (ValueError "Port could not be cast")
    else inr (PStr text, PInt 8443);
  client_get_org := client_get_org Samples.vcd;
  client_get_org_by_name := client_get_org_by_name Samples.vcd;
  org_get_catalog_item := org_get_catalog_item Samples.vcd;
  org_delete_catalog_item := org_delete_catalog_item Samples.vcd;
  org_upload_ovf := org_upload_ovf Samples.vcd;
  org_reload := org_reload Samples.vcd;
  client_get_resource := client_get_resource Samples.vcd;
  wait_for_success := wait_for_success Samples.vcd;
  path_name := path_name Samples.vcd
|}.

End MoreSamples.
(** ** Properties of the response decoding *)

Module HttpFacts.
Import Http.

(** Closes [x ∉ [a; b; c]] on literals. *)
Ltac not_in_list :=
  rewrite ?not_elem_of_cons; repeat split;
  solve [discriminate | apply not_elem_of_nil].










End HttpFacts.

(** ** How computations run *)

Module MonadFacts.

(** Unfolds the monad down to pairs. *)
Ltac unfold_m :=
  unfold mbind, M_bind, mret, M_ret, bind, ret, raise, call, lift, mark,
    try_except_EntityNotFound in *.

Section Runs.
Context {S A B : Type}.

(** How a sequence runs, given how its first part runs. *)
Lemma bind_run (m : M S A) (k : A -> M S B) s r s1 t1 :
  m s = (r, s1, t1) ->
  (m ≫= k) s
  = match r with
    | inl e => (inl e, s1, t1)
    | inr a => match k a s1 with (r2, s2, t2) => (r2, s2, t1 ++ t2) end
    end.
Proof. intros H. unfold mbind, M_bind, bind. rewrite H. now destruct r. Qed.

Lemma call_run ev (oracle : S -> result A * S) s r s1 :
  oracle s = (r, s1) -> call ev oracle s = (r, s1, [ev]).
Proof. intros H. unfold call. now rewrite H. Qed.

(** How a guarded block runs, given how its body runs. *)
Lemma try_run (m h : M S A) s r s1 t1 :
  m s = (r, s1, t1) ->
  try_except_EntityNotFound m h s
  = match r with
    | inl (EntityNotFoundException _) =>
        match h s1 with (r2, s2, t2) => (r2, s2, t1 ++ t2) end
    | _ => (r, s1, t1)
    end.
Proof.
  intros H. unfold try_except_EntityNotFound. rewrite H.
  destruct r as [[]|]; reflexivity.
Qed.

End Runs.
End MonadFacts.

(** ** Properties of the bounded cache *)

Module LruFacts.
Import Lru.

Section Facts.
Context {V : Type}.
Implicit Types (l : list (string * V)) (c : LRUCache V) (k : string) (v : V).

Lemma assoc_None k l : assoc k l = None ↔ k ∉ l.*1.
Proof.
  induction l as [|[k' v'] l IH]; simpl.
  - split; [intros _; apply not_elem_of_nil | done].
  - rewrite not_elem_of_cons. case_bool_decide; subst.
    + split; [discriminate | intros [? _]; done].
    + rewrite IH. split; [intros ?; split; [congruence | done] | intros [_ ?]; done].
Qed.

Lemma assoc_Some_elem k v l : assoc k l = Some v -> (k, v) ∈ l.
Proof.
  induction l as [|[k' v'] l IH]; simpl; [discriminate|].
  case_bool_decide; subst.
  - intros [= ->]. apply elem_of_cons. now left.
  - intros H'. apply elem_of_cons. right. auto.
Qed.

Lemma contains_true k c : contains k c = true ↔ k ∈ keys c.
Proof.
  unfold contains, keys. rewrite bool_decide_eq_true.
  destruct (assoc k (entries c)) eqn:E.
  - split; [intros _ | eauto].
    apply assoc_Some_elem in E. apply list_elem_of_fmap. now exists (k, v).
  - apply assoc_None in E. split; [intros [? ?]; discriminate | done].
Qed.

Lemma contains_false k c : contains k c = false ↔ k ∉ keys c.
Proof.
  rewrite <- contains_true. destruct (contains k c); split; congruence.
Qed.

Lemma elem_of_keys_remove k k' l :
  k' ∈ (remove k l).*1 ↔ k' ∈ l.*1 ∧ k' ≠ k.
Proof.
  unfold remove. rewrite !list_elem_of_fmap. split.
  - intros [[a b] [-> Hin]]. apply list_elem_of_filter in Hin as [Hne Hin].
    split; [exists (a, b); done | done].
  - intros [[[a b] [-> Hin]] Hne]. exists (a, b). split; [done|].
    apply list_elem_of_filter. done.
Qed.

Lemma NoDup_keys_remove k l : NoDup l.*1 -> NoDup (remove k l).*1.
Proof.
  unfold remove. induction l as [|[k' v'] l IH]; simpl; [done|].
  rewrite NoDup_cons. intros [Hnotin Hnd].
  rewrite filter_cons. simpl. case_decide.
  - simpl. apply NoDup_cons. split; [|auto].
    intros Hin. apply Hnotin. apply (elem_of_keys_remove k k' l) in Hin. tauto.
  - auto.
Qed.

Lemma length_remove_le k l : (length (remove k l) <= length l)%nat.
Proof. apply length_filter. Qed.

Lemma length_remove_lt k l :
  k ∈ l.*1 -> (length (remove k l) < length l)%nat.
Proof.
  unfold remove. induction l as [|[k' v'] l IH]; simpl.
  - intros H'. now apply elem_of_nil in H'.
  - rewrite filter_cons. simpl. case_decide.
    + rewrite elem_of_cons. intros [->|Hin]; [done|]. simpl.
      specialize (IH Hin). lia.
    + intros _. pose proof (length_filter (λ kv : string * V, kv.1 ≠ k) l). lia.
Qed.

Lemma remove_absent k l : k ∉ l.*1 -> remove k l = l.
Proof.
  unfold remove. induction l as [|[k' v'] l IH]; simpl; [done|].
  rewrite not_elem_of_cons. intros [Hne Hnotin].
  rewrite filter_cons. simpl. rewrite decide_True by congruence.
  now rewrite IH.
Qed.

Lemma evict_suffix n l : evict n l `suffix_of` l.
Proof.
  induction l as [|a l IH]; cbn [evict]; [by exists []|].
  destruct (n <? length (a :: l) + 1)%nat; [|by exists []].
  now apply suffix_cons_r.
Qed.

Lemma evict_length n l : (1 <= n)%nat -> (length (evict n l) + 1 <= n)%nat.
Proof.
  intros Hn. induction l as [|a l IH]; cbn [evict]; [simpl; lia|].
  destruct (Nat.ltb_spec n (length (a :: l) + 1)); [done|lia].
Qed.

Lemma evict_fits n l : (length l + 1 <= n)%nat -> evict n l = l.
Proof.
  destruct l as [|a l]; cbn [evict]; [done|]. intros Hn.
  destruct (Nat.ltb_spec n (length (a :: l) + 1)); [lia | done].
Qed.

(** A full cache loses exactly its head. *)
Lemma evict_full n a l : length (a :: l) = n -> evict n (a :: l) = l.
Proof.
  cbn [evict]. intros Hn.
  destruct (Nat.ltb_spec n (length (a :: l) + 1)); [|lia].
  apply evict_fits. simpl in Hn. lia.
Qed.

Lemma getitem_wf k c : wf c -> wf (getitem k c).2.
Proof.
  intros [Hnd Hsz]. unfold getitem.
  destruct (assoc k (entries c)) as [v|] eqn:E; simpl; [|done].
  assert (k ∈ (entries c).*1) as Hin
    by (apply assoc_Some_elem in E; apply list_elem_of_fmap; now exists (k, v)).
  split.
  - unfold keys. simpl. rewrite fmap_app. simpl. apply NoDup_app. repeat split.
    + now apply NoDup_keys_remove.
    + intros x Hx Hx'. apply elem_of_keys_remove in Hx as [_ Hne].
      apply list_elem_of_singleton in Hx'. done.
    + apply NoDup_singleton.
  - unfold currsize in *. simpl. rewrite length_app. simpl.
    pose proof (length_remove_lt k _ Hin). lia.
Qed.

Lemma getitem_maxsize k c : maxsize (getitem k c).2 = maxsize c.
Proof. unfold getitem. now destruct (assoc k (entries c)). Qed.

Lemma setitem_wf k v c : wf c -> wf (setitem k v c).2.
Proof.
  intros [Hnd Hsz]. unfold setitem.
  destruct (Nat.ltb_spec (maxsize c) 1) as [|Hmax]; simpl; [done|].
  destruct (contains k c) eqn:Hc.
  - apply contains_true in Hc. split.
    + unfold keys. simpl. rewrite fmap_app. simpl. apply NoDup_app. repeat split.
      * now apply NoDup_keys_remove.
      * intros x Hx Hx'. apply elem_of_keys_remove in Hx as [_ Hne].
        apply list_elem_of_singleton in Hx'. done.
      * apply NoDup_singleton.
    + unfold currsize in *. simpl. rewrite length_app. simpl.
      pose proof (length_remove_lt k _ Hc). lia.
  - apply contains_false in Hc. split.
    + unfold keys in *. simpl. rewrite fmap_app. simpl.
      destruct (evict_suffix (maxsize c) (entries c)) as [pre Hpre].
      rewrite Hpre, fmap_app in Hnd, Hc.
      apply NoDup_app in Hnd as (_ & _ & Hnd).
      apply NoDup_app. repeat split; [done| |apply NoDup_singleton].
      intros x Hx Hx'. apply list_elem_of_singleton in Hx'. subst x.
      apply Hc. apply elem_of_app. now right.
    + unfold currsize. simpl. rewrite length_app. simpl.
      now apply evict_length.
Qed.

Lemma setitem_maxsize k v c : maxsize (setitem k v c).2 = maxsize c.
Proof. unfold setitem. now destruct (maxsize c <? 1)%nat. Qed.

(** Storing a new key into a full cache drops the least recently used
    entry and nothing else. *)
Lemma setitem_full_evicts_lru k v c oldest rest :
  entries c = oldest :: rest ->
  currsize c = maxsize c ->
  k ∉ keys c ->
  setitem k v c
  = (inr tt, {| maxsize := maxsize c; entries := rest ++ [(k, v)] |}).
Proof.
  intros He Hfull Hk. unfold setitem.
  unfold currsize in Hfull. rewrite He in Hfull. simpl in Hfull.
  destruct (Nat.ltb_spec (maxsize c) 1); [lia|].
  apply contains_false in Hk. rewrite Hk, He.
  now rewrite evict_full.
Qed.

Lemma setitem_room k v c :
  (currsize c < maxsize c)%nat ->
  k ∉ keys c ->
  setitem k v c
  = (inr tt, {| maxsize := maxsize c; entries := entries c ++ [(k, v)] |}).
Proof.
  intros Hroom Hk. unfold setitem, currsize in *.
  destruct (Nat.ltb_spec (maxsize c) 1); [lia|].
  apply contains_false in Hk. rewrite Hk.
  rewrite evict_fits by lia. done.
Qed.

End Facts.
End LruFacts.

(** ** Properties of the connection resolver *)

Module VsphereFacts.
Import Lru LruFacts Vsphere MonadFacts.

(** Unfolds the monad and the two liftings of the resolver's state. *)
Ltac unfold_ms := unfold on_world, on_cache in *; unfold_m.

Section Touch.
Context {V : Type}.
Implicit Types (l : list (string * V)) (c : LRUCache V) (k : string) (v : V).

Lemma assoc_app_r k l1 l2 : k ∉ l1.*1 -> assoc k (l1 ++ l2) = assoc k l2.
Proof.
  induction l1 as [|[k' v'] l1 IH]; simpl; [done|].
  rewrite not_elem_of_cons. intros [Hne Hnotin].
  rewrite bool_decide_false by congruence. auto.
Qed.

Lemma remove_snoc k v l : k ∉ l.*1 -> remove k (l ++ [(k, v)]) = l.
Proof.
  intros Hk. unfold remove. rewrite filter_app.
  fold (remove k l). rewrite remove_absent by done.
  rewrite filter_cons. simpl. rewrite decide_False by tauto.
  rewrite filter_nil. apply app_nil_r.
Qed.

(** Reading the most recently used key changes nothing. *)
Lemma getitem_mru k v n l :
  k ∉ l.*1 ->
  getitem k {| maxsize := n; entries := l ++ [(k, v)] |}
  = (inr v, {| maxsize := n; entries := l ++ [(k, v)] |}).
Proof.
  intros Hk. unfold getitem. simpl.
  rewrite assoc_app_r by done. simpl. rewrite bool_decide_true by done.
  now rewrite remove_snoc.
Qed.

Lemma getitem_found k v c :
  assoc k (entries c) = Some v ->
  getitem k c
  = (inr v, {| maxsize := maxsize c;
               entries := remove k (entries c) ++ [(k, v)] |}).
Proof. intros E. unfold getitem. now rewrite E. Qed.

Lemma remove_not_elem k l : k ∉ (remove k l).*1.
Proof. intros Hin. apply elem_of_keys_remove in Hin. tauto. Qed.

Lemma evict_not_elem k n l : k ∉ l.*1 -> k ∉ (evict n l).*1.
Proof.
  intros Hk Hin. apply Hk. destruct (evict_suffix n l) as [pre Hpre].
  rewrite Hpre at 1. rewrite fmap_app. apply elem_of_app. now right.
Qed.

End Touch.

Section WithVcd.
Context {W : Type} (vcd : Vcd W).
Implicit Types (s : State W) (item : gmap string pyval).

#[local] Arguments return_endpoint : simpl never.

Lemma cache_field_run vm_id key item c w :
  assoc vm_id (entries c) = Some item ->
  cache_field (W:=W) vm_id key {| cache := c; world := w |}
  = (dict_getitem item key, {| cache := (getitem vm_id c).2; world := w |}, []).
Proof.
  intros E. unfold cache_field. unfold_ms. simpl.
  rewrite (getitem_found _ _ _ E). simpl. now destruct (dict_getitem item key).
Qed.

Lemma cache_field_mru vm_id key item n l w :
  vm_id ∉ l.*1 ->
  cache_field (W:=W) vm_id key
    {| cache := {| maxsize := n; entries := l ++ [(vm_id, item)] |}; world := w |}
  = (dict_getitem item key,
     {| cache := {| maxsize := n; entries := l ++ [(vm_id, item)] |}; world := w |},
     []).
Proof.
  intros Hk. unfold cache_field. unfold_ms. simpl.
  rewrite getitem_mru by done. now destruct (dict_getitem item key).
Qed.

(** The return expression: its first read of the record moves the state
    to [st1], where further reads change nothing. *)
Lemma return_expression_run vm_id item (st0 st1 : State W) :
  (∀ key, cache_field vm_id key st0 = (dict_getitem item key, st1, [])) ->
  (∀ key, cache_field vm_id key st1 = (dict_getitem item key, st1, [])) ->
  (hostname ← cache_field vm_id "hostname";
   username ← cache_field vm_id "username";
   password ← cache_field vm_id "password";
   port ← cache_field vm_id "port";
   mret {| vs_arg1 := hostname; vs_arg2 := username;
           vs_arg3 := password; vs_arg4 := port |}) st0
  = (endpoint_of_entry item, st1, []).
Proof.
  intros Hfirst Hst. unfold endpoint_of_entry.
  rewrite (bind_run _ _ _ _ _ _ (Hfirst "hostname")).
  destruct (dict_getitem item "hostname") as [e|hostname]; [done|].
  rewrite (bind_run _ _ _ _ _ _ (Hst "username")).
  destruct (dict_getitem item "username") as [e|username]; [done|].
  rewrite (bind_run _ _ _ _ _ _ (Hst "password")).
  destruct (dict_getitem item "password") as [e|password]; [done|].
  rewrite (bind_run _ _ _ _ _ _ (Hst "port")).
  destruct (dict_getitem item "port") as [e|port]; done.
Qed.

(** The tail of [get_vsphere] reads the record under [vm_id]; its first
    read makes the key the most recent one, the others change nothing. *)
Lemma return_endpoint_run vm_id logger item c w :
  assoc vm_id (entries c) = Some item ->
  return_endpoint (W:=W) vm_id logger {| cache := c; world := w |}
  = (endpoint_of_entry item,
     {| cache := (getitem vm_id c).2; world := w |}, []).
Proof.
  intros E.
  pose proof (λ key, cache_field_run vm_id key item c w E) as Hfirst.
  assert (∀ key, cache_field (W:=W) vm_id key
                   {| cache := (getitem vm_id c).2; world := w |}
                 = (dict_getitem item key,
                    {| cache := (getitem vm_id c).2; world := w |}, []))
    as Hnext.
  { intros key. rewrite (getitem_found _ _ _ E). simpl.
    apply cache_field_mru, remove_not_elem. }
  unfold return_endpoint. destruct logger.
  - assert ((cache_field (W:=W) vm_id "hostname";; mret tt)
              {| cache := c; world := w |}
            = (match dict_getitem item "hostname" with
               | inl e => inl e
               | inr _ => inr tt
               end, {| cache := (getitem vm_id c).2; world := w |}, []))
      as Hlog.
    { rewrite (bind_run _ _ _ _ _ _ (Hfirst "hostname")).
      now destruct (dict_getitem item "hostname"). }
    rewrite (bind_run _ _ _ _ _ _ Hlog).
    pose proof (return_expression_run vm_id item _ _ Hnext Hnext) as Hrest.
    unfold endpoint_of_entry in *.
    destruct (dict_getitem item "hostname") as [e|hostname]; [done|].
    now rewrite Hrest.
  - erewrite bind_run; [|reflexivity]. simpl.
    now rewrite (return_expression_run vm_id item _ _ Hfirst Hnext).
Qed.

Section Calls.
Context (config : Config) (vapp : VApp) (vm_name : string) (logger : bool).

Lemma call_on_world {A} ev (oracle : W -> result A * W) s r w1 :
  oracle (world s) = (r, w1) ->
  call ev (on_world oracle) s = (r, {| cache := cache s; world := w1 |}, [ev]).
Proof. intros H. unfold call, on_world. now rewrite H. Qed.

(** The resolution chain never touches the cache. *)
Lemma resolution_chain_cache s :
  cache (state_of (resolution_chain vcd config vapp vm_name s)) = cache s.
Proof.
  unfold resolution_chain, state_of. unfold_ms. simpl.
  destruct (set_credentials vcd _ _ (world s)) as [[e|client] w2]; simpl; [done|].
  destruct (vapp_get_vm vcd _ _ w2) as [[e|vm_resource] w3]; simpl; [done|].
  destruct (vm_get_vc vcd _ _ w3) as [[e|vcenter_name] w4]; simpl; [done|].
  destruct (platform_get_vcenter vcd _ _ w4) as [[e|vcenter] w5]; simpl; [done|].
  destruct (urlparse vcd _) as [e|vcenter_url]; done.
Qed.


(** Every run of the chain, completed or not, starts with one login
    attempt and makes no other. *)
Lemma resolution_chain_one_login s :
  logins (events_of (resolution_chain vcd config vapp vm_name s)) = 1.
Proof.
  unfold resolution_chain, events_of. unfold_ms. simpl.
  destruct (set_credentials vcd _ _ (world s)) as [[e|client] w2]; simpl; [done|].
  destruct (vapp_get_vm vcd _ _ w2) as [[e|vm_resource] w3]; simpl; [done|].
  destruct (vm_get_vc vcd _ _ w3) as [[e|vcenter_name] w4]; simpl; [done|].
  destruct (platform_get_vcenter vcd _ _ w4) as [[e|vcenter] w5]; simpl; [done|].
  destruct (urlparse vcd _) as [e|vcenter_url]; done.
Qed.

(** [get_vsphere] on a miss, in terms of its three parts. *)
Lemma get_vsphere_miss s vm w1 :
  vapp_get_vm vcd vapp vm_name (world s) = (inr vm, w1) ->
  contains (id vm) (cache s) = false ->
  get_vsphere vcd config vapp vm_name logger s
  = match resolution_chain vcd config vapp vm_name
            {| cache := cache s; world := w1 |} with
    | (inl e, s1, trace) => (inl e, s1, EvVAppGetVm vapp vm_name :: trace)
    | (inr (vcenter_name, vcenter_url), s1, trace) =>
        match (on_cache
                 (setitem (id vm)
                    (compose_cache_item config vcenter_name vcenter_url));;
               return_endpoint (id vm) logger) s1 with
        | (r, s2, trace2) =>
            (r, s2, EvVAppGetVm vapp vm_name :: trace ++ trace2)
        end
    end.
Proof.
  intros Hvm Hmiss. unfold get_vsphere.
  rewrite (bind_run _ _ _ _ _ _ (call_on_world _ _ _ _ _ Hvm)).
  cbv beta iota. fold (return_endpoint (W:=W) (id vm) logger).
  unfold resolution_chain, compose_cache_item. unfold_ms. simpl.
  rewrite Hmiss. simpl.
  destruct (set_credentials vcd _ _ w1) as [[e|client] w2]; simpl; [done|].
  destruct (vapp_get_vm vcd _ _ w2) as [[e|vm_resource] w3]; simpl; [done|].
  destruct (vm_get_vc vcd _ _ w3) as [[e|vcenter_name] w4]; simpl; [done|].
  destruct (platform_get_vcenter vcd _ _ w4) as [[e|vcenter] w5]; simpl; [done|].
  destruct (urlparse vcd _) as [e|vcenter_url]; simpl; [done|].
  destruct (setitem _ _ _) as [[e|[]] c1]; simpl; [done|].
  now destruct (return_endpoint _ _ _) as [[r s2] trace2].
Qed.

(** A failing step is a failing chain, and conversely. *)
Lemma step_fails_chain c w e :
  step_fails vcd config vapp vm_name w e ↔
  result_of (resolution_chain vcd config vapp vm_name
               {| cache := c; world := w |}) = inl e.
Proof.
  unfold resolution_chain, result_of. unfold_ms. simpl.
  fold (system_client config) (system_credentials config). split.
  - intros [w' H1|client w2 w' H1 H2|client w2 vm_resource w3 w' H1 H2 H3
           |client w2 vm_resource w3 vcenter_name w4 w' H1 H2 H3 H4
           |client w2 vm_resource w3 vcenter_name w4 vcenter w5 H1 H2 H3 H4 H5];
      rewrite H1; simpl; [done|..]; rewrite H2; simpl; [done|..];
      rewrite H3; simpl; [done|..]; rewrite H4; simpl; [done|].
    now rewrite H5.
  - destruct (set_credentials vcd _ _ w) as [[e1|client] w2] eqn:H1; simpl.
    { intros [= ->]. eapply login_fails; eauto. }
    destruct (vapp_get_vm vcd _ _ w2) as [[e2|vm_resource] w3] eqn:H2; simpl.
    { intros [= ->]. eapply vm_lookup_fails; eauto. }
    destruct (vm_get_vc vcd _ _ w3) as [[e3|vcenter_name] w4] eqn:H3; simpl.
    { intros [= ->]. eapply vcenter_name_fails; eauto. }
    destruct (platform_get_vcenter vcd _ _ w4) as [[e4|vcenter] w5] eqn:H4; simpl.
    { intros [= ->]. eapply vcenter_query_fails; eauto. }
    destruct (urlparse vcd _) as [e5|vcenter_url] eqn:H5; simpl.
    { intros [= ->]. eapply url_parse_fails; eauto. }
    discriminate.
Qed.

(** A miss whose chain completes: the composed record is stored, and
    the return expression reads it back. *)
Lemma get_vsphere_miss_ok s vm w1 vcenter_name vcenter_url s1 trace :
  vapp_get_vm vcd vapp vm_name (world s) = (inr vm, w1) ->
  contains (id vm) (cache s) = false ->
  (1 <= maxsize (cache s))%nat ->
  resolution_chain vcd config vapp vm_name {| cache := cache s; world := w1 |}
  = (inr (vcenter_name, vcenter_url), s1, trace) ->
  let item := compose_cache_item config vcenter_name vcenter_url in
  get_vsphere vcd config vapp vm_name logger s
  = (endpoint_of_entry item,
     {| cache := (setitem (id vm) item (cache s)).2; world := world s1 |},
     EvVAppGetVm vapp vm_name :: trace).
Proof.
  intros Hvm Hmiss Hmax Hchain item.
  rewrite (get_vsphere_miss _ _ _ Hvm Hmiss), Hchain.
  pose proof (resolution_chain_cache {| cache := cache s; world := w1 |}) as Hc.
  rewrite Hchain in Hc. unfold state_of in Hc. simpl in Hc.
  destruct s1 as [c1 w5]. simpl in *. subst c1.
  assert (setitem (id vm) item (cache s)
          = (inr tt, {| maxsize := maxsize (cache s);
                        entries := evict (maxsize (cache s)) (entries (cache s))
                                   ++ [(id vm, item)] |})) as Hset.
  { unfold setitem. rewrite Hmiss.
    destruct (Nat.ltb_spec (maxsize (cache s)) 1); [lia|done]. }
  assert (id vm ∉ (evict (maxsize (cache s)) (entries (cache s))).*1) as Hk.
  { apply evict_not_elem. now apply contains_false in Hmiss. }
  erewrite bind_run; [|unfold on_cache; simpl; fold item; rewrite Hset; reflexivity].
  simpl. rewrite Hset. simpl.
  rewrite (return_endpoint_run _ _ item).
  - rewrite getitem_mru by done. simpl. now rewrite app_nil_r.
  - simpl. rewrite assoc_app_r by done. simpl. now rewrite bool_decide_true.
Qed.

(** A hit: one look at the caller's vApp for the id, then the cached
    record alone. *)
Lemma get_vsphere_hit s vm w1 item :
  vapp_get_vm vcd vapp vm_name (world s) = (inr vm, w1) ->
  assoc (id vm) (entries (cache s)) = Some item ->
  get_vsphere vcd config vapp vm_name logger s
  = (endpoint_of_entry item,
     {| cache := (getitem (id vm) (cache s)).2; world := w1 |},
     [EvVAppGetVm vapp vm_name]).
Proof.
  intros Hvm Hhit. unfold get_vsphere.
  rewrite (bind_run _ _ _ _ _ _ (call_on_world _ _ _ _ _ Hvm)).
  cbv beta iota. fold (return_endpoint (W:=W) (id vm) logger).
  assert (contains (id vm) (cache s) = true) as Hc
    by (unfold contains; rewrite Hhit; apply bool_decide_true; eauto).
  erewrite bind_run; [|unfold on_cache; simpl; reflexivity].
  simpl. rewrite Hc. simpl.
  erewrite bind_run; [|reflexivity]. simpl.
  now rewrite (return_endpoint_run _ _ item).
Qed.

Lemma get_vsphere_no_vm s e w1 :
  vapp_get_vm vcd vapp vm_name (world s) = (inl e, w1) ->
  get_vsphere vcd config vapp vm_name logger s
  = (inl e, {| cache := cache s; world := w1 |}, [EvVAppGetVm vapp vm_name]).
Proof.
  intros Hvm. unfold get_vsphere.
  now rewrite (bind_run _ _ _ _ _ _ (call_on_world _ _ _ _ _ Hvm)).
Qed.

(** A call keeps the cache well formed and its capacity. *)
Lemma get_vsphere_cache_wf s :
  wf (cache s) -> (1 <= maxsize (cache s))%nat ->
  wf (cache (state_of (get_vsphere vcd config vapp vm_name logger s))) ∧
  maxsize (cache (state_of (get_vsphere vcd config vapp vm_name logger s)))
  = maxsize (cache s).
Proof.
  intros Hwf Hmax.
  destruct (vapp_get_vm vcd vapp vm_name (world s)) as [[e|vm] w1] eqn:Hvm.
  { now rewrite (get_vsphere_no_vm _ _ _ Hvm). }
  destruct (assoc (id vm) (entries (cache s))) as [item|] eqn:Hhit.
  { rewrite (get_vsphere_hit _ _ _ _ Hvm Hhit). unfold state_of. simpl.
    split; [now apply getitem_wf | apply getitem_maxsize]. }
  assert (contains (id vm) (cache s) = false) as Hmiss.
  { apply contains_false. now apply assoc_None. }
  destruct (resolution_chain vcd config vapp vm_name
              {| cache := cache s; world := w1 |})
    as [[[e|[vcenter_name vcenter_url]] s1] trace] eqn:Hchain.
  - pose proof (resolution_chain_cache {| cache := cache s; world := w1 |}) as Hc.
    rewrite Hchain in Hc. unfold state_of in Hc. simpl in Hc.
    rewrite (get_vsphere_miss _ _ _ Hvm Hmiss), Hchain.
    unfold state_of. simpl. now rewrite Hc.
  - rewrite (get_vsphere_miss_ok _ _ _ _ _ _ _ Hvm Hmiss Hmax Hchain).
    unfold state_of. simpl.
    split; [now apply setitem_wf | apply setitem_maxsize].
Qed.

End Calls.

Lemma initial_cache_wf : wf initial_cache ∧ maxsize initial_cache = CACHE_MAXSIZE.
Proof. repeat split; [apply NoDup_nil_2 | unfold currsize; simpl; lia]. Qed.

(** The invariant of the process. *)
Lemma reachable_wf s :
  reachable vcd s -> wf (cache s) ∧ maxsize (cache s) = CACHE_MAXSIZE.
Proof.
  induction 1 as [w|s config vapp vm_name logger _ [IHwf IHmax]|s w _ IH].
  - apply initial_cache_wf.
  - destruct (get_vsphere_cache_wf config vapp vm_name logger s IHwf) as [? Hm].
    + rewrite IHmax. unfold CACHE_MAXSIZE. lia.
    + split; [done | congruence].
  - exact IH.
Qed.

End WithVcd.

(** *** The credentials loop *)

Lemma for_vc_in_vcs_no_match vcs vcenter_name item :
  (∀ vc, vc ∈ vcs -> vc_name vc ≠ vcenter_name) ->
  for_vc_in_vcs vcs vcenter_name item = item.
Proof.
  induction vcs as [|vc rest IH]; simpl; [done|]. intros Hno.
  rewrite bool_decide_false by (apply Hno, elem_of_cons; now left).
  apply IH. intros vc' Hin. apply Hno, elem_of_cons. now right.
Qed.

(** First match wins. *)
Lemma for_vc_in_vcs_first_match before vc after vcenter_name item :
  (∀ vc', vc' ∈ before -> vc_name vc' ≠ vcenter_name) ->
  vc_name vc = vcenter_name ->
  for_vc_in_vcs (before ++ vc :: after) vcenter_name item
  = <["password" := vc_password vc]> (<["username" := vc_username vc]> item).
Proof.
  intros Hno Hvc. induction before as [|vc' rest IH]; simpl.
  - now rewrite bool_decide_true.
  - rewrite bool_decide_false by (apply Hno, elem_of_cons; now left).
    apply IH. intros vc'' Hin. apply Hno, elem_of_cons. now right.
Qed.

Lemma endpoint_of_entry_no_credentials (hostname port : pyval) :
  endpoint_of_entry {[ "hostname" := hostname; "port" := port ]}
  = inl (KeyError "username").
Proof. reflexivity. Qed.

Lemma endpoint_of_entry_credentials (hostname port username password : pyval) :
  endpoint_of_entry
    (<["password" := password]>
       (<["username" := username]> {[ "hostname" := hostname; "port" := port ]}))
  = inr {| vs_arg1 := hostname; vs_arg2 := username;
           vs_arg3 := password; vs_arg4 := port |}.
Proof. reflexivity. Qed.

Lemma logins_app t1 t2 : logins (t1 ++ t2) = logins t1 + logins t2.
Proof. unfold logins. now rewrite filter_app, length_app. Qed.

Section Claims.
Context {W : Type} (vcd : Vcd W).
Context (config : Config) (vapp : VApp) (vm_name : string) (logger : bool).

(** The matching half of C1: on a miss whose chain completes, the
    first entry of [config['vcs']] named like the VM's vCenter gives
    the user name and the password of the connection. *)
Lemma get_vsphere_first_match s vm w1 vcenter_name vcenter_url s1 trace
    before vc after :
  vapp_get_vm vcd vapp vm_name (world s) = (inr vm, w1) ->
  contains (id vm) (cache s) = false ->
  (1 <= maxsize (cache s))%nat ->
  resolution_chain vcd config vapp vm_name {| cache := cache s; world := w1 |}
  = (inr (vcenter_name, vcenter_url), s1, trace) ->
  vcs config = before ++ vc :: after ->
  (∀ vc', vc' ∈ before -> vc_name vc' ≠ vcenter_name) ->
  vc_name vc = vcenter_name ->
  result_of (get_vsphere vcd config vapp vm_name logger s)
  = inr {| vs_arg1 := vcenter_url.1; vs_arg2 := vc_username vc;
           vs_arg3 := vc_password vc; vs_arg4 := vcenter_url.2 |}.
Proof.
  intros Hvm Hmiss Hmax Hchain Hvcs Hno Hvc.
  rewrite (get_vsphere_miss_ok vcd config vapp vm_name logger _ _ _ _ _ _ _ Hvm Hmiss Hmax Hchain).
  unfold result_of, compose_cache_item. simpl.
  rewrite Hvcs, (for_vc_in_vcs_first_match _ _ _ _ _ Hno Hvc).
  apply endpoint_of_entry_credentials.
Qed.

(** C1, on the code: on a miss whose chain completes, when no entry of
    [config['vcs']] is named like the VM's vCenter, the call does not
    return a connection with unset credentials.  It stores a record that
    has the host name and the port and neither user name nor password,
    and then the return expression raises [KeyError] on the user name. *)
Theorem get_vsphere_no_match_raises s vm w1 vcenter_name vcenter_url s1 trace
    (Hvm : vapp_get_vm vcd vapp vm_name (world s) = (inr vm, w1))
    (Hmiss : contains (id vm) (cache s) = false)
    (Hmax : maxsize (cache s) = CACHE_MAXSIZE)
    (Hchain : resolution_chain vcd config vapp vm_name
                {| cache := cache s; world := w1 |}
              = (inr (vcenter_name, vcenter_url), s1, trace))
    (Hnone : ∀ vc, vc ∈ vcs config -> vc_name vc ≠ vcenter_name) :
  result_of (get_vsphere vcd config vapp vm_name logger s)
  = inl (KeyError "username") ∧
  assoc (id vm)
    (entries (cache (state_of (get_vsphere vcd config vapp vm_name logger s))))
  = Some {[ "hostname" := vcenter_url.1; "port" := vcenter_url.2 ]}.
Proof.
  assert (1 <= maxsize (cache s))%nat as Hmax1
    by (rewrite Hmax; unfold CACHE_MAXSIZE; lia).
  rewrite (get_vsphere_miss_ok vcd config vapp vm_name logger _ _ _ _ _ _ _
             Hvm Hmiss Hmax1 Hchain).
  unfold result_of, state_of, compose_cache_item. simpl.
  rewrite (for_vc_in_vcs_no_match _ _ _ Hnone). split; [reflexivity|].
  unfold setitem. rewrite Hmiss.
  destruct (Nat.ltb_spec (maxsize (cache s)) 1); [lia|]. simpl.
  rewrite assoc_app_r
    by (apply evict_not_elem; now apply contains_false in Hmiss).
  simpl. now rewrite bool_decide_true.
Qed.

(** C2: on a miss, when a step of the resolution chain fails (login, VM
    lookup, vCenter name, vCenter record, URL parsing), the call raises
    that step's exception and the cache is exactly what it was, so the
    VM id stays absent; and whenever the call leaves an entry under the
    VM id, the whole chain has completed and the entry is the record
    composed from it, put there by a single store. *)
Theorem get_vsphere_failed_step_keeps_cache s vm w1
    (Hvm : vapp_get_vm vcd vapp vm_name (world s) = (inr vm, w1))
    (Hmiss : contains (id vm) (cache s) = false)
    (Hmax : maxsize (cache s) = CACHE_MAXSIZE) :
  (∀ e, step_fails vcd config vapp vm_name w1 e ->
     result_of (get_vsphere vcd config vapp vm_name logger s) = inl e ∧
     cache (state_of (get_vsphere vcd config vapp vm_name logger s)) = cache s ∧
     contains (id vm)
       (cache (state_of (get_vsphere vcd config vapp vm_name logger s))) = false) ∧
  (∀ item,
     assoc (id vm)
       (entries (cache (state_of (get_vsphere vcd config vapp vm_name logger s))))
     = Some item ->
     ∃ vcenter_name vcenter_url s1 trace,
       resolution_chain vcd config vapp vm_name
         {| cache := cache s; world := w1 |}
       = (inr (vcenter_name, vcenter_url), s1, trace) ∧
       item = compose_cache_item config vcenter_name vcenter_url ∧
       cache (state_of (get_vsphere vcd config vapp vm_name logger s))
       = (setitem (id vm) item (cache s)).2).
Proof.
  assert (1 <= maxsize (cache s))%nat as Hmax1
    by (rewrite Hmax; unfold CACHE_MAXSIZE; lia).
  pose proof (resolution_chain_cache vcd config vapp vm_name
                {| cache := cache s; world := w1 |}) as Hc.
  destruct (resolution_chain vcd config vapp vm_name
              {| cache := cache s; world := w1 |})
    as [[[e0|[vcenter_name vcenter_url]] s1] trace] eqn:Hchain;
    unfold state_of in Hc; simpl in Hc.
  - rewrite (get_vsphere_miss vcd config vapp vm_name logger _ _ _ Hvm Hmiss), Hchain.
    unfold result_of, state_of. simpl. rewrite Hc. split.
    + intros e He. apply (step_fails_chain vcd config vapp vm_name (cache s)) in He.
      rewrite Hchain in He. unfold result_of in He. simpl in He.
      by injection He as ->.
    + intros item Hitem. apply contains_false, assoc_None in Hmiss. congruence.
  - rewrite (get_vsphere_miss_ok vcd config vapp vm_name logger _ _ _ _ _ _ _ Hvm Hmiss Hmax1 Hchain).
    unfold result_of, state_of. simpl. split.
    + intros e He. apply (step_fails_chain vcd config vapp vm_name (cache s)) in He.
      rewrite Hchain in He. discriminate He.
    + intros item. unfold setitem at 1. rewrite Hmiss.
      destruct (Nat.ltb_spec (maxsize (cache s)) 1); [lia|]. simpl.
      rewrite assoc_app_r
        by (apply evict_not_elem; now apply contains_false in Hmiss).
      simpl. rewrite bool_decide_true by done. intros [= <-].
      by exists vcenter_name, vcenter_url, s1, trace.
Qed.


End Claims.

(** *** The order of use *)

Section Order.
Context {W : Type} (vcd : Vcd W).
Context (config : Config) (vapp : VApp) (vm_name : string) (logger : bool).

Lemma remove_middle {V} k (v : V) l1 l2 :
  NoDup (l1 ++ (k, v) :: l2).*1 -> remove k (l1 ++ (k, v) :: l2) = l1 ++ l2.
Proof.
  rewrite fmap_app, fmap_cons. simpl. intros Hnd.
  apply NoDup_app in Hnd as (_ & Hl1 & Hnd).
  apply NoDup_cons in Hnd as [Hl2 _].
  assert (k ∉ l1.*1) as Hk1.
  { intros Hin. apply (Hl1 k Hin), elem_of_cons. now left. }
  unfold remove. rewrite filter_app, filter_cons. simpl.
  rewrite decide_False by tauto.
  fold (remove k l1). fold (remove k l2).
  now rewrite !remove_absent.
Qed.

(** A hit moves the record of the VM behind all others and changes
    nothing else. *)
Lemma get_vsphere_hit_moves_last s vm w1 before item after :
  NoDup (keys (cache s)) ->
  entries (cache s) = before ++ (id vm, item) :: after ->
  vapp_get_vm vcd vapp vm_name (world s) = (inr vm, w1) ->
  get_vsphere vcd config vapp vm_name logger s
  = (endpoint_of_entry item,
     {| cache := {| maxsize := maxsize (cache s);
                    entries := before ++ after ++ [(id vm, item)] |};
        world := w1 |},
     [EvVAppGetVm vapp vm_name]).
Proof.
  intros Hnd He Hvm. unfold keys in Hnd. rewrite He in Hnd.
  assert (assoc (id vm) (entries (cache s)) = Some item) as Hhit.
  { rewrite He. rewrite assoc_app_r.
    - simpl. now rewrite bool_decide_true.
    - rewrite fmap_app, fmap_cons in Hnd. simpl in Hnd.
      apply NoDup_app in Hnd as (_ & Hl1 & _).
      intros Hin. apply (Hl1 _ Hin), elem_of_cons. now left. }
  rewrite (get_vsphere_hit vcd config vapp vm_name logger _ _ _ _ Hvm Hhit).
  rewrite (getitem_found _ _ _ Hhit). simpl.
  now rewrite He, remove_middle, <- app_assoc.
Qed.

(** A store into the full cache drops its first record, the one used
    least recently, and puts the new one last. *)
Lemma get_vsphere_store_full s vm w1 found s1 trace oldest rest :
  currsize (cache s) = maxsize (cache s) ->
  entries (cache s) = oldest :: rest ->
  vapp_get_vm vcd vapp vm_name (world s) = (inr vm, w1) ->
  contains (id vm) (cache s) = false ->
  resolution_chain vcd config vapp vm_name {| cache := cache s; world := w1 |}
  = (inr found, s1, trace) ->
  cache (state_of (get_vsphere vcd config vapp vm_name logger s))
  = {| maxsize := maxsize (cache s);
       entries := rest ++ [(id vm, compose_cache_item config found.1 found.2)] |}.
Proof.
  intros Hfull He Hvm Hmiss Hchain. destruct found as [vcenter_name vcenter_url].
  assert (1 <= maxsize (cache s))%nat as Hmax.
  { rewrite <- Hfull. unfold currsize. rewrite He. simpl. lia. }
  rewrite (get_vsphere_miss_ok vcd config vapp vm_name logger _ _ _ _ _ _ _
             Hvm Hmiss Hmax Hchain).
  unfold state_of. cbn [fst snd cache].
  rewrite (setitem_full_evicts_lru _ _ _ oldest rest He Hfull).
  - reflexivity.
  - now apply contains_false.
Qed.

(** The chain carries the cache along and never looks at it. *)
Lemma resolution_chain_any_cache c c' w r s1 trace :
  resolution_chain vcd config vapp vm_name {| cache := c; world := w |}
  = (r, s1, trace) ->
  resolution_chain vcd config vapp vm_name {| cache := c'; world := w |}
  = (r, {| cache := c'; world := world s1 |}, trace).
Proof.
  unfold resolution_chain. unfold_ms. simpl.
  destruct (set_credentials vcd _ _ w) as [[e|client] w2]; simpl;
    [by intros [= <- <- <-]|].
  destruct (vapp_get_vm vcd _ _ w2) as [[e|vm_resource] w3]; simpl;
    [by intros [= <- <- <-]|].
  destruct (vm_get_vc vcd _ _ w3) as [[e|vcenter_name] w4]; simpl;
    [by intros [= <- <- <-]|].
  destruct (platform_get_vcenter vcd _ _ w4) as [[e|vcenter] w5]; simpl;
    [by intros [= <- <- <-]|].
  destruct (urlparse vcd _) as [e|vcenter_url]; by intros [= <- <- <-].
Qed.

End Order.

(** The sample cache is full and holds each key once; the VM of the
    examples is not in it. *)
Lemma vm_key_inj n m :
  (n < 1024)%nat -> (m < 1024)%nat ->
  Samples.vm_key n = Samples.vm_key m -> n = m.
Proof.
  intros Hn Hm. unfold Samples.vm_key. cbn [String.append].
  unfold Samples.key_of. intros Hk. apply String.app_inj in Hk.
  assert (Ascii.ascii_of_nat (48 + n / 32) = Ascii.ascii_of_nat (48 + m / 32))
    as Hhi by congruence.
  assert (Ascii.ascii_of_nat (48 + n mod 32)
          = Ascii.ascii_of_nat (48 + m mod 32)) as Hlo by congruence.
  clear Hk.
  apply (f_equal Ascii.nat_of_ascii) in Hhi, Hlo.
  assert (n / 32 < 32)%nat by (apply Nat.Div0.div_lt_upper_bound; lia).
  assert (m / 32 < 32)%nat by (apply Nat.Div0.div_lt_upper_bound; lia).
  assert (n mod 32 < 32)%nat by (apply Nat.mod_upper_bound; lia).
  assert (m mod 32 < 32)%nat by (apply Nat.mod_upper_bound; lia).
  rewrite !Ascii.nat_ascii_embedding in Hhi, Hlo by lia.
  pose proof (Nat.div_mod_eq n 32). pose proof (Nat.div_mod_eq m 32). lia.
Qed.

Lemma full_vm_cache_keys :
  keys Samples.full_vm_cache = Samples.vm_key <$> seq 0 1024.
Proof.
  unfold keys, Samples.full_vm_cache. cbn [entries].
  rewrite <- list_fmap_compose. reflexivity.
Qed.

Lemma full_vm_cache_NoDup : NoDup (keys Samples.full_vm_cache).
Proof.
  rewrite full_vm_cache_keys.
  apply NoDup_fmap_2_strong; [|apply NoDup_seq].
  intros n m Hn Hm. apply elem_of_seq in Hn, Hm.
  apply vm_key_inj; lia.
Qed.

Lemma node1_not_cached : id Samples.node1 ∉ keys Samples.full_vm_cache.
Proof.
  rewrite full_vm_cache_keys. intros Hin.
  apply list_elem_of_fmap in Hin as (n & Hn & _).
  unfold Samples.vm_key, Samples.key_of in Hn.
  change (id Samples.node1) with ("urn:vcloud:vm:" +:+ "node-1") in Hn.
  apply String.app_inj in Hn. discriminate Hn.
Qed.

(** C4: the cache starts empty with room for 1024 records; in every
    state the process reaches it holds at most 1024 records under
    distinct keys, and so it does between the single reads and stores of
    a call.  The records are ordered by their last use.  A call of
    [get_vsphere] that finds the VM's record uses it: the record moves
    behind all others and nothing else changes.  A call that stores the
    record of a new VM into the full cache drops exactly the record used
    least recently, keeps every other one in its order, and puts the new
    one last.  So use, not insertion, decides: after a hit on the record
    stored first, the next store into the full cache drops the record
    stored second, and the one stored first stays. *)
Theorem cache_capacity_and_eviction :
  (maxsize initial_cache = 1024 ∧ currsize initial_cache = 0) ∧
  (∀ W (vcd : Vcd W) (s : State W),
     reachable vcd s ->
     maxsize (cache s) = 1024 ∧ (currsize (cache s) <= 1024)%nat ∧
     NoDup (keys (cache s))) ∧
  (∀ (c : LRUCache (gmap string pyval)) k v,
     wf c -> wf (setitem k v c).2 ∧ wf (getitem k c).2) ∧
  (∀ (c : LRUCache (gmap string pyval)) k v oldest rest,
     maxsize c = 1024 -> currsize c = 1024 -> NoDup (keys c) ->
     entries c = oldest :: rest -> k ∉ keys c ->
     lru_key c = Some oldest.1 ∧
     setitem k v c
     = (inr tt, {| maxsize := 1024; entries := rest ++ [(k, v)] |}) ∧
     currsize (setitem k v c).2 = 1024 ∧
     oldest.1 ∉ keys (setitem k v c).2) ∧
  (∀ W (vcd : Vcd W) config vapp vm_name logger (s : State W)
     vm w1 before item after,
     NoDup (keys (cache s)) ->
     entries (cache s) = before ++ (id vm, item) :: after ->
     vapp_get_vm vcd vapp vm_name (world s) = (inr vm, w1) ->
     cache (state_of (get_vsphere vcd config vapp vm_name logger s))
     = {| maxsize := maxsize (cache s);
          entries := before ++ after ++ [(id vm, item)] |}) ∧
  (∀ W (vcd : Vcd W) config vapp vm_name logger (s : State W)
     vm w1 found s1 trace oldest rest,
     maxsize (cache s) = 1024 -> currsize (cache s) = 1024 ->
     entries (cache s) = oldest :: rest ->
     vapp_get_vm vcd vapp vm_name (world s) = (inr vm, w1) ->
     contains (id vm) (cache s) = false ->
     resolution_chain vcd config vapp vm_name
       {| cache := cache s; world := w1 |} = (inr found, s1, trace) ->
     cache (state_of (get_vsphere vcd config vapp vm_name logger s))
     = {| maxsize := 1024;
          entries := rest ++ [(id vm, compose_cache_item config found.1
                                        found.2)] |}) ∧
  (∀ W (vcd : Vcd W) config vapp vm_name logger vapp' vm_name' logger'
     (s : State W) vm w1 item second rest vm' w2 found s3 trace,
     maxsize (cache s) = 1024 -> currsize (cache s) = 1024 ->
     NoDup (keys (cache s)) ->
     entries (cache s) = (id vm, item) :: second :: rest ->
     vapp_get_vm vcd vapp vm_name (world s) = (inr vm, w1) ->
     vapp_get_vm vcd vapp' vm_name' w1 = (inr vm', w2) ->
     id vm' ∉ keys (cache s) ->
     resolution_chain vcd config vapp' vm_name'
       {| cache := cache s; world := w2 |} = (inr found, s3, trace) ->
     cache (state_of
              (get_vsphere vcd config vapp' vm_name' logger'
                 (state_of (get_vsphere vcd config vapp vm_name logger s))))
     = {| maxsize := 1024;
          entries := rest ++ [(id vm, item);
                              (id vm', compose_cache_item config found.1
                                         found.2)] |}).
Proof.
  split; [done|]. split; [|split; [|split; [|split; [|split]]]].
  - intros W vcd s Hs. destruct (reachable_wf vcd s Hs) as [[Hnd Hsz] Hmax].
    change CACHE_MAXSIZE with 1024 in Hmax. rewrite Hmax in Hsz. done.
  - intros c k v Hwf. split; [now apply setitem_wf | now apply getitem_wf].
  - intros c k v [k0 v0] rest Hmax Hfull Hnd He Hk.
    assert (setitem k v c
            = (inr tt, {| maxsize := 1024; entries := rest ++ [(k, v)] |})) as Hset.
    { rewrite <- Hmax. apply (setitem_full_evicts_lru k v c (k0, v0)); try done.
      congruence. }
    rewrite Hset. unfold lru_key, keys, currsize in *. rewrite He in *.
    simpl in *. repeat split.
    + rewrite length_app. simpl. lia.
    + rewrite fmap_app. simpl. apply NoDup_cons in Hnd as [Hk0 _].
      apply not_elem_of_cons in Hk as [Hne _].
      intros Hin. apply elem_of_app in Hin as [Hin|Hin]; [done|].
      apply list_elem_of_singleton in Hin. congruence.
  - intros W vcd config vapp vm_name logger s vm w1 before item after
      Hnd He Hvm.
    now rewrite (get_vsphere_hit_moves_last vcd config vapp vm_name logger
                   s vm w1 before item after Hnd He Hvm).
  - intros W vcd config vapp vm_name logger s vm w1 found s1 trace oldest rest
      Hmax Hfull He Hvm Hmiss Hchain.
    rewrite (get_vsphere_store_full vcd config vapp vm_name logger
               s vm w1 found s1 trace oldest rest); try done; congruence.
  - intros W vcd config vapp vm_name logger vapp' vm_name' logger'
      s vm w1 item second rest vm' w2 found s3 trace
      Hmax Hfull Hnd He Hvm.
    intros Hvm' Hnew Hchain.
    rewrite (get_vsphere_hit_moves_last vcd config vapp vm_name logger
               s vm w1 [] item (second :: rest) Hnd He Hvm).
    unfold state_of at 2. cbn [fst snd app].
    set (s' := {| cache := {| maxsize := maxsize (cache s);
                              entries := second :: rest ++ [(id vm, item)] |};
                  world := w1 |}).
    assert (id vm' ∉ (second :: rest ++ [(id vm, item)]).*1) as Hnew'.
    { unfold keys in Hnew. rewrite He in Hnew.
      rewrite fmap_cons, fmap_app. rewrite !fmap_cons in Hnew. simpl in *.
      rewrite !not_elem_of_cons in Hnew. destruct Hnew as (Hv & Hs & Hr).
      rewrite not_elem_of_cons, elem_of_app, elem_of_cons.
      split; [done|]. intros [Hin|[Hin|Hin]]; [done|congruence|].
      by apply elem_of_nil in Hin. }
    rewrite (get_vsphere_store_full vcd config vapp' vm_name' logger'
               s' vm' w2 found
               {| cache := cache s'; world := world s3 |} trace
               second (rest ++ [(id vm, item)])).
    + subst s'. cbn [cache maxsize]. rewrite Hmax. now rewrite <- app_assoc.
    + subst s'. unfold currsize in *. cbn [cache entries maxsize].
      rewrite He in Hfull. cbn [length] in *. rewrite length_app.
      cbn [length]. lia.
    + reflexivity.
    + exact Hvm'.
    + now apply contains_false.
    + exact (resolution_chain_any_cache vcd config vapp' vm_name'
               (cache s) (cache s') w2 _ _ _ Hchain).
Qed.

Section Examples.
Import Samples.

(** The configuration lists vc1 and vc2, the VM sits on vc3: the call
    raises, and the record it leaves in the cache has neither user name
    nor password. *)
Example get_vsphere_unlisted_vcenter_raises :
  result_of (get_vsphere vcd config0 vapp0 "node-1" false state_vc3)
  = inl (KeyError "username") ∧
  ∃ item,
    assoc (id node1)
      (entries (cache (state_of
         (get_vsphere vcd config0 vapp0 "node-1" false state_vc3))))
    = Some item ∧
    item !! "hostname" = Some (PStr "vc3.example.com") ∧
    item !! "username" = None ∧ item !! "password" = None.
Proof.
  split; [reflexivity|]. eexists. split; [reflexivity|]. by vm_compute.
Qed.

Lemma get_vsphere_no_match_raises_witness :
  result_of (get_vsphere vcd config0 vapp0 "node-1" false state_vc3)
  = inl (KeyError "username") ∧
  assoc (id node1)
    (entries (cache (state_of
       (get_vsphere vcd config0 vapp0 "node-1" false state_vc3))))
  = Some {[ "hostname" := PStr "vc3.example.com"; "port" := PInt 443 ]}.
Proof.
  refine (get_vsphere_no_match_raises vcd config0 vapp0 "node-1" false
            state_vc3 node1 world_vc3 "vc3"
            (PStr "vc3.example.com", PInt 443) _ _
            eq_refl eq_refl eq_refl eq_refl _).
  intros vc Hin.
  apply elem_of_cons in Hin as [->|Hin]; [discriminate|].
  apply elem_of_cons in Hin as [->|Hin]; [discriminate|].
  now apply elem_of_nil in Hin.
Defined.

(** The next call for that VM is a hit and raises again. *)
Example get_vsphere_unlisted_vcenter_again :
  result_of
    (get_vsphere vcd config0 vapp0 "node-1" false
       (state_of (get_vsphere vcd config0 vapp0 "node-1" false state_vc3)))
  = inl (KeyError "username").
Proof. reflexivity. Qed.

(** With the VM on vc2 the second entry of the configuration is used. *)
Example get_vsphere_listed_vcenter :
  result_of (get_vsphere vcd config0 vapp0 "node-1" false state0)
  = inr {| vs_arg1 := PStr "vc2.example.com"; vs_arg2 := PStr "u2";
           vs_arg3 := PStr "p2"; vs_arg4 := PInt 443 |}.
Proof. reflexivity. Qed.

(** A refused login caches nothing, so a caller that catches the
    exception and calls again makes the platform see a second login. *)
Example get_vsphere_refused_login_retried :
  result_of (get_vsphere vcd config0 vapp0 "node-1" false state_locked)
  = inl (ExternalError "Unauthorized") ∧
  state_of (get_vsphere vcd config0 vapp0 "node-1" false state_locked)
  = state_locked ∧
  logins (events_of (get_vsphere vcd config0 vapp0 "node-1" false state_locked))
  = 1.
Proof. repeat split. Qed.

Lemma get_vsphere_failed_step_keeps_cache_witness :
  result_of (get_vsphere vcd config0 vapp0 "node-1" false state_lost)
  = inl (not_found "vCenter") ∧
  cache (state_of (get_vsphere vcd config0 vapp0 "node-1" false state_lost))
  = cache state_lost ∧
  contains (id node1)
    (cache (state_of (get_vsphere vcd config0 vapp0 "node-1" false state_lost)))
  = false.
Proof.
  refine (proj1 (get_vsphere_failed_step_keeps_cache vcd config0 vapp0
                   "node-1" false state_lost node1 world_lost
                   eq_refl eq_refl eq_refl) (not_found "vCenter") _).
  eapply vcenter_query_fails; reflexivity.
Defined.


Lemma cache_capacity_and_eviction_witness :
  cache (state_of
    (get_vsphere vcd config0 vapp0 "node-1" false
       (state_of (get_vsphere vcd config0 vapp0 (key_of 0) false state_full))))
  = {| maxsize := 1024;
       entries := ((fun n => (vm_key n, item2)) <$> seq 2 1022)
                  ++ [(vm_key 0, item2);
                      (id node1,
                       compose_cache_item config0 "vc2"
                         (PStr "vc2.example.com", PInt 443))] |}.
Proof.
  destruct cache_capacity_and_eviction as (_ & _ & _ & _ & _ & _ & H).
  refine (H World vcd config0 vapp0 (key_of 0) false vapp0 "node-1" false
            state_full
            {| id := vm_key 0; vm_href := "vapp/1/" +:+ key_of 0 |} world0
            item2 (vm_key 1, item2) ((fun n => (vm_key n, item2)) <$> seq 2 1022)
            node1 world0 ("vc2", (PStr "vc2.example.com", PInt 443))
            {| cache := cache state_full; world := set_sessions 1 world0 |}
            [EvSetCredentials "vcd.example.com" (system_credentials config0);
             EvVAppGetVm {| vapp_client :=
                              {| uri := "vcd.example.com"; api_version := "29.0";
                                 verify_ssl_certs := true; session := Some 0 |};
                            href := "vapp/1" |} "node-1";
             EvVmGetVc node1; EvGetVcenter "vc2"]
            eq_refl _ full_vm_cache_NoDup eq_refl eq_refl eq_refl
            node1_not_cached _).
  - unfold state_full, full_vm_cache, currsize. cbn [cache entries].
    rewrite length_fmap, length_seq. reflexivity.
  - generalize (cache state_full). intros c. reflexivity.
Defined.

End Examples.

End VsphereFacts.

(** ** Properties of the catalog upload *)

Module CatalogFacts.
Import Catalog MonadFacts.

Section WithVcd.
Context {W : Type} (vcd : Vcd W).
Context (client : Client) (catalog_name : string).

(** The poll primitive, step by step, once the org is known. *)
Lemma wait_for_catalog_item_to_resolve_run item_name org org_name o w w0 t0 :
  org_or_get_org vcd client org org_name w = (inr o, w0, t0) ->
  wait_for_catalog_item_to_resolve vcd client catalog_name item_name
    org org_name w
  = let entered := EvWaitForCatalogItem catalog_name item_name :: t0 in
    match org_get_catalog_item vcd o catalog_name item_name w0 with
    | (inl e, w1) =>
        (inl e, w1, entered ++ [EvGetCatalogItem catalog_name item_name])
    | (inr item, w1) =>
        match client_get_resource vcd client (Entity_href item) w1 with
        | (inl e, w2) =>
            (inl e, w2,
             entered ++ [EvGetCatalogItem catalog_name item_name;
                         EvGetResource (Entity_href item)])
        | (inr resource, w2) =>
            match first_task resource with
            | inl e =>
                (inl e, w2,
                 entered ++ [EvGetCatalogItem catalog_name item_name;
                             EvGetResource (Entity_href item)])
            | inr task =>
                match wait_for_success vcd client task w2 with
                | (r, w3) =>
                    (r, w3,
                     entered ++ [EvGetCatalogItem catalog_name item_name;
                                 EvGetResource (Entity_href item);
                                 EvWaitForSuccess task])
                end
            end
        end
    end.
Proof.
  intros Horg. unfold wait_for_catalog_item_to_resolve.
  erewrite bind_run; [|reflexivity]. cbv beta iota.
  rewrite (bind_run _ _ _ _ _ _ Horg). cbv beta iota zeta.
  unfold_m. simpl.
  destruct (org_get_catalog_item vcd o _ _ w0) as [[e|item] w1]; simpl;
    [done|].
  destruct (client_get_resource vcd client _ w1) as [[e|resource] w2]; simpl;
    [by rewrite <- ?app_assoc|].
  destruct (first_task resource) as [e|task]; simpl;
    [by rewrite <- ?app_assoc, ?app_nil_r|].
  destruct (wait_for_success vcd client task w2) as [r w3].
  by rewrite <- ?app_assoc.
Qed.

Lemma org_or_get_org_steps org org_name w :
  workflow_steps (events_of (org_or_get_org vcd client org org_name w)) = [] ∧
  task_waits (events_of (org_or_get_org vcd client org org_name w)) = [].
Proof.
  unfold org_or_get_org, get_org, events_of, call.
  destruct org as [o|]; [done|].
  destruct org_name as [name|].
  - now destruct (client_get_org_by_name vcd client name w).
  - now destruct (client_get_org vcd client w).
Qed.

Lemma org_or_get_org_given o org_name w :
  org_or_get_org vcd client (Some o) org_name w = (inr o, w, []).
Proof. reflexivity. Qed.

Lemma org_or_get_org_uploads org org_name w :
  uploads (events_of (org_or_get_org vcd client org org_name w)) = 0.
Proof.
  unfold org_or_get_org, get_org, events_of, call.
  destruct org as [o|]; [done|].
  destruct org_name as [name|].
  - now destruct (client_get_org_by_name vcd client name w).
  - now destruct (client_get_org vcd client w).
Qed.

Lemma workflow_steps_app t1 t2 :
  workflow_steps (t1 ++ t2) = workflow_steps t1 ++ workflow_steps t2.
Proof. apply filter_app. Qed.

Lemma task_waits_app t1 t2 : task_waits (t1 ++ t2) = task_waits t1 ++ task_waits t2.
Proof. apply filter_app. Qed.

Lemma uploads_app t1 t2 : uploads (t1 ++ t2) = uploads t1 + uploads t2.
Proof. unfold uploads. now rewrite filter_app, length_app. Qed.

(** Whatever happens inside, a run of the poll primitive on a given org
    is one step of the workflow. *)
Lemma wait_for_catalog_item_to_resolve_steps item_name o w :
  workflow_steps
    (events_of (wait_for_catalog_item_to_resolve vcd client catalog_name
                  item_name (Some o) None w))
  = [EvWaitForCatalogItem catalog_name item_name].
Proof.
  rewrite (wait_for_catalog_item_to_resolve_run _ _ _ _ _ _ _
             (org_or_get_org_given o None w)).
  cbv zeta. unfold events_of.
  destruct (org_get_catalog_item vcd o _ _ w) as [[e|item] w1]; [done|].
  destruct (client_get_resource vcd client _ w1) as [[e|resource] w2]; [done|].
  destruct (first_task resource) as [e|task]; [done|].
  now destruct (wait_for_success vcd client task w2) as [r w3].
Qed.

(** A run of the poll primitive that returns has waited on the first
    task of the item's resource, and on nothing else. *)
Lemma wait_for_catalog_item_to_resolve_ok item_name o w w' trace :
  wait_for_catalog_item_to_resolve vcd client catalog_name item_name
    (Some o) None w = (inr tt, w', trace) ->
  ∃ item resource task,
    Tasks resource !! 0 = Some task ∧
    trace = [EvWaitForCatalogItem catalog_name item_name;
             EvGetCatalogItem catalog_name item_name;
             EvGetResource (Entity_href item);
             EvWaitForSuccess task].
Proof.
  rewrite (wait_for_catalog_item_to_resolve_run _ _ _ _ _ _ _
             (org_or_get_org_given o None w)).
  cbv zeta.
  destruct (org_get_catalog_item vcd o _ _ w) as [[e|item] w1]; [discriminate|].
  destruct (client_get_resource vcd client _ w1) as [[e|resource] w2];
    [discriminate|].
  unfold first_task. destruct (Tasks resource) as [|task rest] eqn:Ht;
    [discriminate|].
  destruct (wait_for_success vcd client task w2) as [r w3].
  intros [= -> -> <-]. exists item, resource, task. rewrite Ht. done.
Qed.

Lemma wait_for_catalog_item_to_resolve_waits
    item_name org org_name w o w0 t0 item w1 resource w2 task r w3 :
  org_or_get_org vcd client org org_name w = (inr o, w0, t0) ->
  org_get_catalog_item vcd o catalog_name item_name w0 = (inr item, w1) ->
  client_get_resource vcd client (Entity_href item) w1 = (inr resource, w2) ->
  Tasks resource !! 0 = Some task ->
  wait_for_success vcd client task w2 = (r, w3) ->
  wait_for_catalog_item_to_resolve vcd client catalog_name item_name
    org org_name w
  = (r, w3,
     EvWaitForCatalogItem catalog_name item_name
     :: t0 ++ [EvGetCatalogItem catalog_name item_name;
               EvGetResource (Entity_href item);
               EvWaitForSuccess task]).
Proof.
  intros Horg Hitem Hres Htask Hwait.
  rewrite (wait_for_catalog_item_to_resolve_run _ _ _ _ _ _ _ Horg).
  cbv zeta. rewrite Hitem, Hres. unfold first_task.
  destruct (Tasks resource) as [|task' rest]; [discriminate|].
  injection Htask as ->. now rewrite Hwait.
Qed.

Lemma wait_for_catalog_item_to_resolve_no_item
    item_name org org_name w o w0 t0 e w1 :
  org_or_get_org vcd client org org_name w = (inr o, w0, t0) ->
  org_get_catalog_item vcd o catalog_name item_name w0 = (inl e, w1) ->
  wait_for_catalog_item_to_resolve vcd client catalog_name item_name
    org org_name w
  = (inl e, w1,
     EvWaitForCatalogItem catalog_name item_name
     :: t0 ++ [EvGetCatalogItem catalog_name item_name]).
Proof.
  intros Horg Hitem.
  rewrite (wait_for_catalog_item_to_resolve_run _ _ _ _ _ _ _ Horg).
  cbv zeta. now rewrite Hitem.
Qed.

(** Counts the task waits of a trace around the org lookup [t0]. *)
Ltac count_task_waits Hnone :=
  match goal with
  | |- context [?a :: ?t0 ++ ?l] =>
      change (a :: t0 ++ l) with ([a] ++ t0 ++ l);
      rewrite !task_waits_app, Hnone; simpl; lia
  end.

(** C8: the poll primitive raises what the org lookup or the item
    lookup raises (not found, in particular) without waiting on any
    task; otherwise it waits on the task at index 0 of the resource the
    item links to, returns when that wait returns and raises what that
    wait raises; in no run does it wait on more than one task. *)
Theorem wait_for_catalog_item_to_resolve_first_task
    item_name org org_name w :
  let run := wait_for_catalog_item_to_resolve vcd client catalog_name
               item_name org org_name w in
  let entered := EvWaitForCatalogItem catalog_name item_name in
  (∀ e w0 t0,
     org_or_get_org vcd client org org_name w = (inl e, w0, t0) ->
     run = (inl e, w0, entered :: t0)) ∧
  (∀ o w0 t0 e w1,
     org_or_get_org vcd client org org_name w = (inr o, w0, t0) ->
     org_get_catalog_item vcd o catalog_name item_name w0 = (inl e, w1) ->
     run = (inl e, w1,
            entered :: t0 ++ [EvGetCatalogItem catalog_name item_name])) ∧
  (∀ o w0 t0 item w1 resource w2 task r w3,
     org_or_get_org vcd client org org_name w = (inr o, w0, t0) ->
     org_get_catalog_item vcd o catalog_name item_name w0 = (inr item, w1) ->
     client_get_resource vcd client (Entity_href item) w1 = (inr resource, w2) ->
     Tasks resource !! 0 = Some task ->
     wait_for_success vcd client task w2 = (r, w3) ->
     run = (r, w3,
            entered :: t0 ++ [EvGetCatalogItem catalog_name item_name;
                              EvGetResource (Entity_href item);
                              EvWaitForSuccess task])) ∧
  (length (task_waits (events_of run)) <= 1)%nat.
Proof.
  intros run entered. subst run entered. repeat split.
  - intros e w0 t0 Horg. unfold wait_for_catalog_item_to_resolve.
    erewrite bind_run; [|reflexivity]. cbv beta iota.
    now rewrite (bind_run _ _ _ _ _ _ Horg).
  - intros o w0 t0 e w1 Horg Hitem.
    now apply (wait_for_catalog_item_to_resolve_no_item _ _ _ _ o w0).
  - intros o w0 t0 item w1 resource w2 task r w3 Horg Hitem Hres Htask Hwait.
    now apply (wait_for_catalog_item_to_resolve_waits _ _ _ _ o w0 t0 item w1
                 resource w2).
  - pose proof (org_or_get_org_steps org org_name w) as [_ Hnone].
    destruct (org_or_get_org vcd client org org_name w)
      as [[[e|o] w0] t0] eqn:Horg; unfold events_of in Hnone; simpl in Hnone.
    + unfold wait_for_catalog_item_to_resolve.
      erewrite bind_run; [|reflexivity]. cbv beta iota.
      rewrite (bind_run _ _ _ _ _ _ Horg). unfold events_of. simpl.
      unfold task_waits in *. rewrite filter_cons. simpl. rewrite Hnone.
      simpl. lia.
    + rewrite (wait_for_catalog_item_to_resolve_run _ _ _ _ _ _ _ Horg).
      cbv zeta. unfold events_of.
      destruct (org_get_catalog_item vcd o _ _ w0) as [[e|item] w1]; simpl;
        [count_task_waits Hnone|].
      destruct (client_get_resource vcd client _ w1) as [[e|resource] w2];
        simpl; [count_task_waits Hnone|].
      destruct (first_task resource) as [e|task]; simpl;
        [count_task_waits Hnone|].
      destruct (wait_for_success vcd client task w2) as [r w3]. simpl.
      count_task_waits Hnone.
Qed.

Section Upload.
Context (filepath : string) (org : option Org) (org_name : option string).
Let item_name : string := path_name vcd filepath.

(** C6: without the update flag, when the item of the derived name is
    there, the call checks for it, returns, and uploads nothing; a
    second call that finds the item again does the same. *)
Theorem upload_ova_to_catalog_existing_item_skipped w o w0 t0 item w1
    (Horg : org_or_get_org vcd client org org_name w = (inr o, w0, t0))
    (Hitem : org_get_catalog_item vcd o catalog_name item_name w0
             = (inr item, w1)) :
  let first := upload_ova_to_catalog vcd client catalog_name filepath false
                 org org_name w in
  first = (inr tt, w1, t0 ++ [EvGetCatalogItem catalog_name item_name]) ∧
  uploads (events_of first) = 0 ∧
  (∀ o' w2 t2 item' w3,
     org_or_get_org vcd client org org_name w1 = (inr o', w2, t2) ->
     org_get_catalog_item vcd o' catalog_name item_name w2 = (inr item', w3) ->
     let second := upload_ova_to_catalog vcd client catalog_name filepath false
                     org org_name (state_of first) in
     result_of second = inr tt ∧
     uploads (events_of first ++ events_of second) = 0).
Proof.
  assert (∀ w o w0 t0 item w1,
            org_or_get_org vcd client org org_name w = (inr o, w0, t0) ->
            org_get_catalog_item vcd o catalog_name item_name w0 = (inr item, w1) ->
            upload_ova_to_catalog vcd client catalog_name filepath false
              org org_name w
            = (inr tt, w1, t0 ++ [EvGetCatalogItem catalog_name item_name]))
    as Hrun.
  { clear. intros w o w0 t0 item w1 Horg Hitem. unfold upload_ova_to_catalog.
    rewrite (bind_run _ _ _ _ _ _ Horg). cbv beta iota zeta.
    fold item_name.
    erewrite bind_run;
      [|erewrite try_run;
        [|rewrite (bind_run _ _ _ _ _ _ (call_run _ _ _ _ _ Hitem)); reflexivity];
        reflexivity].
    simpl. by rewrite ?app_nil_r. }
  assert (∀ w o w0 t0,
            org_or_get_org vcd client org org_name w = (inr o, w0, t0) ->
            uploads (t0 ++ [EvGetCatalogItem catalog_name item_name]) = 0)
    as Hnone.
  { clear. intros w o w0 t0 Horg.
    pose proof (org_or_get_org_uploads org org_name w) as H0.
    rewrite Horg in H0. unfold events_of in H0. simpl in H0.
    now rewrite uploads_app, H0. }
  intros first. subst first. rewrite (Hrun _ _ _ _ _ _ Horg Hitem).
  unfold events_of, state_of, result_of. simpl.
  split; [reflexivity|]. split; [eapply Hnone, Horg|].
  intros o' w2 t2 item' w3 Horg' Hitem'.
  rewrite (Hrun _ _ _ _ _ _ Horg' Hitem'). simpl.
  split; [reflexivity|].
  now rewrite uploads_app, (Hnone _ _ _ _ Horg), (Hnone _ _ _ _ Horg').
Qed.

(** C7: without the update flag, when the item of the derived name is
    not there and the platform accepts the upload, reloads the org and
    completes the new item's task, the call makes one upload, one
    reload and one wait on that task, in this order, and returns. *)
Theorem upload_ova_to_catalog_new_item
    w o w0 t0 what w1 w2 w3 item w4 resource w5 task w6
    (Horg : org_or_get_org vcd client org org_name w = (inr o, w0, t0))
    (Habsent : org_get_catalog_item vcd o catalog_name item_name w0
               = (inl (EntityNotFoundException what), w1))
    (Hupload : org_upload_ovf vcd o catalog_name filepath w1 = (inr tt, w2))
    (Hreload : org_reload vcd o w2 = (inr tt, w3))
    (Hitem : org_get_catalog_item vcd o catalog_name item_name w3
             = (inr item, w4))
    (Hresource : client_get_resource vcd client (Entity_href item) w4
                 = (inr resource, w5))
    (Htask : Tasks resource !! 0 = Some task)
    (Hwait : wait_for_success vcd client task w5 = (inr tt, w6)) :
  upload_ova_to_catalog vcd client catalog_name filepath false org org_name w
  = (inr tt, w6,
     t0 ++ [EvGetCatalogItem catalog_name item_name;
            EvUploadOvf catalog_name filepath;
            EvReload o;
            EvWaitForCatalogItem catalog_name item_name;
            EvGetCatalogItem catalog_name item_name;
            EvGetResource (Entity_href item);
            EvWaitForSuccess task]).
Proof.
  unfold upload_ova_to_catalog.
  rewrite (bind_run _ _ _ _ _ _ Horg). cbv beta iota zeta. fold item_name.
  erewrite bind_run;
    [|erewrite try_run;
      [|rewrite (bind_run _ _ _ _ _ _ (call_run _ _ _ _ _ Habsent)); reflexivity];
      reflexivity].
  cbv beta iota.
  rewrite (bind_run _ _ _ _ _ _ (call_run _ _ _ _ _ Hupload)).
  rewrite (bind_run _ _ _ _ _ _ (call_run _ _ _ _ _ Hreload)).
  rewrite (wait_for_catalog_item_to_resolve_waits item_name (Some o) None
             w3 o w3 [] item w4 resource w5 task (inr tt) w6
             eq_refl Hitem Hresource Htask Hwait).
  simpl. by rewrite ?app_nil_r.
Qed.

(** The update branch as one run, given how the draining poll ends. *)
Lemma upload_ova_to_catalog_update_run
    w o w0 t0 w1 w2 drained w3 t_drain w4 w5 w6 t_confirm :
  org_or_get_org vcd client org org_name w = (inr o, w0, t0) ->
  org_delete_catalog_item vcd o catalog_name item_name w0 = (inr tt, w1) ->
  org_reload vcd o w1 = (inr tt, w2) ->
  wait_for_catalog_item_to_resolve vcd client catalog_name
    item_name (Some o) None w2 = (drained, w3, t_drain) ->
  drained = inr tt ∨ (∃ what, drained = inl (EntityNotFoundException what)) ->
  org_upload_ovf vcd o catalog_name filepath w3 = (inr tt, w4) ->
  org_reload vcd o w4 = (inr tt, w5) ->
  wait_for_catalog_item_to_resolve vcd client catalog_name
    item_name (Some o) None w5 = (inr tt, w6, t_confirm) ->
  upload_ova_to_catalog vcd client catalog_name filepath true org org_name w
  = (inr tt, w6,
     t0 ++ [EvDeleteCatalogItem catalog_name item_name; EvReload o]
        ++ t_drain
        ++ [EvUploadOvf catalog_name filepath; EvReload o]
        ++ t_confirm).
Proof.
  intros Horg Hdelete Hreload Hdrain Hdrained Hupload Hreload' Hconfirm.
  unfold upload_ova_to_catalog.
    rewrite (bind_run _ _ _ _ _ _ Horg). cbv beta iota zeta. fold item_name.
    assert ((call (EvDeleteCatalogItem catalog_name item_name)
               (org_delete_catalog_item vcd o catalog_name item_name);;
             call (EvReload o) (org_reload vcd o);;
             wait_for_catalog_item_to_resolve vcd client catalog_name
               item_name (Some o) None;;
             mret false) w0
            = (match drained with inl e => inl e | inr _ => inr false end, w3,
               [EvDeleteCatalogItem catalog_name item_name; EvReload o]
               ++ t_drain)) as Hbody.
    { rewrite (bind_run _ _ _ _ _ _ (call_run _ _ _ _ _ Hdelete)).
      rewrite (bind_run _ _ _ _ _ _ (call_run _ _ _ _ _ Hreload)).
      rewrite (bind_run _ _ _ _ _ _ Hdrain).
      destruct drained; simpl; [done|]. now rewrite app_nil_r. }
    assert (try_except_EntityNotFound
              (call (EvDeleteCatalogItem catalog_name item_name)
                 (org_delete_catalog_item vcd o catalog_name item_name);;
               call (EvReload o) (org_reload vcd o);;
               wait_for_catalog_item_to_resolve vcd client catalog_name
                 item_name (Some o) None;;
               mret false)
              (mret false) w0
            = (inr false, w3,
               [EvDeleteCatalogItem catalog_name item_name; EvReload o]
               ++ t_drain)) as Hblock.
    { rewrite (try_run _ _ _ _ _ _ Hbody).
      destruct Hdrained as [->|[what ->]]; [done|].
      simpl. now rewrite app_nil_r. }
    rewrite (bind_run _ _ _ _ _ _ Hblock). cbv beta iota.
    rewrite (bind_run _ _ _ _ _ _ (call_run _ _ _ _ _ Hupload)).
    rewrite (bind_run _ _ _ _ _ _ (call_run _ _ _ _ _ Hreload')).
    rewrite Hconfirm. now rewrite <- !app_assoc.
Qed.

Lemma workflow_calls_app t1 t2 :
  workflow_calls (t1 ++ t2) = workflow_calls t1 ++ workflow_calls t2.
Proof. apply filter_app. Qed.

Lemma org_or_get_org_calls w :
  workflow_calls (events_of (org_or_get_org vcd client org org_name w)) = [].
Proof.
  unfold org_or_get_org, get_org, events_of, call.
  destruct org as [o|]; [done|].
  destruct org_name as [name|].
  - now destruct (client_get_org_by_name vcd client name w).
  - now destruct (client_get_org vcd client w).
Qed.

(** C5 (amended): with the update flag, when the delete of the item of
    the derived name and the reload after it succeed, the call looks the
    deleted item up once more.  If the platform still lists it, the call
    waits on the first task of that item, then uploads and waits on the
    first task of the new item: one delete, one draining wait, one
    upload, one confirming wait, in this order.  If the platform no
    longer lists it, the guard of the update block swallows the
    not-found and the upload follows with no wait before it: one delete,
    one upload, one confirming wait. *)
Theorem upload_ova_to_catalog_update_existing w o w0 t0 w1 w2
    (Horg : org_or_get_org vcd client org org_name w = (inr o, w0, t0))
    (Hdelete : org_delete_catalog_item vcd o catalog_name item_name w0
               = (inr tt, w1))
    (Hreload : org_reload vcd o w1 = (inr tt, w2)) :
  let run := upload_ova_to_catalog vcd client catalog_name filepath true
               org org_name w in
  (∀ old_item w2a old_resource w2b old_task w3 w4 w5
     new_item w5a new_resource w5b new_task w6,
     org_get_catalog_item vcd o catalog_name item_name w2
     = (inr old_item, w2a) ->
     client_get_resource vcd client (Entity_href old_item) w2a
     = (inr old_resource, w2b) ->
     Tasks old_resource !! 0 = Some old_task ->
     wait_for_success vcd client old_task w2b = (inr tt, w3) ->
     org_upload_ovf vcd o catalog_name filepath w3 = (inr tt, w4) ->
     org_reload vcd o w4 = (inr tt, w5) ->
     org_get_catalog_item vcd o catalog_name item_name w5
     = (inr new_item, w5a) ->
     client_get_resource vcd client (Entity_href new_item) w5a
     = (inr new_resource, w5b) ->
     Tasks new_resource !! 0 = Some new_task ->
     wait_for_success vcd client new_task w5b = (inr tt, w6) ->
     run = (inr tt, w6,
            t0 ++ [EvDeleteCatalogItem catalog_name item_name; EvReload o;
                   EvWaitForCatalogItem catalog_name item_name;
                   EvGetCatalogItem catalog_name item_name;
                   EvGetResource (Entity_href old_item);
                   EvWaitForSuccess old_task;
                   EvUploadOvf catalog_name filepath; EvReload o;
                   EvWaitForCatalogItem catalog_name item_name;
                   EvGetCatalogItem catalog_name item_name;
                   EvGetResource (Entity_href new_item);
                   EvWaitForSuccess new_task]) ∧
     workflow_calls (events_of run)
     = [EvDeleteCatalogItem catalog_name item_name;
        EvWaitForSuccess old_task;
        EvUploadOvf catalog_name filepath;
        EvWaitForSuccess new_task]) ∧
  (∀ what w3 w4 w5 new_item w5a new_resource w5b new_task w6,
     org_get_catalog_item vcd o catalog_name item_name w2
     = (inl (EntityNotFoundException what), w3) ->
     org_upload_ovf vcd o catalog_name filepath w3 = (inr tt, w4) ->
     org_reload vcd o w4 = (inr tt, w5) ->
     org_get_catalog_item vcd o catalog_name item_name w5
     = (inr new_item, w5a) ->
     client_get_resource vcd client (Entity_href new_item) w5a
     = (inr new_resource, w5b) ->
     Tasks new_resource !! 0 = Some new_task ->
     wait_for_success vcd client new_task w5b = (inr tt, w6) ->
     run = (inr tt, w6,
            t0 ++ [EvDeleteCatalogItem catalog_name item_name; EvReload o;
                   EvWaitForCatalogItem catalog_name item_name;
                   EvGetCatalogItem catalog_name item_name;
                   EvUploadOvf catalog_name filepath; EvReload o;
                   EvWaitForCatalogItem catalog_name item_name;
                   EvGetCatalogItem catalog_name item_name;
                   EvGetResource (Entity_href new_item);
                   EvWaitForSuccess new_task]) ∧
     workflow_calls (events_of run)
     = [EvDeleteCatalogItem catalog_name item_name;
        EvUploadOvf catalog_name filepath;
        EvWaitForSuccess new_task]).
Proof.
  intros run. pose proof (org_or_get_org_calls w) as Hcalls.
  rewrite Horg in Hcalls. unfold events_of in Hcalls. simpl in Hcalls.
  split.
  - intros old_item w2a old_resource w2b old_task w3 w4 w5
      new_item w5a new_resource w5b new_task w6
      Hold Hold_res Hold_task Hold_wait Hupload Hreload'
      Hnew Hnew_res Hnew_task Hnew_wait.
    pose proof (wait_for_catalog_item_to_resolve_waits item_name (Some o) None
                  w2 o w2 [] old_item w2a old_resource w2b old_task (inr tt) w3
                  eq_refl Hold Hold_res Hold_task Hold_wait) as Hdrain.
    pose proof (wait_for_catalog_item_to_resolve_waits item_name (Some o) None
                  w5 o w5 [] new_item w5a new_resource w5b new_task (inr tt) w6
                  eq_refl Hnew Hnew_res Hnew_task Hnew_wait) as Hconfirm.
    assert (run = (inr tt, w6,
              t0 ++ [EvDeleteCatalogItem catalog_name item_name; EvReload o;
                     EvWaitForCatalogItem catalog_name item_name;
                     EvGetCatalogItem catalog_name item_name;
                     EvGetResource (Entity_href old_item);
                     EvWaitForSuccess old_task;
                     EvUploadOvf catalog_name filepath; EvReload o;
                     EvWaitForCatalogItem catalog_name item_name;
                     EvGetCatalogItem catalog_name item_name;
                     EvGetResource (Entity_href new_item);
                     EvWaitForSuccess new_task])) as Hrun.
    { subst run.
      now rewrite (upload_ova_to_catalog_update_run _ _ _ _ _ _ _ _ _ _ _ _ _
                     Horg Hdelete Hreload Hdrain (or_introl eq_refl)
                     Hupload Hreload' Hconfirm). }
    split; [exact Hrun|]. rewrite Hrun. unfold events_of. simpl.
    now rewrite workflow_calls_app, Hcalls.
  - intros what w3 w4 w5 new_item w5a new_resource w5b new_task w6
      Hgone Hupload Hreload' Hnew Hnew_res Hnew_task Hnew_wait.
    pose proof (wait_for_catalog_item_to_resolve_no_item item_name (Some o) None
                  w2 o w2 [] _ w3 eq_refl Hgone) as Hdrain.
    pose proof (wait_for_catalog_item_to_resolve_waits item_name (Some o) None
                  w5 o w5 [] new_item w5a new_resource w5b new_task (inr tt) w6
                  eq_refl Hnew Hnew_res Hnew_task Hnew_wait) as Hconfirm.
    assert (run = (inr tt, w6,
              t0 ++ [EvDeleteCatalogItem catalog_name item_name; EvReload o;
                     EvWaitForCatalogItem catalog_name item_name;
                     EvGetCatalogItem catalog_name item_name;
                     EvUploadOvf catalog_name filepath; EvReload o;
                     EvWaitForCatalogItem catalog_name item_name;
                     EvGetCatalogItem catalog_name item_name;
                     EvGetResource (Entity_href new_item);
                     EvWaitForSuccess new_task])) as Hrun.
    { subst run.
      now rewrite (upload_ova_to_catalog_update_run _ _ _ _ _ _ _ _ _ _ _ _ _
                     Horg Hdelete Hreload Hdrain (or_intror (ex_intro _ what eq_refl))
                     Hupload Hreload' Hconfirm). }
    split; [exact Hrun|]. rewrite Hrun. unfold events_of. simpl.
    now rewrite workflow_calls_app, Hcalls.
Qed.

Lemma upload_ova_to_catalog_drain_not_found o w what w1 :
  org_get_catalog_item vcd o catalog_name item_name w
  = (inl (EntityNotFoundException what), w1) ->
  wait_for_catalog_item_to_resolve vcd client catalog_name item_name
    (Some o) None w
  = (inl (EntityNotFoundException what), w1,
     [EvWaitForCatalogItem catalog_name item_name;
      EvGetCatalogItem catalog_name item_name]).
Proof.
  intros Hitem.
  now rewrite (wait_for_catalog_item_to_resolve_no_item item_name (Some o)
                 None w o w [] _ w1 eq_refl Hitem).
Qed.

End Upload.

End WithVcd.

Section Examples.
Import Samples.

Lemma wait_for_catalog_item_to_resolve_first_task_witness :
  wait_for_catalog_item_to_resolve vcd caller_client "templates" "image.ova"
    None None world_with_image
  = (inr tt, world_with_image,
     [EvWaitForCatalogItem "templates" "image.ova"; EvGetOrg None;
      EvGetCatalogItem "templates" "image.ova";
      EvGetResource "entity/image.ova"; EvWaitForSuccess image_task]).
Proof.
  destruct (wait_for_catalog_item_to_resolve_first_task vcd caller_client
              "templates" "image.ova" None None world_with_image)
    as (_ & _ & H & _).
  exact (H current_org world_with_image [EvGetOrg None] image_item
           world_with_image image_resource world_with_image image_task
           (inr tt) world_with_image eq_refl eq_refl eq_refl eq_refl eq_refl).
Defined.

Lemma upload_ova_to_catalog_existing_item_skipped_witness :
  upload_ova_to_catalog vcd caller_client "templates" "/tmp/image.ova" false
    None None world_with_image
  = (inr tt, world_with_image,
     [EvGetOrg None; EvGetCatalogItem "templates" "image.ova"]).
Proof.
  exact (proj1 (upload_ova_to_catalog_existing_item_skipped vcd caller_client
                  "templates" "/tmp/image.ova" None None world_with_image
                  current_org world_with_image [EvGetOrg None] image_item
                  world_with_image eq_refl eq_refl)).
Defined.

Lemma upload_ova_to_catalog_new_item_witness :
  upload_ova_to_catalog vcd caller_client "templates" "/tmp/image.ova" false
    None None world0
  = (inr tt, world_with_image,
     [EvGetOrg None; EvGetCatalogItem "templates" "image.ova";
      EvUploadOvf "templates" "/tmp/image.ova"; EvReload current_org;
      EvWaitForCatalogItem "templates" "image.ova";
      EvGetCatalogItem "templates" "image.ova";
      EvGetResource "entity/image.ova"; EvWaitForSuccess image_task]).
Proof.
  exact (upload_ova_to_catalog_new_item vcd caller_client "templates"
           "/tmp/image.ova" None None world0 current_org world0
           [EvGetOrg None] "Catalog item not found." world0
           world_with_image world_with_image image_item world_with_image
           image_resource world_with_image image_task world_with_image
           eq_refl eq_refl eq_refl eq_refl eq_refl eq_refl eq_refl eq_refl).
Defined.

(** C5, as the claim states it, fails: on a platform that unlists a
    deleted item at once, the item is there, the call deletes it, and
    the look for it after the reload raises not-found, which the guard
    of the update block swallows; no task of the deleted item is waited
    on, and the only wait of the run is the one after the upload. *)
Lemma upload_ova_to_catalog_update_no_drain_wait :
  org_get_catalog_item vcd current_org "templates" "image.ova" world_eager
  = (inr image_item, world_eager) ∧
  result_of (upload_ova_to_catalog vcd caller_client "templates"
               "/tmp/image.ova" true None None world_eager) = inr tt ∧
  workflow_calls
    (events_of (upload_ova_to_catalog vcd caller_client "templates"
                  "/tmp/image.ova" true None None world_eager))
  = [EvDeleteCatalogItem "templates" "image.ova";
     EvUploadOvf "templates" "/tmp/image.ova";
     EvWaitForSuccess image_task] ∧
  length (task_waits
            (events_of (upload_ova_to_catalog vcd caller_client "templates"
                          "/tmp/image.ova" true None None world_eager)))
  ≠ 2.
Proof. repeat split. vm_compute. discriminate. Qed.

Lemma upload_ova_to_catalog_update_existing_witness :
  workflow_calls
    (events_of (upload_ova_to_catalog vcd caller_client "templates"
                  "/tmp/image.ova" true None None world_with_image))
  = [EvDeleteCatalogItem "templates" "image.ova";
     EvWaitForSuccess image_task;
     EvUploadOvf "templates" "/tmp/image.ova";
     EvWaitForSuccess image_task] ∧
  workflow_calls
    (events_of (upload_ova_to_catalog vcd caller_client "templates"
                  "/tmp/image.ova" true None None world_eager))
  = [EvDeleteCatalogItem "templates" "image.ova";
     EvUploadOvf "templates" "/tmp/image.ova";
     EvWaitForSuccess image_task].
Proof.
  split.
  - exact (proj2 (proj1
      (upload_ova_to_catalog_update_existing vcd caller_client "templates"
         "/tmp/image.ova" None None world_with_image current_org
         world_with_image [EvGetOrg None]
         (set_items ["image.ova"] ["image.ova"] world0)
         (set_items ["image.ova"] ["image.ova"] world0)
         eq_refl eq_refl eq_refl)
      image_item (set_items ["image.ova"] ["image.ova"] world0)
      image_resource (set_items ["image.ova"] ["image.ova"] world0)
      image_task world0 world_with_image world_with_image
      image_item world_with_image image_resource world_with_image
      image_task world_with_image
      eq_refl eq_refl eq_refl eq_refl eq_refl eq_refl
      eq_refl eq_refl eq_refl eq_refl)).
  - exact (proj2 (proj2
      (upload_ova_to_catalog_update_existing vcd caller_client "templates"
         "/tmp/image.ova" None None world_eager current_org
         world_eager [EvGetOrg None]
         (set_items [] [] world_eager) (set_items [] [] world_eager)
         eq_refl eq_refl eq_refl)
      "Catalog item not found." (set_items [] [] world_eager)
      (set_items ["image.ova"] [] world_eager)
      (set_items ["image.ova"] [] world_eager)
      image_item (set_items ["image.ova"] [] world_eager)
      image_resource (set_items ["image.ova"] [] world_eager)
      image_task (set_items ["image.ova"] [] world_eager)
      eq_refl eq_refl eq_refl eq_refl eq_refl eq_refl eq_refl)).
Defined.

Example upload_ova_to_catalog_update_eager :
  workflow_steps
    (events_of (upload_ova_to_catalog vcd caller_client "templates"
                  "/tmp/image.ova" true None None world_eager))
  = [EvDeleteCatalogItem "templates" "image.ova";
     EvWaitForCatalogItem "templates" "image.ova";
     EvUploadOvf "templates" "/tmp/image.ova";
     EvWaitForCatalogItem "templates" "image.ova"] ∧
  task_waits
    (events_of (upload_ova_to_catalog vcd caller_client "templates"
                  "/tmp/image.ova" true None None world_eager))
  = [EvWaitForSuccess image_task].
Proof. split; reflexivity. Qed.

End Examples.

End CatalogFacts.

(** ** Properties of the download *)

Module DownloadFacts.
Import Download MonadFacts.

Section WithOs.
Context (hasher : Hasher) {N : Type} (os : Os N).

Lemma read_loop_S turns data h :
  read_loop hasher (S turns) data h
  = match take (Z.to_nat BUF_SIZE) data with
    | [] => h
    | chunk =>
        read_loop hasher turns (drop (Z.to_nat BUF_SIZE) data)
          (sha256_update hasher h chunk)
    end.
Proof. reflexivity. Qed.

(** The count of turns in [file_digest] is enough: more turns read
    nothing more. *)
Lemma read_loop_enough turns turns' data h :
  (length data <= turns)%nat -> (length data <= turns')%nat ->
  read_loop hasher turns data h = read_loop hasher turns' data h.
Proof.
  assert (1 <= Z.to_nat BUF_SIZE)%nat as Hbuf by (unfold BUF_SIZE; lia).
  revert turns' data h.
  induction turns as [|turns IH]; intros turns' data h Hn Hm.
  - destruct data as [|b data]; [|simpl in Hn; lia].
    destruct turns'; [done|]. rewrite read_loop_S. now rewrite take_nil.
  - destruct turns' as [|turns'].
    + destruct data as [|b data]; [|simpl in Hm; lia].
      rewrite read_loop_S. now rewrite take_nil.
    + rewrite !read_loop_S.
      set (size := Z.to_nat BUF_SIZE) in *. clearbody size.
      destruct (take size data) as [|b chunk] eqn:Htake; [done|].
      destruct data as [|b' data]; [now rewrite take_nil in Htake|].
      apply IH; rewrite length_drop; cbn [length] in *; lia.
Qed.

Lemma download_file_skip url filepath sha256 s data :
  fs s !! filepath = Some (File data) ->
  sha256 = None ∨ sha256 = Some (file_digest hasher data) ->
  download_file hasher os url filepath sha256 s = (inr tt, s, []).
Proof.
  intros Hfile Hsha. unfold download_file.
  erewrite bind_run; [|reflexivity]. cbv beta iota.
  unfold is_file. rewrite Hfile.
  assert (digest_matches hasher (fs s) filepath sha256 = inr true) as Hm.
  { unfold digest_matches, get_sha256. rewrite Hfile.
    destruct Hsha as [->| ->]; [done|]. now rewrite bool_decide_true. }
  erewrite bind_run; [|unfold lift; rewrite Hm; reflexivity].
  reflexivity.
Qed.

(** C10: when a regular file is at [filepath] and no digest is asked
    for, or the file has the digest asked for, [download_file] returns
    with no request sent and the file system as it was; so the call
    sends a request or changes what is at [filepath] only when there is
    no regular file there or its digest is not the one asked for. *)
Theorem download_file_keeps_matching_file url filepath sha256 s :
  (∀ data,
     fs s !! filepath = Some (File data) ->
     sha256 = None ∨ sha256 = Some (file_digest hasher data) ->
     download_file hasher os url filepath sha256 s = (inr tt, s, [])) ∧
  (events_of (download_file hasher os url filepath sha256 s) ≠ [] ∨
   fs (state_of (download_file hasher os url filepath sha256 s)) !! filepath
   ≠ fs s !! filepath ->
   is_file (fs s) filepath = false ∨
   ∃ data expected,
     fs s !! filepath = Some (File data) ∧ sha256 = Some expected ∧
     file_digest hasher data ≠ expected).
Proof.
  split; [intros data; apply download_file_skip|].
  intros Hchanged. unfold is_file.
  destruct (fs s !! filepath) as [[data|]|] eqn:Hfile; [|by left..].
  right. destruct sha256 as [expected|].
  - exists data, expected. repeat split. intros Heq.
    rewrite (download_file_skip url filepath (Some expected) s data Hfile) in Hchanged
      by (right; congruence).
    unfold events_of, state_of in Hchanged. simpl in Hchanged.
    destruct Hchanged as [?|?]; congruence.
  - rewrite (download_file_skip url filepath None s data Hfile) in Hchanged
      by now left.
    unfold events_of, state_of in Hchanged. simpl in Hchanged.
    destruct Hchanged as [?|?]; congruence.
Qed.

End WithOs.

Section Examples.
Import Samples.

Lemma download_file_keeps_matching_file_witness :
  download_file plain_hasher os "https://example.com/image.ova"
    "/tmp/image.ova" (Some "old image") disk
  = (inr tt, disk, []).
Proof.
  refine (proj1 (download_file_keeps_matching_file plain_hasher os
                   "https://example.com/image.ova" "/tmp/image.ova"
                   (Some "old image") disk)
            (String.list_byte_of_string "old image") _ _).
  - reflexivity.
  - right. vm_compute. reflexivity.
Defined.

(** With another digest asked for, the file is fetched and replaced. *)
Example download_file_replaces_other_digest :
  events_of (download_file plain_hasher os "https://example.com/image.ova"
               "/tmp/image.ova" (Some "new image") disk)
  = [EvRequestsGet "https://example.com/image.ova"] ∧
  fs (state_of (download_file plain_hasher os "https://example.com/image.ova"
                  "/tmp/image.ova" (Some "new image") disk))
    !! "/tmp/image.ova"
  = Some (File (String.list_byte_of_string "new image")).
Proof. split; by vm_compute. Qed.

End Examples.
End DownloadFacts.

(** ** Error bodies and their decoding *)

Module ErrorJsonFacts.
Import Http ErrorJson.

Lemma split_cons sep s : ∃ piece pieces, split sep s = piece :: pieces.
Proof.
  destruct s as [|c rest]; simpl; [eauto|].
  destruct (Ascii.eqb c sep); [eauto|].
  destruct (split sep rest); eauto.
Qed.

(** The first piece of a split is the text before the first separator. *)
Lemma split_first sep s :
  ∃ piece pieces tail,
    split sep s = piece :: pieces ∧
    s = piece +:+ tail ∧
    (tail = "" ∨ ∃ rest, tail = String sep rest) ∧
    sep ∉ String.list_ascii_of_string piece.
Proof.
  induction s as [|c rest IH]; simpl.
  - exists "", [], "". repeat split; [by left|apply not_elem_of_nil].
  - destruct (Ascii.eqb_spec c sep) as [->|Hne].
    + exists "", (split sep rest), (String sep rest).
      repeat split; [right; eauto|apply not_elem_of_nil].
    + destruct IH as (piece & pieces & tail & -> & Hs & Htail & Hfree).
      exists (String c piece), pieces, tail. simpl.
      repeat split; [by rewrite Hs at 1|done|].
      apply not_elem_of_cons. split; [congruence|done].
Qed.

(** X1: for an object that tests true, as an exception object does
    unless its class says otherwise, [error_to_json] returns a body
    whose reason is the text of the object up to its first comma, and
    whose description is the whole text; for [None] and for an object
    that tests false it returns the empty dictionary. *)
Theorem error_to_json_reason error :
  (truth error = false -> error_to_json error = inr (JObj ∅)) ∧
  (∀ err,
     error = Some err -> error_truth err = true ->
     ∃ reason tail,
       error_to_json error
       = inr (JObj {[ ERROR_MESSAGE :=
                JObj {[ ERROR_REASON := JStr reason;
                        ERROR_DESCRIPTION := JStr (error_str err);
                        ERROR_STACKTRACE :=
                          JArr (JStr <$> error_traceback err) ]} ]}) ∧
       error_str err = reason +:+ tail ∧
       (tail = "" ∨ ∃ rest, tail = String comma rest) ∧
       comma ∉ String.list_ascii_of_string reason).
Proof.
  split.
  - destruct error as [err|]; simpl; [|done]. now intros ->.
  - intros err -> Htrue.
    destruct (split_first comma (error_str err))
      as (piece & pieces & tail & Hsplit & Hs & Htail & Hfree).
    exists piece, tail. unfold error_to_json. rewrite Htrue, Hsplit. simpl.
    repeat split; done.
Qed.


Lemma error_to_json_reason_witness :
  ∃ reason tail,
    error_to_json (Some MoreSamples.disk_full)
    = inr (JObj {[ ERROR_MESSAGE :=
             JObj {[ ERROR_REASON := JStr reason;
                     ERROR_DESCRIPTION := JStr "disk full, retry later";
                     ERROR_STACKTRACE :=
                       JArr [JStr "Traceback (most recent call last):"] ]} ]}) ∧
    "disk full, retry later" = reason +:+ tail ∧
    (tail = "" ∨ ∃ rest, tail = String comma rest) ∧
    comma ∉ String.list_ascii_of_string reason.
Proof.
  exact (proj2 (error_to_json_reason (Some MoreSamples.disk_full))
           MoreSamples.disk_full eq_refl eq_refl).
Defined.


End ErrorJsonFacts.

Module HttpMoreFacts.
Import Http.

(** X3: when the decoded error body is an object whose "message" member
    is a string, [response_to_exception] raises [VcdResponseError] with
    that string only if the string does not contain the word "reason";
    if it does, indexing the string raises [TypeError] instead. *)
Theorem response_to_exception_text_message codec response m s
    (Hstatus : status_code response ≠ 504%Z)
    (Hbody : deserialize_response_content codec response = inr (JObj m))
    (Hmessage : m !! ERROR_MESSAGE = Some (JStr s)) :
  response_to_exception codec response
  = if str_contains ERROR_REASON s
    then TypeError "string indices must be integers"
    else VcdResponseError (status_code response) (JStr s).
Proof.
  unfold response_to_exception.
  destruct (Z.eqb_spec (status_code response) 504) as [|_]; [done|].
  rewrite Hbody. simpl. rewrite Hmessage.
  rewrite bool_decide_true by eauto. simpl.
  now destruct (str_contains ERROR_REASON s).
Qed.

Lemma response_to_exception_text_message_witness :
  response_to_exception
    (MoreSamples.fixed_codec
       (JObj {[ ERROR_MESSAGE := JStr "no reason given" ]}))
    (respond 400 "body")
  = TypeError "string indices must be integers".
Proof.
  refine (response_to_exception_text_message
            (MoreSamples.fixed_codec
               (JObj {[ ERROR_MESSAGE := JStr "no reason given" ]}))
            (respond 400 "body") {[ ERROR_MESSAGE := JStr "no reason given" ]}
            "no reason given" _ eq_refl eq_refl).
  discriminate.
Defined.

(** X4: a [VcdResponseError] that leaves [process_response] always
    carries the status code of the response it was given. *)
Theorem process_response_keeps_status codec response code message :
  process_response codec response = inl (VcdResponseError code message) ->
  code = status_code response.
Proof.
  unfold process_response. case_bool_decide as Hacc.
  - unfold deserialize_response_content.
    destruct (content response) as [bytes|]; [|discriminate].
    destruct (decode_utf8 codec bytes) as [decoded|]; [|discriminate].
    destruct (0 <? String.length decoded)%nat; [|discriminate].
    destruct (json_loads codec decoded); discriminate.
  - unfold response_to_exception.
    destruct (status_code response =? 504)%Z.
    + destruct (content response) as [[|b bs]|]; try (intros [= <- _]; done).
      destruct (objectify_fromstring codec (b :: bs));
        [intros [= <- _]; done | discriminate].
    + destruct (deserialize_response_content codec response) as [e|body] eqn:Hb.
      { intros [= ->]. revert Hb. unfold deserialize_response_content.
        destruct (content response) as [bytes|]; [|discriminate].
        destruct (decode_utf8 codec bytes) as [decoded|]; [|discriminate].
        destruct (0 <? String.length decoded)%nat; [|discriminate].
        destruct (json_loads codec decoded); discriminate. }
      destruct (py_in ERROR_MESSAGE body) as [e|[]] eqn:Hin.
      * intros [= ->]. by destruct body.
      * destruct (py_getitem body ERROR_MESSAGE) as [e|msg] eqn:Hget.
        { intros [= ->]. destruct body as [| | | | |m]; try discriminate.
          simpl in Hget. destruct (m !! ERROR_MESSAGE); discriminate. }
        destruct (py_in ERROR_REASON msg) as [e|[]] eqn:Hin'.
        -- intros [= ->]. by destruct msg.
        -- destruct (py_getitem msg ERROR_REASON) as [e|reason] eqn:Hget'.
           ++ intros [= ->]. destruct msg as [| | | | |m]; try discriminate.
              simpl in Hget'. destruct (m !! ERROR_REASON); discriminate.
           ++ by intros [= <- _].
        -- by intros [= <- _].
      * by intros [= <- _].
Qed.

Lemma process_response_keeps_status_witness :
  204%Z = status_code (respond 204 "").
Proof.
  exact (process_response_keeps_status sample_codec (respond 204 "") 204
           (JStr ERROR_UNKNOWN) eq_refl).
Defined.

(** X5: for a response with status code 504 the JSON decoder is never
    consulted: [process_response] raises [VcdResponseError] with code
    504 or, for a body that is not XML, the XML parser's error. *)
Theorem process_response_504 codec response
    (Hstatus : status_code response = 504%Z) :
  process_response codec response = inl XMLSyntaxError ∨
  ∃ message, process_response codec response
             = inl (VcdResponseError 504 message).
Proof.
  unfold process_response. rewrite bool_decide_false.
  - unfold response_to_exception. rewrite Hstatus. simpl.
    destruct (content response) as [[|b bs]|]; [right; eauto| |right; eauto].
    destruct (objectify_fromstring codec (b :: bs)); [right; eauto|by left].
  - rewrite Hstatus. HttpFacts.not_in_list.
Qed.

Lemma process_response_504_witness :
  process_response sample_codec (respond 504 "{}") = inl XMLSyntaxError ∨
  ∃ message, process_response sample_codec (respond 504 "{}")
             = inl (VcdResponseError 504 message).
Proof. exact (process_response_504 sample_codec (respond 504 "{}") eq_refl). Defined.

End HttpMoreFacts.

(** ** Properties of the configuration and permission checks *)

Module ChecksFacts.
Import Checks.

Lemma check_values_raises ref_items dikt bad e :
  check_values ref_items dikt bad = inl e -> ∃ name, e = KeyError name.
Proof.
  revert bad. induction ref_items as [|[k r] rest IH]; intros bad; simpl;
    [discriminate|].
  destruct (dikt !! k) as [v|]; [|apply IH].
  destruct (isinstance v (type_of r)); simpl; [apply IH|].
  destruct (_type_to_string (type_of r)); [apply IH|].
  intros [= <-]. eauto.
Qed.

Lemma check_values_clean ref_items dikt bad :
  check_values ref_items dikt bad = inr false ↔
  bad = false ∧ ∀ k r, (k, r) ∈ ref_items -> well_typed dikt k r = true.
Proof.
  revert bad. induction ref_items as [|[k r] rest IH]; intros bad; simpl.
  - split; [intros [= ->]; split; [done|]; intros ? ? H; by apply elem_of_nil in H
           |intros [-> _]; done].
  - unfold well_typed at 1.
    assert (∀ P : Prop,
              (∀ k' r', (k', r') ∈ (k, r) :: rest -> well_typed dikt k' r' = true)
              ↔ well_typed dikt k r = true ∧
                ∀ k' r', (k', r') ∈ rest -> well_typed dikt k' r' = true) as Hcons.
    { intros _. split.
      - intros H. split; [apply H; apply elem_of_cons; by left|].
        intros k' r' Hin. apply H. apply elem_of_cons. by right.
      - intros [H1 H2] k' r' Hin. apply elem_of_cons in Hin as [[= -> ->]|Hin];
          [done|by apply H2]. }
    rewrite (Hcons True). unfold well_typed at 1.
    destruct (dikt !! k) as [v|]; [|rewrite IH; tauto].
    destruct (isinstance v (type_of r)); simpl; [rewrite IH; tauto|].
    destruct (_type_to_string (type_of r)).
    + rewrite IH. split; [intros [? _]; discriminate|intros [_ [? _]]; discriminate].
    + split; [discriminate|intros [_ [? _]]; discriminate].
Qed.

(** With every reference type in the table, the loop does not raise and
    reports whether it met a value of the wrong type. *)
Lemma check_values_known ref_items dikt bad :
  (∀ k r, (k, r) ∈ ref_items -> is_Some (_type_to_string (type_of r))) ->
  check_values ref_items dikt bad
  = inr (bad || existsb (fun kr => negb (well_typed dikt kr.1 kr.2)) ref_items).
Proof.
  revert bad. induction ref_items as [|[k r] rest IH]; intros bad Hknown; simpl.
  - now rewrite orb_false_r.
  - assert (∀ k' r', (k', r') ∈ rest -> is_Some (_type_to_string (type_of r')))
      as Hrest by (intros k' r' Hin; apply (Hknown k'), elem_of_cons; by right).
    unfold well_typed at 1. simpl.
    destruct (dikt !! k) as [v|]; [|by rewrite IH].
    destruct (isinstance v (type_of r)); simpl; [by rewrite IH|].
    destruct (Hknown k r) as [name ->]; [apply elem_of_cons; by left|].
    rewrite IH by done. simpl. now rewrite orb_true_r.
Qed.

Lemma same_keys (dikt ref_dict : gmap string cfgval) :
  dom ref_dict ∖ dom dikt = (∅ : gset string) ∧
  dom dikt ∖ dom ref_dict = (∅ : gset string)
  ↔ dom dikt = dom ref_dict.
Proof.
  split.
  - intros [H1 H2]. apply set_eq. intros k. split; intros Hin.
    + destruct (decide (k ∈ dom ref_dict)) as [|Hn]; [done|].
      assert (k ∈ dom dikt ∖ dom ref_dict) as Hk by set_solver.
      rewrite H2 in Hk. set_solver.
    + destruct (decide (k ∈ dom dikt)) as [|Hn]; [done|].
      assert (k ∈ dom ref_dict ∖ dom dikt) as Hk by set_solver.
      rewrite H1 in Hk. set_solver.
  - intros Heq. rewrite Heq. split; apply difference_diag_L.
Qed.

(** X6: [check_keys_and_value_types] returns exactly when the dictionary
    has the keys of the reference, no more and no fewer, and every value
    is an instance of the type of the reference value under its key
    (a boolean counting as an integer). *)
Theorem check_keys_and_value_types_accepts dikt ref_dict location :
  check_keys_and_value_types dikt ref_dict location = inr tt ↔
  dom dikt = dom ref_dict ∧
  ∀ k value ref_value,
    dikt !! k = Some value -> ref_dict !! k = Some ref_value ->
    isinstance value (type_of ref_value) = true.
Proof.
  unfold check_keys_and_value_types.
  rewrite <- same_keys.
  assert ((∀ k r, (k, r) ∈ map_to_list ref_dict -> well_typed dikt k r = true)
          ↔ ∀ k value ref_value,
              dikt !! k = Some value -> ref_dict !! k = Some ref_value ->
              isinstance value (type_of ref_value) = true) as Htyped.
  { split.
    - intros H k v r Hv Hr. apply elem_of_map_to_list in Hr.
      specialize (H k r Hr). unfold well_typed in H. now rewrite Hv in H.
    - intros H k r Hin. apply elem_of_map_to_list in Hin.
      unfold well_typed. destruct (dikt !! k) as [v|] eqn:Hv; [eauto|done]. }
  destruct (check_values (map_to_list ref_dict) dikt false) as [e|bad] eqn:Hloop.
  - split; [discriminate|]. intros [_ Hall].
    pose proof (proj2 Htyped Hall) as Hall'.
    assert (check_values (map_to_list ref_dict) dikt false = inr false) as Hc
      by (apply check_values_clean; done).
    congruence.
  - repeat case_bool_decide; simpl.
    + destruct bad.
      * split; [discriminate|]. intros [_ Hall]. pose proof (proj2 Htyped Hall) as Hall'.
        assert (check_values (map_to_list ref_dict) dikt false = inr false) as Hc
          by (apply check_values_clean; done).
        congruence.
      * split; [intros _|done]. split; [done|].
        apply Htyped. by apply check_values_clean in Hloop as [_ ?].
    + split; [discriminate|]. intros [[_ ?] _]. done.
    + split; [discriminate|]. intros [[? _] _]. done.
    + split; [discriminate|]. intros [[? _] _]. done.
Qed.

Lemma check_keys_and_value_types_accepts_witness :
  check_keys_and_value_types MoreSamples.good_config MoreSamples.ref_config
    "config file" = inr tt.
Proof.
  apply (proj2 (check_keys_and_value_types_accepts MoreSamples.good_config
                  MoreSamples.ref_config "config file")).
  split; [by apply (bool_decide_unpack _)|].
  intros k value ref_value Hv Hr. unfold MoreSamples.good_config in Hv.
  unfold MoreSamples.ref_config in Hr.
  destruct (decide (k = "host")) as [->|];
    [by simplify_map_eq|].
  destruct (decide (k = "port")) as [->|];
    [by simplify_map_eq|].
  destruct (decide (k = "verify")) as [->|];
    [by simplify_map_eq|].
  by simplify_map_eq.
Defined.

(** X7: a missing or an extra key makes [check_keys_and_value_types]
    raise [KeyError], whatever the values are. *)
Theorem check_keys_and_value_types_keys_first dikt ref_dict location
    (Hkeys : dom dikt ≠ dom ref_dict) :
  ∃ what, check_keys_and_value_types dikt ref_dict location
          = inl (KeyError what).
Proof.
  unfold check_keys_and_value_types.
  destruct (check_values (map_to_list ref_dict) dikt false) as [e|bad] eqn:Hloop.
  - destruct (check_values_raises _ _ _ _ Hloop) as [name ->]. eauto.
  - rewrite <- same_keys in Hkeys.
    repeat case_bool_decide; simpl; eauto. tauto.
Qed.

Lemma check_keys_and_value_types_keys_first_witness :
  ∃ what, check_keys_and_value_types MoreSamples.short_config
            MoreSamples.ref_config "config file"
          = inl (KeyError what).
Proof.
  apply check_keys_and_value_types_keys_first.
  intros H. apply (f_equal (fun s : gset string => bool_decide ("verify" ∈ s))) in H.
  vm_compute in H. discriminate H.
Defined.

(** X8: with the right keys, a value of the wrong type makes
    [check_keys_and_value_types] raise [ValueError], provided every
    reference value is a string, an integer, a boolean, a mapping or a
    sequence. *)
Theorem check_keys_and_value_types_bad_value dikt ref_dict location
    k value ref_value
    (Hkeys : dom dikt = dom ref_dict)
    (Hknown : ∀ k' r, ref_dict !! k' = Some r ->
                      is_Some (_type_to_string (type_of r)))
    (Hvalue : dikt !! k = Some value)
    (Href : ref_dict !! k = Some ref_value)
    (Hbad : isinstance value (type_of ref_value) = false) :
  check_keys_and_value_types dikt ref_dict location
  = inl (ValueError ("Incorrect type for property value(s) in " +:+ location)).
Proof.
  unfold check_keys_and_value_types.
  rewrite check_values_known
    by (intros k' r Hin; apply elem_of_map_to_list in Hin; eauto).
  apply same_keys in Hkeys as [-> ->].
  rewrite !bool_decide_true by done. simpl.
  assert (existsb (fun kr => negb (well_typed dikt kr.1 kr.2))
            (map_to_list ref_dict) = true) as ->; [|done].
  apply existsb_exists. exists (k, ref_value). split.
  - apply list_elem_of_In, elem_of_map_to_list. done.
  - unfold well_typed. simpl. now rewrite Hvalue, Hbad.
Qed.

Lemma check_keys_and_value_types_bad_value_witness :
  check_keys_and_value_types MoreSamples.bad_config MoreSamples.ref_config
    "config file"
  = inl (ValueError "Incorrect type for property value(s) in config file").
Proof.
  refine (check_keys_and_value_types_bad_value MoreSamples.bad_config
            MoreSamples.ref_config "config file" "port" (CStr "443")
            (CInt 443) _ _ eq_refl eq_refl eq_refl).
  - by apply (bool_decide_unpack _).
  - intros k r Hr. unfold MoreSamples.ref_config in Hr.
    destruct (decide (k = "host")) as [->|]; [simplify_map_eq; eauto|].
    destruct (decide (k = "port")) as [->|]; [simplify_map_eq; eauto|].
    destruct (decide (k = "verify")) as [->|]; [simplify_map_eq; eauto|].
    by simplify_map_eq.
Defined.

End ChecksFacts.

Module PermissionFacts.
Import Checks.

Lemma truthy_false z : truthy z = false ↔ z = 0%Z.
Proof. unfold truthy. destruct (Z.eqb_spec z 0); simpl; split; congruence. Qed.

Lemma checked_bits_clear file_mode :
  Z.land file_mode checked_bits = 0%Z ↔
  Z.land file_mode S_IXUSR = 0%Z ∧
  (Z.land file_mode S_IROTH = 0%Z ∧ Z.land file_mode S_IWOTH = 0%Z ∧
   Z.land file_mode S_IXOTH = 0%Z) ∧
  (Z.land file_mode S_IRGRP = 0%Z ∧ Z.land file_mode S_IWGRP = 0%Z ∧
   Z.land file_mode S_IXGRP = 0%Z).
Proof.
  change checked_bits
    with (Z.lor S_IXUSR
            (Z.lor (Z.lor S_IROTH (Z.lor S_IWOTH S_IXOTH))
               (Z.lor S_IRGRP (Z.lor S_IWGRP S_IXGRP)))).
  rewrite !Z.land_lor_distr_r, !Z.lor_eq_0_iff. tauto.
Qed.

Lemma err_msgs_nil filename file_mode :
  err_msgs filename file_mode = [] ↔ Z.land file_mode checked_bits = 0%Z.
Proof.
  rewrite checked_bits_clear, <- !truthy_false. unfold err_msgs.
  destruct (truthy (Z.land file_mode S_IXUSR));
    destruct (truthy (Z.land file_mode S_IROTH));
    destruct (truthy (Z.land file_mode S_IWOTH));
    destruct (truthy (Z.land file_mode S_IXOTH));
    destruct (truthy (Z.land file_mode S_IRGRP));
    destruct (truthy (Z.land file_mode S_IWGRP));
    destruct (truthy (Z.land file_mode S_IXGRP)); simpl;
    split; try discriminate; try tauto; intros (? & (? & ? & ?) & ? & ? & ?);
    discriminate.
Qed.

(** X9: for a file [os.stat] finds, [check_file_permissions] returns
    exactly when the mode has none of the seven bits for owner execute
    and for group and others read, write and execute, that is when
    [mode & 0o177] is zero; the owner's read and write bits and the
    file type bits are not looked at. *)
Theorem check_file_permissions_accepts os_stat filename file_mode
    (Hstat : os_stat filename = inr file_mode) :
  check_file_permissions os_stat filename = PermissionsOk ↔
  Z.land file_mode checked_bits = 0%Z.
Proof.
  unfold check_file_permissions. rewrite Hstat.
  rewrite <- (err_msgs_nil filename).
  destruct (err_msgs filename file_mode); simpl; split; congruence.
Qed.

Lemma check_file_permissions_accepts_witness :
  check_file_permissions MoreSamples.os_stat "config.yaml" = PermissionsOk.
Proof.
  exact (proj2 (check_file_permissions_accepts MoreSamples.os_stat
                  "config.yaml" 33152 eq_refl) eq_refl).
Defined.

Lemma land_checked_bits file_mode bit :
  Z.land checked_bits bit = bit ->
  Z.land (Z.land file_mode checked_bits) bit = Z.land file_mode bit.
Proof. intros H. now rewrite <- Z.land_assoc, H. Qed.

(** X10: the messages of [check_file_permissions] depend on the seven
    checked bits of the mode only, there are at most three of them, and
    a refused file gets the [IOError] with exactly these messages. *)
Theorem check_file_permissions_messages os_stat filename file_mode
    (Hstat : os_stat filename = inr file_mode) :
  err_msgs filename file_mode
  = err_msgs filename (Z.land file_mode checked_bits) ∧
  (length (err_msgs filename file_mode) <= 3)%nat ∧
  (Z.land file_mode checked_bits ≠ 0%Z ->
   check_file_permissions os_stat filename
   = PermissionsIOError (err_msgs filename file_mode)).
Proof.
  split; [|split].
  - unfold err_msgs. now rewrite !land_checked_bits by reflexivity.
  - unfold err_msgs.
    destruct (truthy (Z.land file_mode S_IXUSR));
      destruct (truthy (Z.land file_mode S_IROTH) || truthy (Z.land file_mode S_IWOTH)
                || truthy (Z.land file_mode S_IXOTH));
      destruct (truthy (Z.land file_mode S_IRGRP) || truthy (Z.land file_mode S_IWGRP)
                || truthy (Z.land file_mode S_IXGRP)); simpl; lia.
  - intros Hbits. unfold check_file_permissions. rewrite Hstat.
    rewrite <- (err_msgs_nil filename) in Hbits.
    now destruct (err_msgs filename file_mode).
Qed.

Lemma check_file_permissions_messages_witness :
  check_file_permissions MoreSamples.os_stat "open.yaml"
  = PermissionsIOError
      [others_msg "open.yaml"; group_msg "open.yaml"].
Proof.
  exact (proj2 (proj2 (check_file_permissions_messages MoreSamples.os_stat
                         "open.yaml" 33188 eq_refl))
           ltac:(discriminate)).
Defined.

End PermissionFacts.

(** ** Properties of the script lookup *)

Module DataFileFacts.
Import DataFile.

Section WithFiles.
Context (is_file : string -> bool) (read_text : string -> result string).
Context (cwd : string) (sys_path : list string).

Lemma first_file_app paths1 paths2 :
  first_file is_file (paths1 ++ paths2)
  = match first_file is_file paths1 with
    | Some p => Some p
    | None => first_file is_file paths2
    end.
Proof.
  induction paths1 as [|p rest IH]; simpl; [done|].
  now destruct (is_file p).
Qed.

(** The two nested loops are one walk over the candidates. *)
Lemma search_candidates base_paths filename :
  search is_file base_paths filename
  = first_file is_file
      (concat ((fun base_path => possible_paths base_path filename)
               <$> base_paths)).
Proof.
  induction base_paths as [|base rest IH]; [done|].
  cbn [search fmap list_fmap concat]. rewrite first_file_app, IH.
  reflexivity.
Qed.

Lemma first_file_none paths :
  first_file is_file paths = None ↔ ∀ p, p ∈ paths -> is_file p = false.
Proof.
  induction paths as [|p rest IH]; simpl.
  - split; [intros _ q Hq; by apply elem_of_nil in Hq|done].
  - destruct (is_file p) eqn:Hp.
    + split; [discriminate|]. intros H.
      specialize (H p (list_elem_of_here _ _)). congruence.
    + rewrite IH. split.
      * intros H q Hq. apply elem_of_cons in Hq as [->|Hq]; auto.
      * intros H q Hq. apply H, elem_of_cons. by right.
Qed.

Lemma first_file_found before p after :
  (∀ q, q ∈ before -> is_file q = false) ->
  is_file p = true ->
  first_file is_file (before ++ p :: after) = Some p.
Proof.
  intros Hbefore Hp. rewrite first_file_app.
  rewrite (proj2 (first_file_none before) Hbefore). simpl. now rewrite Hp.
Qed.

(** X11: [get_data_file] reads the first path, in the order current
    directory first and then [sys.path], and for each base the scripts
    directory of the package, the base itself and its [scripts]
    subdirectory, that is a file; later copies are never read. *)
Theorem get_data_file_first_candidate filename before p after
    (Hcandidates : candidates cwd sys_path filename = before ++ p :: after)
    (Hbefore : ∀ q, q ∈ before -> is_file q = false)
    (Hfile : is_file p = true) :
  get_data_file is_file read_text cwd sys_path filename = read_text p.
Proof.
  unfold get_data_file. rewrite search_candidates.
  fold (candidates cwd sys_path filename). rewrite Hcandidates.
  now rewrite first_file_found.
Qed.

(** X12: [get_data_file] raises [FileNotFoundError] without reading
    anything when none of the candidate paths is a file, and only the
    three paths under the current directory and under each entry of
    [sys.path] are candidates. *)
Theorem get_data_file_not_found filename
    (Hnone : ∀ base_path p,
       base_path ∈ cwd :: sys_path ->
       p ∈ possible_paths base_path filename -> is_file p = false) :
  get_data_file is_file read_text cwd sys_path filename
  = inl (OSError "FileNotFoundError").
Proof.
  unfold get_data_file. rewrite search_candidates.
  rewrite (proj2 (first_file_none _)); [done|].
  intros p Hp. apply list_elem_of_In, in_concat in Hp as (paths & Hpaths & Hp).
  apply list_elem_of_In, list_elem_of_fmap in Hpaths as (base & -> & Hbase).
  apply list_elem_of_In in Hp. eauto.
Qed.

End WithFiles.

Section Examples.
Import MoreSamples.

Lemma get_data_file_first_candidate_witness :
  get_data_file script_is_file script_read_text "." python_path "init.sh"
  = inr "venv copy".
Proof.
  refine (get_data_file_first_candidate script_is_file script_read_text "."
            python_path "init.sh"
            [ "./container_service_extension_scripts/init.sh";
              "./init.sh"; "./scripts/init.sh" ]
            "/venv/lib/container_service_extension_scripts/init.sh"
            _ eq_refl _ eq_refl).
  intros q Hq.
  repeat (apply elem_of_cons in Hq as [->|Hq]; [reflexivity|]).
  now apply elem_of_nil in Hq.
Defined.

Lemma get_data_file_not_found_witness :
  get_data_file script_is_file script_read_text "." [] "init.sh"
  = inl (OSError "FileNotFoundError").
Proof.
  apply get_data_file_not_found. intros base_path p Hbase Hp.
  apply list_elem_of_singleton in Hbase as ->.
  repeat (apply elem_of_cons in Hp as [->|Hp]; [reflexivity|]).
  now apply elem_of_nil in Hp.
Defined.

End Examples.
End DataFileFacts.

(** ** Properties of catalog creation *)

Module CatalogAdminFacts.
Import CatalogAdmin.

Section WithOrg.
Context {W : Type} (org : OrgAdmin W).
Context (catalog_name catalog_desc : string).

Ltac unfold_t :=
  unfold create_and_share_catalog, catalog_exists, mbind, T_bind, mret, T_ret,
    t_bind, t_ret, t_call.

(** Closes the four parts of the count below on a finished run. *)
Ltac settle :=
  repeat split; intros; simplify_eq/=; try lia; try done; try congruence.

(** X13: a call of [create_and_share_catalog] that returns has made
    exactly these calls: when the lookup found the catalog, the lookup,
    share, reload and the final lookup, with no creation; when the
    lookup raised not-found, the lookup, create, reload, share, reload
    and the final lookup; and the first lookup ended in one of these two
    ways. *)
Theorem create_and_share_catalog_returns w catalog
    (Hreturns : t_result (create_and_share_catalog org catalog_name
                             catalog_desc w) = inr catalog) :
  let trace := t_events (create_and_share_catalog org catalog_name
                            catalog_desc w) in
  (∀ found w1,
     get_catalog org catalog_name w = (inr found, w1) ->
     trace = [EvGetCatalog catalog_name; EvShareCatalog catalog_name;
              EvOrgReload; EvGetCatalog catalog_name]) ∧
  (∀ what w1,
     get_catalog org catalog_name w = (inl (EntityNotFoundException what), w1) ->
     trace = [EvGetCatalog catalog_name;
              EvCreateCatalog catalog_name catalog_desc; EvOrgReload;
              EvShareCatalog catalog_name; EvOrgReload;
              EvGetCatalog catalog_name]) ∧
  ((∃ found w1, get_catalog org catalog_name w = (inr found, w1)) ∨
   (∃ what w1,
      get_catalog org catalog_name w
      = (inl (EntityNotFoundException what), w1))).
Proof.
  revert Hreturns. unfold t_result, t_events. unfold_t.
  destruct (get_catalog org catalog_name w) as [[[]|found] w1] eqn:Hget;
    simpl; try discriminate.
  - destruct (create_catalog org catalog_name catalog_desc w1) as [[e|[]] w2];
      simpl; [discriminate|].
    destruct (reload org w2) as [[e|[]] w3]; simpl; [discriminate|].
    destruct (share_catalog org catalog_name w3) as [[e|[]] w4]; simpl;
      [discriminate|].
    destruct (reload org w4) as [[e|[]] w5]; simpl; [discriminate|].
    destruct (get_catalog org catalog_name w5) as [[e|c] w6]; simpl;
      [discriminate|].
    intros _. split; [intros; discriminate|]. split; [done|]. right. eauto.
  - destruct (share_catalog org catalog_name w1) as [[e|[]] w4]; simpl;
      [discriminate|].
    destruct (reload org w4) as [[e|[]] w5]; simpl; [discriminate|].
    destruct (get_catalog org catalog_name w5) as [[e|c] w6]; simpl;
      [discriminate|].
    intros _. split; [done|]. split; [intros; discriminate|]. left. eauto.
Qed.

(** X14: in every run, failed or not, [create_and_share_catalog]
    creates at most once and shares at most once; it never creates when
    the lookup found the catalog, and it never shares after a failed
    creation. *)
Theorem create_and_share_catalog_at_most_once w :
  let trace := t_events (create_and_share_catalog org catalog_name
                            catalog_desc w) in
  (length (filter is_create trace) <= 1)%nat ∧
  (length (filter is_share trace) <= 1)%nat ∧
  (∀ found w1,
     get_catalog org catalog_name w = (inr found, w1) ->
     filter is_create trace = []) ∧
  (∀ what w1 e w2,
     get_catalog org catalog_name w = (inl (EntityNotFoundException what), w1) ->
     create_catalog org catalog_name catalog_desc w1 = (inl e, w2) ->
     filter is_share trace = []).
Proof.
  unfold t_events. unfold_t.
  destruct (get_catalog org catalog_name w) as [[[]|found] w1] eqn:Hget;
    simpl; try by settle.
  - destruct (create_catalog org catalog_name catalog_desc w1)
      as [[e|[]] w2] eqn:Hcreate; simpl; [by settle|].
    destruct (reload org w2) as [[e|[]] w3]; simpl; [by settle|].
    destruct (share_catalog org catalog_name w3) as [[e|[]] w4]; simpl;
      [by settle|].
    destruct (reload org w4) as [[e|[]] w5]; simpl; [by settle|].
    destruct (get_catalog org catalog_name w5) as [[e|c] w6]; simpl;
      by settle.
  - destruct (share_catalog org catalog_name w1) as [[e|[]] w4]; simpl;
      [by settle|].
    destruct (reload org w4) as [[e|[]] w5]; simpl; [by settle|].
    destruct (get_catalog org catalog_name w5) as [[e|c] w6]; simpl;
      by settle.
Qed.

End WithOrg.

Section Examples.
Import MoreSamples.

Lemma create_and_share_catalog_returns_witness :
  t_events (create_and_share_catalog org_admin "cse" "templates" ["other"])
  = [EvGetCatalog "cse"; EvCreateCatalog "cse" "templates"; EvOrgReload;
     EvShareCatalog "cse"; EvOrgReload; EvGetCatalog "cse"].
Proof.
  exact (proj1 (proj2
           (create_and_share_catalog_returns org_admin "cse" "templates"
              ["other"] {| catalog_href := "catalog/cse" |} eq_refl))
           "Catalog not found." ["other"] eq_refl).
Defined.

Lemma create_and_share_catalog_at_most_once_witness :
  filter is_create
    (t_events (create_and_share_catalog org_admin "cse" "templates" ["cse"]))
  = [].
Proof.
  exact (proj1 (proj2 (proj2
           (create_and_share_catalog_at_most_once org_admin "cse" "templates"
              ["cse"])))
           {| catalog_href := "catalog/cse" |} ["cse"] eq_refl).
Defined.

(** Created once, the catalog is found by the next call. *)
Example create_and_share_catalog_twice :
  t_events
    (create_and_share_catalog org_admin "cse" "templates"
       (t_state (create_and_share_catalog org_admin "cse" "templates" [])))
  = [EvGetCatalog "cse"; EvShareCatalog "cse"; EvOrgReload; EvGetCatalog "cse"].
Proof. reflexivity. Qed.

End Examples.
End CatalogAdminFacts.

(** ** More on the catalog upload *)

Module UploadMoreFacts.
Import Catalog MonadFacts CatalogFacts.

(** Runs a computation made of oracle calls to its end, one case per
    answer. *)
Ltac run_cases :=
  repeat (simpl;
          match goal with
          | |- context [match ?x with _ => _ end] =>
              lazymatch x with
              | context [match _ with _ => _ end] => fail
              | _ => destruct x eqn:?
              end
          end).

Section WithVcd.
Context {W : Type} (vcd : Vcd W).
Context (client : Client) (catalog_name filepath : string).
Context (org : option Org) (org_name : option string).

(** X15: no run of [upload_ova_to_catalog], with or without the update
    flag, failed or not, uploads more than once. *)
Theorem upload_ova_to_catalog_uploads_once update w :
  (uploads (events_of (upload_ova_to_catalog vcd client catalog_name filepath
                         update org org_name w)) <= 1)%nat.
Proof.
  pose proof (org_or_get_org_uploads vcd client org org_name w) as H0.
  unfold upload_ova_to_catalog.
  destruct (org_or_get_org vcd client org org_name w) as [[[e|o] w0] t0] eqn:Horg;
    rewrite (bind_run _ _ _ _ _ _ Horg); unfold events_of in *; simpl in H0.
  { simpl. lia. }
  unfold wait_for_catalog_item_to_resolve, org_or_get_org, first_task.
  unfold_m. destruct update; run_cases; simpl;
    rewrite ?uploads_app, H0; unfold uploads; simpl; lia.
Qed.


(** X17: with the update flag and no item of the derived name, the
    not-found of the delete is swallowed, the reload and the poll of the
    update block are skipped, and the call goes on as a plain upload:
    upload, reload, poll primitive. *)
Theorem upload_ova_to_catalog_update_absent
    w o w0 t0 what w1 w2 w3 w4 t_confirm
    (Horg : org_or_get_org vcd client org org_name w = (inr o, w0, t0))
    (Hdelete : org_delete_catalog_item vcd o catalog_name
                 (path_name vcd filepath) w0
               = (inl (EntityNotFoundException what), w1))
    (Hupload : org_upload_ovf vcd o catalog_name filepath w1 = (inr tt, w2))
    (Hreload : org_reload vcd o w2 = (inr tt, w3))
    (Hconfirm : wait_for_catalog_item_to_resolve vcd client catalog_name
                  (path_name vcd filepath) (Some o) None w3
                = (inr tt, w4, t_confirm)) :
  upload_ova_to_catalog vcd client catalog_name filepath true org org_name w
  = (inr tt, w4,
     t0 ++ [EvDeleteCatalogItem catalog_name (path_name vcd filepath);
            EvUploadOvf catalog_name filepath; EvReload o] ++ t_confirm).
Proof.
  unfold upload_ova_to_catalog.
  rewrite (bind_run _ _ _ _ _ _ Horg). cbv beta iota zeta.
  erewrite bind_run;
    [|erewrite try_run;
      [|rewrite (bind_run _ _ _ _ _ _ (call_run _ _ _ _ _ Hdelete)); reflexivity];
      reflexivity].
  cbv beta iota.
  rewrite (bind_run _ _ _ _ _ _ (call_run _ _ _ _ _ Hupload)).
  rewrite (bind_run _ _ _ _ _ _ (call_run _ _ _ _ _ Hreload)).
  rewrite Hconfirm. simpl. by rewrite ?app_nil_r.
Qed.

(** X18: without the update flag and without the item, an exception of
    [upload_ovf] leaves [upload_ova_to_catalog] as it is, right after
    the upload call: the org is not reloaded and nothing is polled. *)
Theorem upload_ova_to_catalog_upload_rejected w o w0 t0 what w1 e w2
    (Horg : org_or_get_org vcd client org org_name w = (inr o, w0, t0))
    (Habsent : org_get_catalog_item vcd o catalog_name
                 (path_name vcd filepath) w0
               = (inl (EntityNotFoundException what), w1))
    (Hupload : org_upload_ovf vcd o catalog_name filepath w1 = (inl e, w2)) :
  upload_ova_to_catalog vcd client catalog_name filepath false org org_name w
  = (inl e, w2,
     t0 ++ [EvGetCatalogItem catalog_name (path_name vcd filepath);
            EvUploadOvf catalog_name filepath]).
Proof.
  unfold upload_ova_to_catalog.
  rewrite (bind_run _ _ _ _ _ _ Horg). cbv beta iota zeta.
  erewrite bind_run;
    [|erewrite try_run;
      [|rewrite (bind_run _ _ _ _ _ _ (call_run _ _ _ _ _ Habsent)); reflexivity];
      reflexivity].
  cbv beta iota.
  rewrite (bind_run _ _ _ _ _ _ (call_run _ _ _ _ _ Hupload)).
  simpl. by rewrite ?app_nil_r.
Qed.

(** X19: with the update flag, an exception of the delete other than
    [EntityNotFoundException] leaves [upload_ova_to_catalog] as it is:
    the guard of the update block does not catch it and nothing is
    uploaded. *)
Theorem upload_ova_to_catalog_delete_fails w o w0 t0 e w1
    (Horg : org_or_get_org vcd client org org_name w = (inr o, w0, t0))
    (Hdelete : org_delete_catalog_item vcd o catalog_name
                 (path_name vcd filepath) w0 = (inl e, w1))
    (Hother : ∀ what, e ≠ EntityNotFoundException what) :
  upload_ova_to_catalog vcd client catalog_name filepath true org org_name w
  = (inl e, w1,
     t0 ++ [EvDeleteCatalogItem catalog_name (path_name vcd filepath)]).
Proof.
  unfold upload_ova_to_catalog.
  rewrite (bind_run _ _ _ _ _ _ Horg). cbv beta iota zeta.
  destruct e as [what| | | | | | | | | |]; [now destruct (Hother what)|..];
    (erewrite bind_run;
     [|erewrite try_run;
       [|rewrite (bind_run _ _ _ _ _ _ (call_run _ _ _ _ _ Hdelete));
         reflexivity];
       reflexivity]);
    reflexivity.
Qed.

(** X20: when the resource of the catalog item lists no task,
    [wait_for_catalog_item_to_resolve] raises [AttributeError] and
    waits on nothing. *)
Theorem wait_for_catalog_item_to_resolve_no_task
    item_name w o w0 t0 item w1 resource w2
    (Horg : org_or_get_org vcd client org org_name w = (inr o, w0, t0))
    (Hitem : org_get_catalog_item vcd o catalog_name item_name w0
             = (inr item, w1))
    (Hresource : client_get_resource vcd client (Entity_href item) w1
                 = (inr resource, w2))
    (Htasks : Tasks resource = []) :
  wait_for_catalog_item_to_resolve vcd client catalog_name item_name
    org org_name w
  = (inl (AttributeError "no such child: Tasks"), w2,
     EvWaitForCatalogItem catalog_name item_name
     :: t0 ++ [EvGetCatalogItem catalog_name item_name;
               EvGetResource (Entity_href item)]) ∧
  task_waits
    (events_of (wait_for_catalog_item_to_resolve vcd client catalog_name
                  item_name org org_name w)) = [].
Proof.
  pose proof (org_or_get_org_steps vcd client org org_name w) as [_ Hnone].
  rewrite Horg in Hnone. unfold events_of in Hnone. simpl in Hnone.
  rewrite (wait_for_catalog_item_to_resolve_run vcd client catalog_name
             item_name org org_name o w w0 t0 Horg).
  cbv zeta. rewrite Hitem, Hresource. unfold first_task. rewrite Htasks.
  split; [reflexivity|]. unfold events_of. simpl.
  change (?a :: t0 ++ ?l) with ([a] ++ t0 ++ l).
  now rewrite !task_waits_app, Hnone.
Qed.

End WithVcd.

Section Examples.
Import Samples.


Lemma upload_ova_to_catalog_update_absent_witness :
  upload_ova_to_catalog vcd caller_client "templates" "/tmp/image.ova" true
    None None world0
  = (inr tt, world_with_image,
     [EvGetOrg None; EvDeleteCatalogItem "templates" "image.ova";
      EvUploadOvf "templates" "/tmp/image.ova"; EvReload current_org;
      EvWaitForCatalogItem "templates" "image.ova";
      EvGetCatalogItem "templates" "image.ova";
      EvGetResource "entity/image.ova"; EvWaitForSuccess image_task]).
Proof.
  exact (upload_ova_to_catalog_update_absent vcd caller_client "templates"
           "/tmp/image.ova" None None world0 current_org world0
           [EvGetOrg None] "Catalog item not found." world0 world_with_image
           world_with_image world_with_image
           [EvWaitForCatalogItem "templates" "image.ova";
            EvGetCatalogItem "templates" "image.ova";
            EvGetResource "entity/image.ova"; EvWaitForSuccess image_task]
           eq_refl eq_refl eq_refl eq_refl eq_refl).
Defined.

Lemma upload_ova_to_catalog_upload_rejected_witness :
  upload_ova_to_catalog vcd caller_client "templates" "/tmp/image.ova" false
    None None MoreSamples.world_rejecting
  = (inl (ExternalError "UploadException"), MoreSamples.world_rejecting,
     [EvGetOrg None; EvGetCatalogItem "templates" "image.ova";
      EvUploadOvf "templates" "/tmp/image.ova"]).
Proof.
  exact (upload_ova_to_catalog_upload_rejected vcd caller_client "templates"
           "/tmp/image.ova" None None MoreSamples.world_rejecting current_org
           MoreSamples.world_rejecting [EvGetOrg None]
           "Catalog item not found." MoreSamples.world_rejecting
           (ExternalError "UploadException") MoreSamples.world_rejecting
           eq_refl eq_refl eq_refl).
Defined.

Lemma upload_ova_to_catalog_delete_fails_witness :
  upload_ova_to_catalog MoreSamples.vcd_offline caller_client "templates"
    "/tmp/image.ova" true (Some current_org) None world0
  = (inl (ExternalError "ConnectionError"), world0,
     [EvDeleteCatalogItem "templates" "image.ova"]).
Proof.
  refine (upload_ova_to_catalog_delete_fails MoreSamples.vcd_offline
            caller_client "templates" "/tmp/image.ova" (Some current_org) None
            world0 current_org world0 [] (ExternalError "ConnectionError")
            world0 eq_refl eq_refl _).
  discriminate.
Defined.

Lemma wait_for_catalog_item_to_resolve_no_task_witness :
  wait_for_catalog_item_to_resolve MoreSamples.vcd_offline caller_client
    "templates" "image.ova" (Some current_org) None world_with_image
  = (inl (AttributeError "no such child: Tasks"), world_with_image,
     [EvWaitForCatalogItem "templates" "image.ova";
      EvGetCatalogItem "templates" "image.ova";
      EvGetResource "entity/image.ova"]).
Proof.
  exact (proj1 (wait_for_catalog_item_to_resolve_no_task
                  MoreSamples.vcd_offline caller_client "templates"
                  (Some current_org) None "image.ova" world_with_image
                  current_org world_with_image [] image_item world_with_image
                  {| Tasks := [] |} world_with_image
                  eq_refl eq_refl eq_refl eq_refl)).
Defined.

End Examples.
End UploadMoreFacts.

(** ** More on hashing and download *)

Module DownloadMoreFacts.
Import Download DownloadGuard MonadFacts.

Section WithOs.
Context (hasher : Hasher) {N : Type} (os : Os N).

(** X21: for a hash that can be fed in pieces, [get_sha256] of a file is
    the digest of its whole content: the size of the read buffer does
    not show in the result. *)
Theorem get_sha256_whole_content files filepath data
    (Hpieces : ∀ h a b,
       sha256_update hasher (sha256_update hasher h a) b
       = sha256_update hasher h (a ++ b))
    (Hnothing : ∀ h, sha256_update hasher h [] = h)
    (Hfile : files !! filepath = Some (File data)) :
  get_sha256 hasher files filepath
  = inr (hexdigest hasher (sha256_update hasher (sha256_new hasher) data)).
Proof.
  unfold get_sha256, file_digest. rewrite Hfile. do 2 f_equal.
  assert (1 <= Z.to_nat BUF_SIZE)%nat as Hbuf by (unfold BUF_SIZE; lia).
  assert (∀ turns content h,
            (length content <= turns)%nat ->
            read_loop hasher turns content h = sha256_update hasher h content)
    as Hloop; [|by apply Hloop].
  induction turns as [|turns IH]; intros content h Hlen.
  - destruct content; [|simpl in Hlen; lia]. now rewrite Hnothing.
  - rewrite DownloadFacts.read_loop_S.
    set (size := Z.to_nat BUF_SIZE) in *. clearbody size.
    destruct (take size content) as [|b chunk] eqn:Htake.
    + destruct content as [|b content]; [now rewrite Hnothing|].
      destruct size; [lia|discriminate].
    + rewrite IH.
      * now rewrite Hpieces, <- Htake, take_drop.
      * rewrite length_drop.
        destruct content as [|b' content]; [now rewrite take_nil in Htake|].
        cbn [length] in *. lia.
Qed.

Lemma write_chunks_run filepath chunks files n data :
  files !! filepath = Some (File data) ->
  write_chunks (N:=N) filepath chunks {| fs := files; net := n |}
  = (inr tt,
     {| fs := <[filepath := File (data ++ concat chunks)]> files; net := n |},
     []).
Proof.
  revert files data. induction chunks as [|chunk rest IH]; intros files data Hf.
  - simpl. rewrite app_nil_r, insert_id by done. reflexivity.
  - cbn [write_chunks concat].
    assert (write_chunk (N:=N) filepath chunk {| fs := files; net := n |}
            = (inr tt,
               {| fs := <[filepath := File (data ++ chunk)]> files; net := n |},
               [])) as Hw.
    { unfold write_chunk. erewrite bind_run; [|reflexivity]. simpl.
      rewrite Hf. reflexivity. }
    rewrite (bind_run _ _ _ _ _ _ Hw).
    rewrite (IH _ (data ++ chunk)) by apply lookup_insert_eq.
    now rewrite insert_insert_eq, app_assoc.
Qed.

Lemma download_file_starts url filepath sha256 s :
  must_download hasher (fs s) filepath sha256 ->
  download_file hasher os url filepath sha256 s
  = (files ← lift (parent_mkdir os filepath (fs s));
     put_fs files;;
     response ← call (EvRequestsGet url) (on_net (requests_get os url));
     match files !! filepath with
     | Some Dir => raise (OSError "IsADirectoryError")
     | _ =>
         put_fs (<[filepath := File []]> files);;
         write_chunks filepath response.1;;
         match response.2 with
         | Some e => raise e
         | None => mret tt
         end
     end) s.
Proof.
  intros Hmust. unfold download_file.
  erewrite bind_run; [|reflexivity]. cbv beta iota.
  assert ((if is_file (fs s) filepath
           then lift (digest_matches hasher (fs s) filepath sha256)
           else mret false) s = (inr false, s, [])) as Hskip.
  { destruct Hmust as [->|(data & expected & Hf & -> & Hne)]; [done|].
    unfold is_file, digest_matches, get_sha256. rewrite Hf.
    now rewrite bool_decide_false. }
  rewrite (bind_run _ _ _ _ _ _ Hskip). cbv beta iota.
  now destruct ((files ← lift (parent_mkdir os filepath (fs s)); _) s)
    as [[r s'] t].
Qed.

Lemma download_file_fetch_run url filepath sha256 s files chunks
    stream_error n :
  must_download hasher (fs s) filepath sha256 ->
  parent_mkdir os filepath (fs s) = inr files ->
  requests_get os url (net s) = (inr (chunks, stream_error), n) ->
  files !! filepath ≠ Some Dir ->
  download_file hasher os url filepath sha256 s
  = (match stream_error with Some e => inl e | None => inr tt end,
     {| fs := <[filepath := File (concat chunks)]> files; net := n |},
     [EvRequestsGet url]).
Proof.
  intros Hmust Hmkdir Hget Hnodir.
  rewrite download_file_starts by done.
  erewrite bind_run; [|unfold lift; rewrite Hmkdir; reflexivity].
  cbv beta iota.
  erewrite bind_run; [|reflexivity]. cbv beta iota.
  erewrite bind_run;
    [|apply call_run; unfold on_net; simpl; rewrite Hget; reflexivity].
  cbv beta iota.
  assert ((put_fs (N:=N) (<[filepath := File []]> files);;
           write_chunks filepath chunks;;
           match stream_error with
           | Some e => raise e
           | None => mret tt
           end) {| fs := files; net := n |}
          = (match stream_error with Some e => inl e | None => inr tt end,
             {| fs := <[filepath := File (concat chunks)]> files; net := n |},
             [])) as Hwrite.
  { erewrite bind_run; [|reflexivity]. cbv beta iota. simpl.
    erewrite bind_run; [|apply (write_chunks_run _ _ _ _ []), lookup_insert_eq].
    simpl. rewrite insert_insert_eq. now destruct stream_error. }
  simpl. destruct (files !! filepath) as [[data|]|]; [| done |];
    now rewrite Hwrite.
Qed.

(** X22: when [download_file] does download and the request is
    answered, the file at [filepath] holds exactly the bytes that
    arrived, in order, whatever was there before and whatever digest was
    asked for, no other path is touched after the parent directories
    were made, and one request was sent; the call returns when the
    stream ended well, and when it broke, the exception of the stream
    leaves the call and the shortened file stays. *)
Theorem download_file_writes_stream url filepath sha256 s files chunks
    stream_error n
    (Hmust : must_download hasher (fs s) filepath sha256)
    (Hmkdir : parent_mkdir os filepath (fs s) = inr files)
    (Hget : requests_get os url (net s) = (inr (chunks, stream_error), n))
    (Hnodir : files !! filepath ≠ Some Dir) :
  let run := download_file hasher os url filepath sha256 s in
  result_of run
  = match stream_error with Some e => inl e | None => inr tt end ∧
  fs (state_of run) !! filepath = Some (File (concat chunks)) ∧
  (∀ other, other ≠ filepath -> fs (state_of run) !! other = files !! other) ∧
  events_of run = [EvRequestsGet url].
Proof.
  intros run. unfold run.
  rewrite (download_file_fetch_run url filepath sha256 s files chunks
             stream_error n) by done.
  unfold result_of, state_of, events_of. simpl.
  repeat split.
  - apply lookup_insert_eq.
  - intros other Hother. now apply lookup_insert_ne.
Qed.

(** X23: when the request itself fails, its exception leaves
    [download_file] before the destination is opened: a file already at
    [filepath] is not shortened, and what is there is what making the
    parent directories left. *)
Theorem download_file_request_fails url filepath sha256 s files e n
    (Hmust : must_download hasher (fs s) filepath sha256)
    (Hmkdir : parent_mkdir os filepath (fs s) = inr files)
    (Hget : requests_get os url (net s) = (inl e, n)) :
  download_file hasher os url filepath sha256 s
  = (inl e, {| fs := files; net := n |}, [EvRequestsGet url]).
Proof.
  rewrite download_file_starts by done.
  erewrite bind_run; [|unfold lift; rewrite Hmkdir; reflexivity].
  cbv beta iota.
  erewrite bind_run; [|reflexivity]. cbv beta iota.
  erewrite bind_run;
    [|apply call_run; unfold on_net; simpl; rewrite Hget; reflexivity].
  reflexivity.
Qed.

(** X24: after a download that went through, calling [download_file]
    again for the same path sends no request and changes nothing when
    no digest is asked for or the digest asked for is the one of the
    bytes that arrived. *)
Theorem download_file_then_skip url filepath sha256 sha256' s files chunks n
    (Hmust : must_download hasher (fs s) filepath sha256)
    (Hmkdir : parent_mkdir os filepath (fs s) = inr files)
    (Hget : requests_get os url (net s) = (inr (chunks, None), n))
    (Hnodir : files !! filepath ≠ Some Dir)
    (Hagain : sha256' = None ∨
              sha256' = Some (file_digest hasher (concat chunks))) :
  let after := state_of (download_file hasher os url filepath sha256 s) in
  download_file hasher os url filepath sha256' after = (inr tt, after, []).
Proof.
  rewrite (download_file_fetch_run url filepath sha256 s files chunks None n)
    by done.
  unfold state_of. simpl.
  apply (DownloadFacts.download_file_skip hasher os url filepath sha256' _
           (concat chunks)); [|done].
  apply lookup_insert_eq.
Qed.

End WithOs.

Section Examples.
Import Samples MoreSamples.

Lemma get_sha256_whole_content_witness :
  get_sha256 plain_hasher (fs disk) "/tmp/image.ova" = inr "old image".
Proof.
  refine (get_sha256_whole_content plain_hasher (fs disk) "/tmp/image.ova"
            (String.list_byte_of_string "old image") _ _ eq_refl).
  - intros h a b. simpl. now rewrite app_assoc.
  - intros h. simpl. apply app_nil_r.
Defined.

Lemma download_file_writes_stream_witness :
  result_of (download_file plain_hasher os_broken
               "https://example.com/image.ova" "/tmp/image.ova"
               (Some "new image") disk)
  = inl (ExternalError "ChunkedEncodingError") ∧
  fs (state_of (download_file plain_hasher os_broken
                  "https://example.com/image.ova" "/tmp/image.ova"
                  (Some "new image") disk)) !! "/tmp/image.ova"
  = Some (File (String.list_byte_of_string "new ")).
Proof.
  assert (must_download plain_hasher (fs disk) "/tmp/image.ova"
            (Some "new image")) as Hmust.
  { right. exists (String.list_byte_of_string "old image"), "new image".
    split; [reflexivity|]. split; [reflexivity|]. vm_compute. discriminate. }
  assert (fs disk !! "/tmp/image.ova" ≠ Some Dir) as Hnodir
    by (vm_compute; discriminate).
  destruct (download_file_writes_stream plain_hasher os_broken
              "https://example.com/image.ova" "/tmp/image.ova"
              (Some "new image") disk (fs disk)
              [String.list_byte_of_string "new "]
              (Some (ExternalError "ChunkedEncodingError")) 1
              Hmust eq_refl eq_refl Hnodir) as (Hresult & Hfile & _ & _).
  split; [exact Hresult|exact Hfile].
Defined.

Lemma download_file_request_fails_witness :
  download_file plain_hasher os_unreachable "https://example.com/image.ova"
    "/tmp/image.ova" (Some "new image") disk
  = (inl (ExternalError "ConnectionError"), disk,
     [EvRequestsGet "https://example.com/image.ova"]).
Proof.
  refine (download_file_request_fails plain_hasher os_unreachable
            "https://example.com/image.ova" "/tmp/image.ova"
            (Some "new image") disk (fs disk)
            (ExternalError "ConnectionError") 0 _ eq_refl eq_refl).
  right. exists (String.list_byte_of_string "old image"), "new image".
  split; [reflexivity|]. split; [reflexivity|]. vm_compute. discriminate.
Defined.

Lemma download_file_then_skip_witness :
  download_file plain_hasher os "https://example.com/image.ova"
    "/tmp/image.ova" None
    (state_of (download_file plain_hasher os "https://example.com/image.ova"
                 "/tmp/image.ova" None empty_disk))
  = (inr tt,
     state_of (download_file plain_hasher os "https://example.com/image.ova"
                 "/tmp/image.ova" None empty_disk),
     []).
Proof.
  refine (download_file_then_skip plain_hasher os
            "https://example.com/image.ova" "/tmp/image.ova" None None
            empty_disk ∅
            [String.list_byte_of_string "new ";
             String.list_byte_of_string "image"] 1 _ eq_refl eq_refl _ _).
  - left. reflexivity.
  - vm_compute. discriminate.
  - left. reflexivity.
Defined.

End Examples.
End DownloadMoreFacts.

(** ** More on the vSphere connection *)

Module VsphereMoreFacts.
Import Lru LruFacts Vsphere MonadFacts VsphereFacts.

Section WithVcd.
Context {W : Type} (vcd : Vcd W).
Context (config : Config) (vapp : VApp) (vm_name : string) (logger : bool).

Lemma endpoint_of_entry_fields item vs :
  endpoint_of_entry item = inr vs ->
  item !! "hostname" = Some (vs_arg1 vs) ∧
  item !! "username" = Some (vs_arg2 vs) ∧
  item !! "password" = Some (vs_arg3 vs) ∧
  item !! "port" = Some (vs_arg4 vs).
Proof.
  unfold endpoint_of_entry, dict_getitem.
  destruct (item !! "hostname"); [|discriminate].
  destruct (item !! "username"); [|discriminate].
  destruct (item !! "password"); [|discriminate].
  destruct (item !! "port"); [|discriminate].
  by intros [= <-].
Qed.

Lemma resolution_chain_login_is_system s ev :
  ev ∈ events_of (resolution_chain vcd config vapp vm_name s) ->
  is_login ev = true ->
  ev = EvSetCredentials (vcd_host (vcd_section config))
         (system_credentials config).
Proof.
  unfold resolution_chain, events_of. unfold_ms. simpl.
  destruct (set_credentials vcd _ _ (world s)) as [[e|client] w2]; simpl.
  2: destruct (vapp_get_vm vcd _ _ w2) as [[e|vm_resource] w3]; simpl.
  3: destruct (vm_get_vc vcd _ _ w3) as [[e|vcenter_name] w4]; simpl.
  4: destruct (platform_get_vcenter vcd _ _ w4) as [[e|vcenter] w5]; simpl.
  5: destruct (urlparse vcd _) as [e|vcenter_url]; simpl.
  all: intros Hin Hlogin.
  all: repeat (apply elem_of_cons in Hin as [->|Hin]; [done || discriminate|]).
  all: by apply elem_of_nil in Hin.
Qed.

Lemma store_fails_run s1 vm_id item :
  (maxsize (cache s1) < 1)%nat ->
  (on_cache (W:=W) (setitem vm_id item);; return_endpoint vm_id logger) s1
  = (inl (ValueError "value too large"), s1, []).
Proof.
  intros Hsmall.
  erewrite bind_run.
  2: { unfold on_cache, setitem.
       destruct (Nat.ltb_spec (maxsize (cache s1)) 1); [|lia]. reflexivity. }
  now destruct s1.
Qed.

(** X25: whatever the platform answers, one call of [get_vsphere] logs
    in at most once, and a login it makes is to the host of
    [config['vcd']] with its user name and password in the System
    organisation, never through the client of the caller's vApp. *)
Theorem get_vsphere_logs_in_as_system s :
  (logins (events_of (get_vsphere vcd config vapp vm_name logger s)) <= 1)%nat ∧
  ∀ ev,
    ev ∈ events_of (get_vsphere vcd config vapp vm_name logger s) ->
    is_login ev = true ->
    ev = EvSetCredentials (vcd_host (vcd_section config))
           {| cred_user := vcd_username (vcd_section config);
              cred_org := SYSTEM_ORG_NAME;
              cred_password := vcd_password (vcd_section config) |}.
Proof.
  destruct (vapp_get_vm vcd vapp vm_name (world s)) as [[e|vm] w1] eqn:Hvm.
  { rewrite (get_vsphere_no_vm vcd config vapp vm_name logger _ _ _ Hvm).
    unfold events_of. simpl. split; [unfold logins; simpl; lia|].
    intros ev Hin Hlogin.
    apply elem_of_cons in Hin as [->|Hin]; [discriminate|].
    by apply elem_of_nil in Hin. }
  destruct (assoc (id vm) (entries (cache s))) as [item|] eqn:Hhit.
  { rewrite (get_vsphere_hit vcd config vapp vm_name logger _ _ _ _ Hvm Hhit).
    unfold events_of. simpl. split; [unfold logins; simpl; lia|].
    intros ev Hin Hlogin.
    apply elem_of_cons in Hin as [->|Hin]; [discriminate|].
    by apply elem_of_nil in Hin. }
  assert (contains (id vm) (cache s) = false) as Hmiss.
  { apply contains_false. now apply assoc_None. }
  pose proof (resolution_chain_one_login vcd config vapp vm_name
                {| cache := cache s; world := w1 |}) as Hone.
  pose proof (resolution_chain_login_is_system
                {| cache := cache s; world := w1 |}) as Hsys.
  pose proof (resolution_chain_cache vcd config vapp vm_name
                {| cache := cache s; world := w1 |}) as Hc.
  assert (events_of (get_vsphere vcd config vapp vm_name logger s)
          = EvVAppGetVm vapp vm_name ::
            events_of (resolution_chain vcd config vapp vm_name
                         {| cache := cache s; world := w1 |})) as ->.
  { destruct (resolution_chain vcd config vapp vm_name
                {| cache := cache s; world := w1 |})
      as [[[e|[vcenter_name vcenter_url]] s1] trace] eqn:Hchain.
    - now rewrite (get_vsphere_miss vcd config vapp vm_name logger _ _ _ Hvm Hmiss),
        Hchain.
    - unfold state_of in Hc. simpl in Hc.
      destruct (Nat.ltb_spec (maxsize (cache s)) 1) as [Hsmall|Hroom].
      + rewrite (get_vsphere_miss vcd config vapp vm_name logger _ _ _ Hvm Hmiss),
          Hchain, store_fails_run by (rewrite Hc; lia).
        unfold events_of. simpl. now rewrite app_nil_r.
      + now rewrite (get_vsphere_miss_ok vcd config vapp vm_name logger
                       _ _ _ _ _ _ _ Hvm Hmiss Hroom Hchain). }
  split.
  - change (EvVAppGetVm vapp vm_name :: ?t) with ([EvVAppGetVm vapp vm_name] ++ t).
    rewrite logins_app, Hone. unfold logins. simpl. lia.
  - intros ev Hin Hlogin.
    apply elem_of_cons in Hin as [->|Hin]; [discriminate|].
    now apply Hsys.
Qed.

(** X26: whenever [get_vsphere] returns, the cache holds afterwards,
    under the id of the VM, a record whose values under "hostname",
    "username", "password" and "port" are, in this order, the four
    positional arguments of the [VSphere] call that made the object
    returned. *)
Theorem get_vsphere_returns_cached_record s vm w1 vs
    (Hvm : vapp_get_vm vcd vapp vm_name (world s) = (inr vm, w1))
    (Hret : result_of (get_vsphere vcd config vapp vm_name logger s) = inr vs) :
  ∃ item,
    assoc (id vm)
      (entries (cache (state_of (get_vsphere vcd config vapp vm_name logger s))))
    = Some item ∧
    item !! "hostname" = Some (vs_arg1 vs) ∧
    item !! "username" = Some (vs_arg2 vs) ∧
    item !! "password" = Some (vs_arg3 vs) ∧
    item !! "port" = Some (vs_arg4 vs).
Proof.
  destruct (assoc (id vm) (entries (cache s))) as [item|] eqn:Hhit.
  { rewrite (get_vsphere_hit vcd config vapp vm_name logger _ _ _ _ Hvm Hhit) in *.
    unfold result_of, state_of in *. simpl in *.
    exists item. split; [|now apply endpoint_of_entry_fields].
    unfold getitem. rewrite Hhit. simpl.
    rewrite assoc_app_r by apply remove_not_elem.
    simpl. now rewrite bool_decide_true. }
  assert (contains (id vm) (cache s) = false) as Hmiss.
  { apply contains_false. now apply assoc_None. }
  pose proof (resolution_chain_cache vcd config vapp vm_name
                {| cache := cache s; world := w1 |}) as Hc.
  destruct (resolution_chain vcd config vapp vm_name
              {| cache := cache s; world := w1 |})
    as [[[e|[vcenter_name vcenter_url]] s1] trace] eqn:Hchain;
    unfold state_of in Hc; simpl in Hc.
  { rewrite (get_vsphere_miss vcd config vapp vm_name logger _ _ _ Hvm Hmiss),
      Hchain in Hret. discriminate Hret. }
  destruct (Nat.ltb_spec (maxsize (cache s)) 1) as [Hsmall|Hroom].
  { rewrite (get_vsphere_miss vcd config vapp vm_name logger _ _ _ Hvm Hmiss),
      Hchain, store_fails_run in Hret by (rewrite Hc; lia).
    discriminate Hret. }
  rewrite (get_vsphere_miss_ok vcd config vapp vm_name logger
             _ _ _ _ _ _ _ Hvm Hmiss Hroom Hchain) in *.
  unfold result_of, state_of in *. simpl in *.
  exists (compose_cache_item config vcenter_name vcenter_url).
  split; [|now apply endpoint_of_entry_fields].
  unfold setitem. rewrite Hmiss.
  destruct (Nat.ltb_spec (maxsize (cache s)) 1); [lia|]. simpl.
  rewrite assoc_app_r
    by (apply evict_not_elem; now apply contains_false in Hmiss).
  simpl. now rewrite bool_decide_true.
Qed.

(** X27: on a miss whose chain completes, the second and the third
    argument of the [VSphere] call are the user name and the password
    of the first entry of [config['vcs']] named like the VM's vCenter,
    the first and the fourth are the host name and the port parsed from
    the URL of the vCenter; entries after the first match, same name or
    not, play no part in the record that is cached. *)
Theorem get_vsphere_first_entry_wins s vm w1 vcenter_name vcenter_url s1 trace
    before vc after after'
    (Hvm : vapp_get_vm vcd vapp vm_name (world s) = (inr vm, w1))
    (Hmiss : contains (id vm) (cache s) = false)
    (Hmax : (1 <= maxsize (cache s))%nat)
    (Hchain : resolution_chain vcd config vapp vm_name
                {| cache := cache s; world := w1 |}
              = (inr (vcenter_name, vcenter_url), s1, trace))
    (Hvcs : vcs config = before ++ vc :: after)
    (Hbefore : ∀ vc', vc' ∈ before -> vc_name vc' ≠ vcenter_name)
    (Hvc : vc_name vc = vcenter_name) :
  result_of (get_vsphere vcd config vapp vm_name logger s)
  = inr {| vs_arg1 := vcenter_url.1; vs_arg2 := vc_username vc;
           vs_arg3 := vc_password vc; vs_arg4 := vcenter_url.2 |} ∧
  compose_cache_item config vcenter_name vcenter_url
  = compose_cache_item
      {| vcd_section := vcd_section config; vcs := before ++ vc :: after' |}
      vcenter_name vcenter_url.
Proof.
  split.
  - rewrite (get_vsphere_miss_ok vcd config vapp vm_name logger
               _ _ _ _ _ _ _ Hvm Hmiss Hmax Hchain).
    unfold result_of, compose_cache_item. simpl.
    rewrite Hvcs, (for_vc_in_vcs_first_match _ _ _ _ _ Hbefore Hvc).
    apply endpoint_of_entry_credentials.
  - unfold compose_cache_item. simpl.
    now rewrite Hvcs, !(for_vc_in_vcs_first_match _ _ _ _ _ Hbefore Hvc).
Qed.

End WithVcd.

Section Examples.
Import Samples MoreSamples.

Lemma get_vsphere_returns_cached_record_witness :
  ∃ item,
    assoc (id node1)
      (entries (cache (state_of
         (get_vsphere vcd_8443 config0 vapp0 "node-1" false state0))))
    = Some item ∧
    item !! "hostname" = Some (PStr "vc2.example.com") ∧
    item !! "username" = Some (PStr "u2") ∧
    item !! "password" = Some (PStr "p2") ∧
    item !! "port" = Some (PInt 8443).
Proof.
  exact (get_vsphere_returns_cached_record vcd_8443 config0 vapp0 "node-1" false
           state0 node1 world0
           {| vs_arg1 := PStr "vc2.example.com"; vs_arg2 := PStr "u2";
              vs_arg3 := PStr "p2"; vs_arg4 := PInt 8443 |}
           eq_refl eq_refl).
Defined.

Lemma get_vsphere_first_entry_wins_witness :
  result_of (get_vsphere vcd_8443 config_twice vapp0 "node-1" false state0)
  = inr {| vs_arg1 := PStr "vc2.example.com"; vs_arg2 := PStr "u2";
           vs_arg3 := PStr "p2"; vs_arg4 := PInt 8443 |}.
Proof.
  refine (proj1 (get_vsphere_first_entry_wins vcd_8443 config_twice vapp0
                   "node-1" false state0 node1 world0 "vc2"
                   (PStr "vc2.example.com", PInt 8443) _ _
                   [ {| vc_name := "vc1"; vc_username := PStr "u1";
                        vc_password := PStr "p1" |} ]
                   {| vc_name := "vc2"; vc_username := PStr "u2";
                      vc_password := PStr "p2" |}
                   [ {| vc_name := "vc2"; vc_username := PStr "u9";
                        vc_password := PStr "p9" |} ] []
                   eq_refl eq_refl _ eq_refl eq_refl _ eq_refl)).
  - unfold state0, initial_cache, CACHE_MAXSIZE. simpl. lia.
  - intros vc' Hin.
    apply elem_of_cons in Hin as [->|Hin]; [discriminate|].
    now apply elem_of_nil in Hin.
Defined.

End Examples.
End VsphereMoreFacts.
